(** * ADSBtool: the pandas analysis pipeline of [src/analysis.py] and
    [src/analysis_simple.py]

    The analyzers read the CSV written by [scrapper.py] into a pandas
    DataFrame and derive maps and statistics from it.  The development
    embeds the DataFrame operations the analyzers call (missing values,
    [dropna], [sort_values], [groupby], [drop_duplicates], [value_counts],
    [diff], [median]) and, on top of them, the methods of
    [AircraftMapAnalyzer] and [SimpleAircraftPlotter].

    Numbers are IEEE binary64 (the kernel's primitive floats), a missing
    numeric cell is NaN, a missing timestamp is NaT, integers are [Z] or
    [nat], Python exceptions are an explicit result type. *)

From Stdlib Require Import List ZArith Bool String Ascii Lia.
From Stdlib Require Import Permutation Sorted Floats QArith OrdersEx.
Import ListNotations.

Set Implicit Arguments.

(* ================================================================== *)
(** * Python values *)
(* ================================================================== *)

Module Py.

(** The exceptions the embedded code can meet. *)
Inductive exn : Type :=
| KeyError          (* a column the frame does not have *)
| ValueError        (* an unparsable date, strftime on NaT *)
| IndexError        (* [l[0]] or [df.iloc[0]] on nothing *)
| ZeroDivisionError
| OSError           (* the CSV cannot be read *)
| AttributeError.   (* a method the value does not have *)

Inductive result (A : Type) : Type :=
| Ok (a : A)
| Raise (e : exn).

Arguments Ok {A} a.
Arguments Raise {A} e.

Definition bind {A B : Type} (m : result A) (k : A -> result B) : result B :=
  match m with
  | Ok a => k a
  | Raise e => Raise e
  end.

(** [for x in xs: ...] with a body that may raise. *)
Fixpoint mapM {A B : Type} (f : A -> result B) (l : list A) : result (list B) :=
  match l with
  | [] => Ok []
  | x :: t =>
      bind (f x) (fun y => bind (mapM f t) (fun ys => Ok (y :: ys)))
  end.

(** [bool(x)] of a float: false exactly for [0.0] and [-0.0]; NaN is true. *)
Definition truthy (x : float) : bool := negb (PrimFloat.eqb x 0%float).

(** [x or y] on floats: [x] when [x] is truthy, else [y]. *)
Definition or_ (x y : float) : float := if truthy x then x else y.

(** [x > y] on floats (false as soon as one side is NaN). *)
Definition gt (x y : float) : bool := PrimFloat.ltb y x.

(** [n / d] on Python ints, as an exact rational. *)
Definition truediv (n d : nat) : result Q :=
  match d with
  | O => Raise ZeroDivisionError
  | S _ => Ok (Qmake (Z.of_nat n) (Pos.of_nat d))
  end.

(** The ASCII white space [str.strip] removes: tab to carriage return,
    the four separators 28 to 31, and the space. *)
Definition isspace (c : ascii) : bool :=
  let n := nat_of_ascii c in
  (n =? 32)%nat || ((9 <=? n)%nat && (n <=? 13)%nat)
  || ((28 <=? n)%nat && (n <=? 31)%nat).

Fixpoint lstrip (s : string) : string :=
  match s with
  | EmptyString => EmptyString
  | String c t => if isspace c then lstrip t else s
  end.

Fixpoint rstrip (s : string) : string :=
  match s with
  | EmptyString => EmptyString
  | String c t =>
      match rstrip t with
      | EmptyString => if isspace c then EmptyString else String c EmptyString
      | t' => String c t'
      end
  end.

Definition strip (s : string) : string := rstrip (lstrip s).

End Py.

Notation "x <- m ;; k" := (Py.bind m (fun x => k))
  (at level 61, m at next level, right associativity).

(* ================================================================== *)
(** * numpy: the default sort *)
(* ================================================================== *)

Module Numpy.

(** [ndarray.argsort(kind='quicksort')] on a column of 64-bit times
    ([aquicksort] of numpy's npysort): an introsort on the array [tosort]
    of positions, which starts as [0 .. num-1] and is rearranged in place;
    [v] is the column, read through the positions.  A slice [pl .. pr] of
    more than [SMALL_QUICKSORT] positions is partitioned around the median
    of its first, middle and last keys, the larger part is put on the
    stack and the smaller is gone on with; a slice of up to
    [SMALL_QUICKSORT] positions is sorted by insertion, which keeps equal
    keys in their order; a slice met with the depth allowance used up is
    sorted by [aheapsort].  A result of [None] stands for a run that
    leaves its array or its loop bound, which the C code does not do. *)

(** The longest slice left to the insertion sort. *)
Definition SMALL_QUICKSORT : nat := 16.

(** [tosort[p]] and [tosort[p] = i] *)
Definition get (tosort : list nat) (p : nat) : nat := nth p tosort 0%nat.

Fixpoint put (tosort : list nat) (p i : nat) : list nat :=
  match tosort, p with
  | [], _ => []
  | _ :: rest, O => i :: rest
  | j :: rest, S p' => j :: put rest p' i
  end.

Definition INTP_SWAP (tosort : list nat) (p q : nat) : list nat :=
  put (put tosort p (get tosort q)) q (get tosort p).

Section Column.

Variable v : list Z.

(** [v[*p]] and [Tag::less] *)
Definition key (tosort : list nat) (p : nat) : Z := nth (get tosort p) v 0%Z.

Definition less (a b : Z) : bool := (a <? b)%Z.

(** ** Insertion sort of a slice *)

(** [while (pj > pl && less(vp, v[*pk])) *pj-- = *pk--;  *pj = vi;] *)
Fixpoint insert_down (pj : nat) (tosort : list nat) (pl vi : nat) : list nat :=
  match pj with
  | O => put tosort O vi
  | S pk =>
      if (pl <? pj)%nat && less (nth vi v 0%Z) (key tosort pk)
      then insert_down pk (put tosort pj (get tosort pk)) pl vi
      else put tosort pj vi
  end.

(** [for (pi = pl + 1; pi <= pr; ++pi)] *)
Definition insertion_sort (tosort : list nat) (pl pr : nat) : list nat :=
  fold_left (fun tosort pi => insert_down pi tosort pl (get tosort pi))
            (seq (S pl) (pr - pl)) tosort.

(** ** Partition of a slice *)

(** [do ++pi; while (less(v[*pi], vp));] with [room] positions above [pi] *)
Fixpoint scan_up (room : nat) (tosort : list nat) (vp : Z) (pi : nat) : option nat :=
  match room with
  | O => None
  | S room' =>
      if less (key tosort (S pi)) vp
      then scan_up room' tosort vp (S pi)
      else Some (S pi)
  end.

(** [do --pj; while (less(vp, v[*pj]));] *)
Fixpoint scan_down (pj : nat) (tosort : list nat) (vp : Z) : option nat :=
  match pj with
  | O => None
  | S pj' =>
      if less vp (key tosort pj')
      then scan_down pj' tosort vp
      else Some pj'
  end.

(** The [for (;;)] of the partition: scan, stop when the scans meet,
    else swap and go on. *)
Fixpoint exchange (fuel : nat) (tosort : list nat) (vp : Z) (pi pj pr : nat)
    : option (list nat * nat) :=
  match fuel with
  | O => None
  | S fuel' =>
      match scan_up (pr - pi) tosort vp pi with
      | None => None
      | Some pi =>
          match scan_down pj tosort vp with
          | None => None
          | Some pj =>
              if (pj <=? pi)%nat then Some (tosort, pi)
              else exchange fuel' (INTP_SWAP tosort pi pj) vp pi pj pr
          end
      end
  end.

(** One partition of [pl .. pr]: the positions rearranged and the place
    [pi] of the pivot. *)
Definition partition (tosort : list nat) (pl pr : nat) : option (list nat * nat) :=
  let pm := (pl + (pr - pl) / 2)%nat in
  let tosort :=
    if less (key tosort pm) (key tosort pl) then INTP_SWAP tosort pm pl else tosort in
  let tosort :=
    if less (key tosort pr) (key tosort pm) then INTP_SWAP tosort pr pm else tosort in
  let tosort :=
    if less (key tosort pm) (key tosort pl) then INTP_SWAP tosort pm pl else tosort in
  let vp := key tosort pm in
  let tosort := INTP_SWAP tosort pm (pr - 1) in
  match exchange (S (pr - pl)) tosort vp pl (pr - 1) pr with
  | None => None
  | Some (tosort, pi) => Some (INTP_SWAP tosort pi (pr - 1), pi)
  end.

(** ** Heap sort of a slice *)

(** [a = tosort + pl - 1], so that the slice is [a[1] .. a[n]]. *)
Definition heap_get (tosort : list nat) (pl k : nat) : nat := get tosort (pl + k - 1).

Definition heap_put (tosort : list nat) (pl k i : nat) : list nat :=
  put tosort (pl + k - 1) i.

(** [for (i = .., j = ..; j <= n;) { ... }  a[i] = tmp;] *)
Fixpoint sift (fuel : nat) (tosort : list nat) (pl n tmp i j : nat)
    : option (list nat) :=
  match fuel with
  | O => None
  | S fuel' =>
      if (j <=? n)%nat then
        let j :=
          if (j <? n)%nat
             && less (nth (heap_get tosort pl j) v 0%Z)
                     (nth (heap_get tosort pl (j + 1)) v 0%Z)
          then (j + 1)%nat else j in
        if less (nth tmp v 0%Z) (nth (heap_get tosort pl j) v 0%Z)
        then sift fuel' (heap_put tosort pl i (heap_get tosort pl j)) pl n tmp j (j + j)
        else Some (heap_put tosort pl i tmp)
      else Some (heap_put tosort pl i tmp)
  end.

(** [for (l = n >> 1; l > 0; --l)] *)
Fixpoint heapify (l : nat) (tosort : list nat) (pl n : nat) : option (list nat) :=
  match l with
  | O => Some tosort
  | S l' =>
      match sift (S n) tosort pl n (heap_get tosort pl l) l (l + l) with
      | None => None
      | Some tosort => heapify l' tosort pl n
      end
  end.

(** [for (; n > 1;)] *)
Fixpoint extract (n : nat) (tosort : list nat) (pl : nat) : option (list nat) :=
  match n with
  | O => Some tosort
  | S n' =>
      if (1 <? n)%nat then
        let tmp := heap_get tosort pl n in
        let tosort := heap_put tosort pl n (heap_get tosort pl 1) in
        match sift n tosort pl n' tmp 1 2 with
        | None => None
        | Some tosort => extract n' tosort pl
        end
      else Some tosort
  end.

Definition aheapsort (tosort : list nat) (pl n : nat) : option (list nat) :=
  match heapify (n / 2) tosort pl n with
  | None => None
  | Some tosort => extract n tosort pl
  end.

(** ** The introsort *)

(** The inner [while]: as long as the slice [pl .. pr], of [pr - pl + 1]
    positions, is long, partition it, push the larger part with the depth
    left, and go on with the smaller.  The two stacks of the C code, of
    slices and of depths, are pushed and popped together and are one list
    here. *)
Fixpoint partition_loop (fuel : nat) (tosort : list nat) (pl pr : nat)
    (stack : list (nat * nat * Z)) (cdepth : Z)
    : option (list nat * nat * nat * list (nat * nat * Z)) :=
  match fuel with
  | O => None
  | S fuel' =>
      if (SMALL_QUICKSORT <? S (pr - pl))%nat then
        match partition tosort pl pr with
        | None => None
        | Some (tosort, pi) =>
            let cdepth := (cdepth - 1)%Z in
            if (pi - pl <? pr - pi)%nat
            then partition_loop fuel' tosort pl (pi - 1)
                                ((pi + 1, pr, cdepth)%nat :: stack) cdepth
            else partition_loop fuel' tosort (pi + 1) pr
                                ((pl, pi - 1, cdepth)%nat :: stack) cdepth
        end
      else Some (tosort, pl, pr, stack)
  end.

(** The outer [while (1)], one slice a turn. *)
Fixpoint slices (fuel : nat) (tosort : list nat) (pl pr : nat)
    (stack : list (nat * nat * Z)) (cdepth : Z) : option (list nat) :=
  match fuel with
  | O => None
  | S fuel' =>
      let sorted :=
        if (cdepth <? 0)%Z
        then match aheapsort tosort pl (pr - pl + 1) with
             | None => None
             | Some tosort => Some (tosort, stack)
             end
        else match partition_loop (S (pr - pl)) tosort pl pr stack cdepth with
             | None => None
             | Some (tosort, pl, pr, stack) =>
                 Some (insertion_sort tosort pl pr, stack)
             end in
      match sorted with
      | None => None
      | Some (tosort, []) => Some tosort
      | Some (tosort, (pl, pr, cdepth) :: stack) =>
          slices fuel' tosort pl pr stack cdepth
      end
  end.

Definition aquicksort : option (list nat) :=
  let num := List.length v in
  slices (S num) (seq 0 num) 0 (num - 1) [] (2 * Z.of_nat (Nat.log2 num)).

End Column.

(** The indexer of the sorted column. *)
Definition quicksort (keys : list Z) : list nat :=
  match aquicksort keys with
  | Some tosort => tosort
  | None => []
  end.

End Numpy.

(* ================================================================== *)
(** * pandas: cells, rows, frames *)
(* ================================================================== *)

Module Pandas.

Import Py.

(** A cell of an object column: a string, or NaN when the CSV field is
    empty. *)
Inductive object : Type :=
| ONaN
| OStr (s : string).

(** A [datetime64[ns]] cell: nanoseconds since the epoch; [None] is NaT. *)
Definition datetime64 : Type := option Z.

(** The text of a CSV timestamp field, read as [pd.to_datetime] reads it:
    empty, a date (given by the instant it denotes), or text that is no
    date. *)
Inductive csv_time : Type :=
| TimeEmpty
| TimeText (ns : Z)
| TimeGarbage (text : string).

(** One row of the scrapper's CSV.  [T] is the type of the timestamp
    column: [csv_time] as read, [datetime64] after [pd.to_datetime].  The
    columns vertical_rate, squawk, on_ground, last_contact, spi and
    position_source are carried along by the source and read by none of
    the functions below. *)
Record RowOf (T : Type) : Type := mkRow {
  timestamp : T;
  icao24 : object;
  callsign : object;
  latitude : float;
  longitude : float;
  baro_altitude : float;
  true_track : float;
  velocity : float;
  geo_altitude : float
}.

Definition CsvRow : Type := RowOf csv_time.
Definition Row : Type := RowOf datetime64.

(** Shorthand for the rows of the examples: a row as read from the CSV and
    the same row once its timestamp is parsed, with a heading of 0 degrees
    and a speed of 250 knots. *)
Definition csv_row (t : csv_time) (icao call : string)
    (lat lon baro geo : float) : CsvRow :=
  mkRow t (OStr icao) (OStr call) lat lon baro 0%float 250%float geo.

Definition parsed_row (t : datetime64) (icao call : string)
    (lat lon baro geo : float) : Row :=
  mkRow t (OStr icao) (OStr call) lat lon baro 0%float 250%float geo.

(** A DataFrame: [pd.DataFrame()] has no column at all; a frame read from
    the CSV has the columns of [RowOf], and any number of rows. *)
Inductive DataFrame : Type :=
| NoColumns
| Frame (rows : list Row).

Definition rows_of (df : DataFrame) : list Row :=
  match df with
  | NoColumns => []
  | Frame rows => rows
  end.

(** [df.empty] *)
Definition empty (df : DataFrame) : bool :=
  match rows_of df with
  | [] => true
  | _ :: _ => false
  end.

(** [len(df)] *)
Definition len (df : DataFrame) : nat := List.length (rows_of df).

(** [df[col]]: KeyError on a frame without columns. *)
Definition column {A : Type} (df : DataFrame) (col : Row -> A) : result (list A) :=
  match df with
  | NoColumns => Raise KeyError
  | Frame rows => Ok (map col rows)
  end.

(** ** Missing values *)

Definition isna (x : float) : bool := PrimFloat.is_nan x.
Definition notna (x : float) : bool := negb (isna x).

Definition isna_obj (o : object) : bool :=
  match o with
  | ONaN => true
  | OStr _ => false
  end.

(** [Series.dropna()] on a float, object, datetime or timedelta column. *)
Definition dropna_float (l : list float) : list float := filter notna l.

Fixpoint dropna_obj (l : list object) : list string :=
  match l with
  | [] => []
  | ONaN :: t => dropna_obj t
  | OStr s :: t => s :: dropna_obj t
  end.

Fixpoint dropna_time (l : list (option Z)) : list Z :=
  match l with
  | [] => []
  | None :: t => dropna_time t
  | Some z :: t => z :: dropna_time t
  end.

(** [Series.isna().sum()] *)
Definition isna_sum (l : list float) : nat := List.length (filter isna l).
Definition isna_sum_obj (l : list object) : nat := List.length (filter isna_obj l).

(** [a.fillna(b)], element by element. *)
Fixpoint fillna (a b : list float) : list float :=
  match a, b with
  | x :: a', y :: b' => (if isna x then y else x) :: fillna a' b'
  | _, _ => a
  end.

(** [df.dropna(subset=['latitude', 'longitude'])] *)
Definition has_coordinates {T : Type} (r : RowOf T) : bool :=
  notna (latitude r) && notna (longitude r).

Definition dropna_coordinates {T : Type} (rows : list (RowOf T)) : list (RowOf T) :=
  filter has_coordinates rows.

(** ** [pd.to_datetime] *)

Definition to_datetime_cell (c : csv_time) : result datetime64 :=
  match c with
  | TimeEmpty => Ok None
  | TimeText ns => Ok (Some ns)
  | TimeGarbage _ => Raise ValueError
  end.

Definition set_timestamp {T U : Type} (r : RowOf T) (t : U) : RowOf U :=
  mkRow t (icao24 r) (callsign r) (latitude r) (longitude r)
        (baro_altitude r) (true_track r) (velocity r) (geo_altitude r).

(** [df['timestamp'] = pd.to_datetime(df['timestamp'])]: one cell that is
    no date raises for the whole column. *)
Definition to_datetime (rows : list CsvRow) : result (list Row) :=
  mapM (fun r => t <- to_datetime_cell (timestamp r) ;; Ok (set_timestamp r t)) rows.

(** ** Positional selection *)

(** [l.take(indexer)]; an index outside [l] selects nothing (pandas would
    raise, the indexers built below never leave the frame). *)
Definition take {A : Type} (l : list A) (indexer : list nat) : list A :=
  flat_map (fun i => match nth_error l i with
                     | Some x => [x]
                     | None => []
                     end) indexer.

(** [l[mask]] *)
Fixpoint boolean_index {A : Type} (l : list A) (mask : list bool) : list A :=
  match l, mask with
  | x :: l', b :: mask' =>
      if b then x :: boolean_index l' mask' else boolean_index l' mask'
  | _, _ => []
  end.

(** ** Sorting

    [sort_values] without [kind=] sorts with numpy's default, 'quicksort',
    which pandas documents as not stable ('mergesort' and 'stable' are the
    only stable kinds).  What the library promises of [argsort] is the
    contract [argsort_spec]: the indexer is a permutation of the positions
    and reads the keys in non-decreasing order.  The order among equal keys
    is the implementation's; numpy's is {!Numpy.quicksort}. *)

Definition argsort_spec (argsort : list Z -> list nat) : Prop :=
  forall keys : list Z,
    Permutation (argsort keys) (seq 0 (List.length keys)) /\
    StronglySorted Z.le (map (fun i => nth i keys 0%Z) (argsort keys)).

(** The positions and values of the cells that are not NaT, and the
    positions of those that are, counting from [i]. *)
Fixpoint notna_items (i : nat) (items : list datetime64) : list (nat * Z) :=
  match items with
  | [] => []
  | Some t :: rest => (i, t) :: notna_items (S i) rest
  | None :: rest => notna_items (S i) rest
  end.

Fixpoint nan_idx (i : nat) (items : list datetime64) : list nat :=
  match items with
  | [] => []
  | Some _ :: rest => nan_idx (S i) rest
  | None :: rest => i :: nan_idx (S i) rest
  end.

(** Two concrete sorts by insertion of the positions [n-1 .. 0] in turn.
    With [before_equal = true] a position goes in front of the equal keys
    already placed (all of later positions): ties keep the input order.
    With [false] it goes behind them: ties come out reversed. *)
Fixpoint insert_position (before_equal : bool) (keys : list Z) (i : nat)
    (sorted : list nat) : list nat :=
  match sorted with
  | [] => [i]
  | j :: rest =>
      let ki := nth i keys 0%Z in
      let kj := nth j keys 0%Z in
      if (if before_equal then ki <=? kj else ki <? kj)%Z
      then i :: sorted
      else j :: insert_position before_equal keys i rest
  end.

Definition insertion_argsort (before_equal : bool) (keys : list Z) : list nat :=
  fold_right (insert_position before_equal keys) [] (seq 0 (List.length keys)).

Definition stable_argsort : list Z -> list nat := insertion_argsort true.
Definition reversing_argsort : list Z -> list nat := insertion_argsort false.

(** [Series.sort_values()] on plain integers (used for the median, where
    only the values matter). *)
Fixpoint insert_sorted (x : Z) (l : list Z) : list Z :=
  match l with
  | [] => [x]
  | y :: t => if (x <=? y)%Z then x :: l else y :: insert_sorted x t
  end.

Definition sort_ints (l : list Z) : list Z := fold_right insert_sorted [] l.

Section Sorting.

Variable argsort : list Z -> list nat.

(** [nargsort(items, kind='quicksort', ascending=True, na_position='last')]:
    the cells that are not NaT in sorted order, then the NaT cells in input
    order. *)
Definition nargsort (items : list datetime64) : list nat :=
  let present := notna_items 0 items in
  take (map fst present) (argsort (map snd present)) ++ nan_idx 0 items.

(** [df.sort_values('timestamp')] *)
Definition sort_values_timestamp (rows : list Row) : list Row :=
  take rows (nargsort (map (@timestamp _) rows)).

(** [Series.sort_values(ascending=False)] on counts: the ascending indexer
    read backwards. *)
Definition sort_counts_descending {A : Type} (l : list (A * nat)) : list (A * nat) :=
  take l (rev (argsort (map (fun p => Z.of_nat (snd p)) l))).

End Sorting.

(** The indexer keeps the input order among equal keys. *)
Definition stable_indexer (items : list datetime64) (indexer : list nat) : Prop :=
  forall p q i j,
    (p < q)%nat ->
    nth_error indexer p = Some i ->
    nth_error indexer q = Some j ->
    nth i items None = nth j items None ->
    (i < j)%nat.

(** Ascending order on timestamps with NaT last. *)
Definition time_le (a b : datetime64) : Prop :=
  match a, b with
  | Some x, Some y => (x <= y)%Z
  | _, None => True
  | None, Some _ => False
  end.

(** ** Grouping *)

(** The distinct keys in ascending order (Python compares strings by code
    point, as [String.compare] does on the bytes). *)
Fixpoint insert_key (k : string) (keys : list string) : list string :=
  match keys with
  | [] => [k]
  | h :: t =>
      match String.compare k h with
      | Lt => k :: keys
      | Eq => keys
      | Gt => h :: insert_key k t
      end
  end.

Definition sorted_unique (l : list string) : list string :=
  fold_right insert_key [] l.

(** Strictly ascending order on keys. *)
Definition key_lt (a b : string) : Prop := String.compare a b = Lt.

Definition has_icao24 (k : string) (r : Row) : bool :=
  match icao24 r with
  | OStr s => String.eqb s k
  | ONaN => false
  end.

(** [df.groupby('icao24')], as iterated: with the defaults [sort=True] and
    [dropna=True] the groups come in ascending key order, rows without a
    key belong to no group, and each group keeps the frame's row order. *)
Definition groupby_icao24 (rows : list Row) : list (string * list Row) :=
  map (fun k => (k, filter (has_icao24 k) rows))
      (sorted_unique (dropna_obj (map (@icao24 _) rows))).

(** ** Duplicates *)

(** Equality of two cells as [duplicated] hashes them: [==], and NaN equal
    to NaN. *)
Definition same_value (x y : float) : bool :=
  PrimFloat.eqb x y || (isna x && isna y).

Definition same_position (r1 r2 : Row) : bool :=
  same_value (latitude r1) (latitude r2) &&
  same_value (longitude r1) (longitude r2).

(** What [same_value] compares: NaN, zero of either sign, an infinity, or
    a finite number. *)
Inductive value_key : Type :=
| KNaN
| KZero
| KInf (negative : bool)
| KFin (negative : bool) (mantissa : positive) (exponent : Z).

Definition spec_key (f : spec_float) : value_key :=
  match f with
  | S754_zero _ => KZero
  | S754_infinity s => KInf s
  | S754_nan => KNaN
  | S754_finite s m e => KFin s m e
  end.

Definition float_key (x : float) : value_key := spec_key (Prim2SF x).

Definition position_key (r : Row) : value_key * value_key :=
  (float_key (latitude r), float_key (longitude r)).

(** [df.duplicated(subset=['latitude', 'longitude'], keep='first')]: true
    at every row whose position occurred in an earlier row. *)
Fixpoint duplicated_after (seen : list Row) (rows : list Row) : list bool :=
  match rows with
  | [] => []
  | r :: rest => existsb (same_position r) seen :: duplicated_after (r :: seen) rest
  end.

Definition duplicated (rows : list Row) : list bool := duplicated_after [] rows.

(** [df.drop_duplicates(subset=['latitude', 'longitude'], keep='first')],
    that is [df[~df.duplicated(...)]]. *)
Definition drop_duplicates (rows : list Row) : list Row :=
  boolean_index rows (map negb (duplicated rows)).

(** ** Counting *)

(** [Series.unique()]: the distinct values in order of first appearance. *)
Fixpoint unique (l : list string) : list string :=
  match l with
  | [] => []
  | x :: t => x :: filter (fun y => negb (String.eqb x y)) (unique t)
  end.

Definition count (s : string) (l : list string) : nat :=
  List.length (filter (String.eqb s) l).

(** [Series.value_counts(sort=False)] *)
Definition value_counts_unsorted (l : list string) : list (string * nat) :=
  map (fun s => (s, count s l)) (unique l).

(** [Series.nunique()] *)
Definition nunique (l : list object) : nat := List.length (unique (dropna_obj l)).

(** ** Time deltas *)

(** [Series.diff()] on timestamps: NaT at the first row and wherever one of
    the two rows is NaT. *)
Fixpoint diff_after (prev : datetime64) (l : list datetime64) : list (option Z) :=
  match l with
  | [] => []
  | t :: rest =>
      match prev, t with
      | Some a, Some b => Some (b - a)%Z
      | _, _ => None
      end :: diff_after t rest
  end.

Definition diff (l : list datetime64) : list (option Z) :=
  match l with
  | [] => []
  | t :: rest => None :: diff_after t rest
  end.

(** [Series.median()] of time deltas, in nanoseconds: the middle value, or
    the mean of the two middle values cut to whole nanoseconds (the result
    is cast back to [timedelta64[ns]]); NaT when there is no value. *)
Definition median (l : list Z) : option Z :=
  let s := sort_ints l in
  let n := List.length s in
  match n with
  | O => None
  | _ =>
      if Nat.even n
      then Some (Z.quot (nth (n / 2 - 1) s 0 + nth (n / 2) s 0) 2)%Z
      else Some (nth (n / 2) s 0%Z)
  end.

(** [Series.min()] and [Series.max()] on timestamps, NaT skipped. *)
Definition time_min (l : list datetime64) : datetime64 :=
  match dropna_time l with
  | [] => None
  | x :: t => Some (fold_left Z.min t x)
  end.

Definition time_max (l : list datetime64) : datetime64 :=
  match dropna_time l with
  | [] => None
  | x :: t => Some (fold_left Z.max t x)
  end.

(** ** Sorting on several columns

    [sort_values] with a list of columns sorts with a lexsort, which is
    stable: insertion by a comparison, each row going in front of the rows
    it is not greater than. *)
Fixpoint insert_by {A : Type} (leb : A -> A -> bool) (x : A) (l : list A) : list A :=
  match l with
  | [] => [x]
  | h :: t => if leb x h then x :: l else h :: insert_by leb x t
  end.

Definition lexsort {A : Type} (leb : A -> A -> bool) (l : list A) : list A :=
  fold_right (insert_by leb) [] l.

(** Ascending order of timestamps with NaT last, as a test. *)
Definition time_leb (a b : datetime64) : bool :=
  match a, b with
  | Some x, Some y => (x <=? y)%Z
  | _, None => true
  | None, Some _ => false
  end.

(** [Series.idxmax()] of counts: the label of the first row that holds the
    largest count. *)
Fixpoint idxmax (l : list (string * nat)) : option (string * nat) :=
  match l with
  | [] => None
  | p :: t =>
      match idxmax t with
      | Some q => if (snd p <? snd q)%nat then Some q else Some p
      | None => Some p
      end
  end.

End Pandas.

(* ================================================================== *)
(** * [class AircraftMapAnalyzer] (src/analysis.py) *)
(* ================================================================== *)

Module AircraftMapAnalyzer.

Import Py Pandas.

(** ** View models: what each method adds to its map *)

(** A [folium.CircleMarker] of the static map.  The popup is formatted
    from the row and the altitude. *)
Record Marker : Type := mkMarker {
  marker_location : float * float;
  marker_color : string;
  marker_altitude : float;
  marker_row : Row
}.

(** A feature of the [TimestampedGeoJson] layer; [feature_time] stands for
    the text [strftime('%Y-%m-%dT%H:%M:%S')] prints, the instant cut to
    whole seconds. *)
Record Feature : Type := mkFeature {
  feature_coordinates : float * float;
  feature_time : Z;
  feature_color : string;
  feature_altitude : float;
  feature_row : Row
}.

Record Animation : Type := mkAnimation {
  features : list Feature;
  period : string
}.

(** One drawn flight path: the polyline, its start and end markers and the
    circle markers in between. *)
Record FlightPath : Type := mkFlightPath {
  path_aircraft : string;
  path_coordinates : list (float * float);
  path_times : list datetime64;
  path_color : string;
  path_start : Row;
  path_end : Row;
  path_intermediate : list Row
}.

(** A printed [count/total (percent%)] figure. *)
Record Ratio : Type := mkRatio {
  ratio_count : nat;
  ratio_total : nat;
  ratio_percent : Q
}.

(** What [generate_statistics] prints.  The means and extrema of altitude,
    speed and position are floating-point aggregates and are left out;
    every count and ratio is kept. *)
Record Report : Type := mkReport {
  total_records : nat;
  unique_aircraft : nat;
  time_span : option Z;
  median_interval : option Z;
  aircraft_over_1 : nat;
  aircraft_over_5 : nat;
  aircraft_over_10 : nat;
  max_points : option nat;
  records_with_altitude : option Ratio;
  records_with_speed : option Ratio;
  top_callsigns : list (string * nat);
  missing_callsigns : Ratio;
  missing_altitude : Ratio;
  missing_speed : Ratio
}.

(** What [debug_data] prints: the first three records, and for up to five
    aircraft with more than one record their number of records and their
    first and last record in time order.  An empty sample list stands for
    the message that no aircraft has multiple data points. *)
Record DebugInfo : Type := mkDebugInfo {
  first_records : list Row;
  multi_point_aircraft : list (string * nat * Row * Row)
}.

(** A run of [create_dashboard]: the files written so far and how the run
    ended. *)
Record Dashboard : Type := mkDashboard {
  files_written : list string;
  outcome : result unit
}.

(** The dtype [pd.read_csv] gives a column of text such as the callsign:
    [object], the cells being strings, as soon as one cell is text; a
    number dtype (int64, float64 or bool) when every cell that is present
    reads as a number or a boolean.  The rows keep the cells of a number
    column by their text. *)
Inductive Dtype : Type :=
| ObjectDtype
| NumberDtype.

(** ** Pieces shared by the methods *)

(** [row.get('baro_altitude', 0) or row.get('geo_altitude', 0) or 0].
    [save_to_csv] writes every field of a state, so the frame has both
    columns and [get] finds the key: it returns the cell, which is NaN when
    the CSV field was empty (the default 0 would serve a frame without the
    column). *)
Definition altitude (row : Row) : float :=
  or_ (or_ (baro_altitude row) (geo_altitude row)) 0%float.

(** The [if altitude > 10000 ... elif altitude > 5000 ... else] chain. *)
Definition altitude_color (altitude : float) : string :=
  if gt altitude 10000%float then "red"%string
  else if gt altitude 5000%float then "orange"%string
  else "green"%string.

(** The Altitude Class a colour stands for (the map's legend). *)
Inductive AltitudeClass : Type := High | Medium | Low.

Definition altitude_class (row : Row) : AltitudeClass :=
  if String.eqb (altitude_color (altitude row)) "red" then High
  else if String.eqb (altitude_color (altitude row)) "orange" then Medium
  else Low.

Definition seconds (n : Z) : Z := (n * 1000000000)%Z.

(** [self.data['timestamp'].diff().dropna()] *)
Definition time_diff (timestamps : list datetime64) : list Z :=
  dropna_time (diff timestamps).

(** [avg_interval], in nanoseconds: the median delta when there is one,
    else the default of one minute.  ([time_diff.empty] holds exactly when
    the median is NaT; the source divides by 1e9 and compares seconds, which
    orders whole nanoseconds against 30 s and 120 s the same way.) *)
Definition avg_interval (timestamps : list datetime64) : Z :=
  match median (time_diff timestamps) with
  | Some m => m
  | None => seconds 60
  end.

(** The [if avg_interval < 30 ... elif avg_interval < 120 ... else] chain. *)
Definition period_of (avg_interval : Z) : string :=
  if (avg_interval <? seconds 30)%Z then "PT10S"%string
  else if (avg_interval <? seconds 120)%Z then "PT30S"%string
  else "PT1M"%string.

(** The length of a period in seconds. *)
Definition period_seconds (p : string) : Z :=
  if String.eqb p "PT10S" then 10
  else if String.eqb p "PT30S" then 30
  else 60.

Definition colors : list string :=
  ["red"; "blue"; "green"; "purple"; "orange"; "darkred";
   "lightred"; "beige"; "darkblue"; "darkgreen"; "cadetblue";
   "darkpurple"; "pink"; "lightblue"; "lightgreen";
   "gray"; "black"; "lightgray"]%string.

(** [n/d*100] *)
Definition percent (n d : nat) : result Q :=
  q <- truediv n d ;; Ok (Qmult q (100 # 1)).

Definition ratio (n d : nat) : result Ratio :=
  p <- percent n d ;; Ok (mkRatio n d p).

(** [l[0]] and [l[-1]] *)
Definition first {A : Type} (l : list A) : result A :=
  match l with
  | [] => Raise IndexError
  | x :: _ => Ok x
  end.

Definition last {A : Type} (l : list A) : result A := first (rev l).

(** The rows strictly between the first and the last. *)
Definition between {A : Type} (l : list A) : list A := removelast (tl l).

(** [sort_values(['timestamp', 'icao24'])]: several keys are sorted with
    a lexsort, which is stable; NaT and NaN sort last. *)
Definition object_leb (a b : object) : bool :=
  match a, b with
  | OStr x, OStr y => String.leb x y
  | _, ONaN => true
  | ONaN, OStr _ => false
  end.

Definition row_leb (r1 r2 : Row) : bool :=
  match timestamp r1, timestamp r2 with
  | Some x, Some y =>
      (x <? y)%Z || ((x =? y)%Z && object_leb (icao24 r1) (icao24 r2))
  | None, None => object_leb (icao24 r1) (icao24 r2)
  | Some _, None => true
  | None, Some _ => false
  end.

Fixpoint insert_row (r : Row) (l : list Row) : list Row :=
  match l with
  | [] => [r]
  | h :: t => if row_leb r h then r :: l else h :: insert_row r t
  end.

Definition sort_values_timestamp_icao24 (rows : list Row) : list Row :=
  fold_right insert_row [] rows.

(** [row['timestamp'].strftime(...)]: NaT has no strftime. *)
Definition strftime (t : datetime64) : result Z :=
  match t with
  | Some ns => Ok (ns / 1000000000)%Z
  | None => Raise ValueError
  end.

(** ** The methods *)

Section Methods.

(** numpy's default sort, see {!Pandas.argsort_spec}. *)
Variable argsort : list Z -> list nat.

(** [load_data]; [csv] is the outcome of [pd.read_csv(self.csv_file)].
    Whatever is raised inside the [try] leaves [pd.DataFrame()]. *)
Definition load_data (csv : result (list CsvRow)) : DataFrame :=
  match (rows <- csv ;;
         rows <- to_datetime rows ;;
         let rows := dropna_coordinates rows in
         let rows := sort_values_timestamp argsort rows in
         Ok (Frame rows))
  with
  | Ok data => data
  | Raise _ => NoColumns
  end.

(** [create_static_map]: [None] after "No data to plot", else one marker
    per row. *)
Definition static_marker (row : Row) : Marker :=
  let altitude := altitude row in
  let color := altitude_color altitude in
  mkMarker (latitude row, longitude row) color altitude row.

Definition create_static_map (data : DataFrame) : result (option (list Marker)) :=
  if empty data then Ok None
  else
    _ <- column data (@latitude _) ;;
    _ <- column data (@longitude _) ;;
    Ok (Some (map static_marker (rows_of data))).

(** [create_time_animation] *)
Definition animation_feature (row : Row) : result Feature :=
  let altitude := altitude row in
  let color := altitude_color altitude in
  time_str <- strftime (timestamp row) ;;
  Ok (mkFeature (longitude row, latitude row) time_str color altitude row).

Definition create_time_animation (data : DataFrame) : result (option Animation) :=
  if empty data then Ok None
  else
    _ <- column data (@latitude _) ;;
    _ <- column data (@longitude _) ;;
    timestamps <- column data (@timestamp _) ;;
    let avg_interval := avg_interval timestamps in
    let sorted_data := sort_values_timestamp_icao24 (rows_of data) in
    features <- mapM animation_feature sorted_data ;;
    let period := period_of avg_interval in
    Ok (Some (mkAnimation features period)).

(** [create_flight_paths]: the loop over the groups, threading
    [color_idx]; [paths_created] is the length of the result. *)
Fixpoint flight_paths_loop (min_points : nat) (color_idx : nat)
    (aircraft_groups : list (string * list Row)) : result (list FlightPath) :=
  match aircraft_groups with
  | [] => Ok []
  | (aircraft_id, group) :: rest =>
      let group := sort_values_timestamp argsort group in
      if (min_points <=? List.length group)%nat then
        let group := drop_duplicates group in
        if (min_points <=? List.length group)%nat then
          let coordinates := map (fun row => (latitude row, longitude row)) group in
          let times := map (@timestamp _) group in
          if (min_points <=? List.length coordinates)%nat then
            let color := nth (color_idx mod List.length colors) colors ""%string in
            _ <- first times ;;
            _ <- last times ;;
            start_row <- first group ;;
            end_row <- last group ;;
            paths <- flight_paths_loop min_points (S color_idx) rest ;;
            Ok (mkFlightPath aircraft_id coordinates times color
                             start_row end_row (between group) :: paths)
          else flight_paths_loop min_points color_idx rest
        else flight_paths_loop min_points color_idx rest
      else flight_paths_loop min_points color_idx rest
  end.

Definition create_flight_paths (data : DataFrame) (min_points : nat)
    : result (option (list FlightPath)) :=
  if empty data then Ok None
  else
    _ <- column data (@latitude _) ;;
    _ <- column data (@longitude _) ;;
    icao <- column data (@icao24 _) ;;
    paths <- flight_paths_loop min_points 0 (groupby_icao24 (rows_of data)) ;;
    Ok (Some paths).

(** [create_heatmap] *)
Definition create_heatmap (data : DataFrame) : result (option (list (float * float))) :=
  if empty data then Ok None
  else
    _ <- column data (@latitude _) ;;
    _ <- column data (@longitude _) ;;
    Ok (Some (map (fun row => (latitude row, longitude row)) (rows_of data))).

(** [generate_statistics]: [None] after "No data to analyze". *)
Definition generate_statistics (data : DataFrame) : result (option Report) :=
  if empty data then Ok None
  else
    let total := len data in
    icao <- column data (@icao24 _) ;;
    timestamps <- column data (@timestamp _) ;;
    let span :=
      match time_max timestamps, time_min timestamps with
      | Some hi, Some lo => Some (hi - lo)%Z
      | _, _ => None
      end in
    let interval := median (time_diff timestamps) in
    let aircraft_counts := value_counts_unsorted (dropna_obj icao) in
    let over n := List.length (filter (fun p => (n <? snd p)%nat) aircraft_counts) in
    let most :=
      match aircraft_counts with
      | [] => None
      | p :: t => Some (fold_left Nat.max (map snd t) (snd p))
      end in
    baro <- column data (@baro_altitude _) ;;
    geo <- column data (@geo_altitude _) ;;
    let altitudes := dropna_float (fillna baro geo) in
    with_altitude <-
      match altitudes with
      | [] => Ok None
      | _ :: _ => r <- ratio (List.length altitudes) total ;; Ok (Some r)
      end ;;
    velocity <- column data (@velocity _) ;;
    let speeds := dropna_float velocity in
    with_speed <-
      match speeds with
      | [] => Ok None
      | _ :: _ => r <- ratio (List.length speeds) total ;; Ok (Some r)
      end ;;
    callsign <- column data (@callsign _) ;;
    let callsigns :=
      firstn 10 (sort_counts_descending argsort
                   (value_counts_unsorted (dropna_obj callsign))) in
    let printed := map (fun p => (strip (fst p), snd p)) callsigns in
    let missing_callsign := isna_sum_obj callsign in
    let missing_altitude := (isna_sum baro + isna_sum geo)%nat in
    let missing_speed := isna_sum velocity in
    r_callsign <- ratio missing_callsign total ;;
    r_altitude <- ratio missing_altitude total ;;
    r_speed <- ratio missing_speed total ;;
    Ok (Some (mkReport total (nunique icao) span interval
                       (over 1%nat) (over 5%nat) (over 10%nat) most
                       with_altitude with_speed printed
                       r_callsign r_altitude r_speed)).

(** [generate_statistics] on a store whose callsign column has the dtype
    [callsign_dtype] (see {!Dtype}).  The figures are those of
    [generate_statistics]; the one place where the dtype matters is the
    loop over the top callsigns, which calls [callsign.strip()].  A number
    has no [strip]: in a number column the first turn of the loop raises
    AttributeError, after the figures above it are printed and before the
    data quality lines.  The loop has no turn when no record has a
    callsign. *)
Definition generate_statistics_dtype (callsign_dtype : Dtype) (data : DataFrame)
    : result (option Report) :=
  match callsign_dtype with
  | ObjectDtype => generate_statistics data
  | NumberDtype =>
      if empty data then Ok None
      else
        callsign <- column data (@callsign _) ;;
        match firstn 10 (sort_counts_descending argsort
                           (value_counts_unsorted (dropna_obj callsign))) with
        | [] => generate_statistics data
        | _ :: _ => Raise AttributeError
        end
  end.

(** [debug_data] *)
Definition debug_sample (rows : list Row) (entry : string * nat)
    : result (string * nat * Row * Row) :=
  let aircraft_data :=
    sort_values_timestamp argsort (filter (has_icao24 (fst entry)) rows) in
  first_row <- first aircraft_data ;;
  last_row <- last aircraft_data ;;
  Ok (fst entry, snd entry, first_row, last_row).

Definition debug_data (data : DataFrame) : result (option DebugInfo) :=
  if empty data then Ok None
  else
    icao <- column data (@icao24 _) ;;
    let aircraft_counts :=
      sort_counts_descending argsort (value_counts_unsorted (dropna_obj icao)) in
    let multi_point_aircraft :=
      firstn 5 (filter (fun p => (1 <? snd p)%nat) aircraft_counts) in
    samples <- mapM (debug_sample (rows_of data)) multi_point_aircraft ;;
    Ok (Some (mkDebugInfo (firstn 3 (rows_of data)) samples)).

(** [create_dashboard]: the methods in turn, each map method saving its
    file when it has a map; an exception of a method ends the run there.
    [callsign_dtype] is the dtype of the store's callsign column, which
    only [generate_statistics] depends on.
    Writing a file is taken to succeed; the browser is opened inside a
    [try] and cannot end the run. *)
Definition saved {A : Type} (output_file : string) (map_ : option A) : list string :=
  match map_ with
  | Some _ => [output_file]
  | None => []
  end.

Definition create_dashboard (callsign_dtype : Dtype) (data : DataFrame) : Dashboard :=
  match debug_data data with
  | Raise e => mkDashboard [] (Raise e)
  | Ok _ =>
  match create_static_map data with
  | Raise e => mkDashboard [] (Raise e)
  | Ok m1 =>
  let f1 := saved "aircraft_static_map.html" m1 in
  match create_time_animation data with
  | Raise e => mkDashboard f1 (Raise e)
  | Ok m2 =>
  let f2 := f1 ++ saved "aircraft_animation.html" m2 in
  match create_flight_paths data 2 with
  | Raise e => mkDashboard f2 (Raise e)
  | Ok m3 =>
  let f3 := f2 ++ saved "aircraft_flight_paths.html" m3 in
  match create_heatmap data with
  | Raise e => mkDashboard f3 (Raise e)
  | Ok m4 =>
  let f4 := f3 ++ saved "aircraft_heatmap.html" m4 in
  match generate_statistics_dtype callsign_dtype data with
  | Raise e => mkDashboard f4 (Raise e)
  | Ok _ => mkDashboard (f4 ++ ["index.html"%string]) (Ok tt)
  end end end end end end.

End Methods.

(** ** The colours of the paths, read off the groups *)

(** The track drawn for one group: its rows in time order with the
    repeated positions dropped. *)
Definition track_of (argsort : list Z -> list nat) (group : list Row) : list Row :=
  drop_duplicates (sort_values_timestamp argsort group).

(** Whether a group is drawn: it has [min_points] rows, and [min_points]
    distinct positions. *)
Definition drawn (min_points : nat) (group : list Row) : bool :=
  (min_points <=? List.length group)%nat &&
  (min_points <=? List.length (drop_duplicates group))%nat.

(** The colours read off the groups alone: the drawn groups, in their
    order, take the palette round-robin from [color_idx]. *)
Fixpoint color_assignment (palette : list string) (min_points color_idx : nat)
    (groups : list (string * list Row)) : list (string * string) :=
  match groups with
  | [] => []
  | (aircraft_id, group) :: rest =>
      if drawn min_points group
      then (aircraft_id, nth (color_idx mod List.length palette) palette ""%string)
             :: color_assignment palette min_points (S color_idx) rest
      else color_assignment palette min_points color_idx rest
  end.

(** Whether a row has a timestamp. *)
Definition dated (r : Row) : bool :=
  match timestamp r with
  | Some _ => true
  | None => false
  end.

End AircraftMapAnalyzer.

(* ================================================================== *)
(** * [class SimpleAircraftPlotter] (src/analysis_simple.py) *)
(* ================================================================== *)

Module SimpleAircraftPlotter.

Import Py Pandas.

Inductive PointKind : Type :=
| StartMarker                    (* green 'play' icon *)
| EndMarker                      (* red 'stop' icon *)
| CircleMarker (color : string).

(** What [create_map] draws for one aircraft. *)
Record Track : Type := mkTrack {
  track_aircraft : string;
  track_color : string;
  track_line : option (list (float * float));
  track_points : list (PointKind * Row)
}.

Definition colors : list string :=
  ["red"; "blue"; "green"; "purple"; "orange"; "darkred";
   "lightred"; "darkblue"; "darkgreen"; "cadetblue";
   "darkpurple"; "pink"; "lightblue"; "lightgreen";
   "gray"; "black"; "brown"]%string.

(** The marker of the [i]-th of [n] points. *)
Definition point_kind (color : string) (n i : nat) : PointKind :=
  if ((i =? 0) && (1 <? n))%nat then StartMarker
  else if ((i =? n - 1) && (1 <? n))%nat then EndMarker
  else CircleMarker color.

(** What [print_summary] prints. *)
Record Summary : Type := mkSummary {
  summary_records : nat;
  summary_aircraft : nat;
  summary_time_range : datetime64 * datetime64;
  with_tracks : nat;
  single_points : nat;
  longest_track : option (string * nat)
}.

(** The order of [sort_values(['icao24', 'timestamp'])]: by aircraft, rows
    without one last, then by time, NaT last. *)
Definition icao24_timestamp_leb (r1 r2 : Row) : bool :=
  match icao24 r1, icao24 r2 with
  | OStr x, OStr y =>
      match String.compare x y with
      | Lt => true
      | Eq => time_leb (timestamp r1) (timestamp r2)
      | Gt => false
      end
  | ONaN, ONaN => time_leb (timestamp r1) (timestamp r2)
  | OStr _, ONaN => true
  | ONaN, OStr _ => false
  end.

(** [load_data]: as the analyzer's, but sorted by aircraft and time. *)
Definition load_data (csv : result (list CsvRow)) : DataFrame :=
  match (rows <- csv ;;
         rows <- to_datetime rows ;;
         let rows := dropna_coordinates rows in
         let rows := lexsort icao24_timestamp_leb rows in
         Ok (Frame rows))
  with
  | Ok data => data
  | Raise _ => NoColumns
  end.

Section Methods.

Variable argsort : list Z -> list nat.

(** The loop of [create_map] over the groups, threading [color_idx]. *)
Fixpoint tracks_loop (color_idx : nat) (aircraft_groups : list (string * list Row))
    : list Track :=
  match aircraft_groups with
  | [] => []
  | (aircraft_id, group) :: rest =>
      let group := sort_values_timestamp argsort group in
      let color := nth (color_idx mod List.length colors) colors ""%string in
      let n := List.length group in
      let line :=
        if (1 <? n)%nat
        then Some (map (fun row => (latitude row, longitude row)) group)
        else None in
      let points :=
        map (fun ir => (point_kind color n (fst ir), snd ir))
            (combine (seq 0 n) group) in
      mkTrack aircraft_id color line points :: tracks_loop (S color_idx) rest
  end.

Definition create_map (data : DataFrame) : result (option (list Track)) :=
  if empty data then Ok None
  else
    _ <- column data (@latitude _) ;;
    _ <- column data (@longitude _) ;;
    _ <- column data (@icao24 _) ;;
    Ok (Some (tracks_loop 0 (groupby_icao24 (rows_of data)))).

(** [print_summary]: [None] after "No data loaded". *)
Definition print_summary (data : DataFrame) : result (option Summary) :=
  if empty data then Ok None
  else
    icao <- column data (@icao24 _) ;;
    timestamps <- column data (@timestamp _) ;;
    let aircraft_counts :=
      sort_counts_descending argsort (value_counts_unsorted (dropna_obj icao)) in
    let multi_point :=
      List.length (filter (fun p => (1 <? snd p)%nat) aircraft_counts) in
    let longest :=
      if (0 <? multi_point)%nat then idxmax aircraft_counts else None in
    Ok (Some (mkSummary (len data) (nunique icao)
                        (time_min timestamps, time_max timestamps)
                        multi_point
                        (List.length aircraft_counts - multi_point)
                        longest)).

End Methods.

End SimpleAircraftPlotter.

(* ================================================================== *)
(** * [class Scrapper] (src/scrapper.py) *)
(* ================================================================== *)

Module Scrapper.

(** What [self.api.get_states(bbox=bounds)] does: it raises, returns
    [None], or returns an object whose [states] is a list. *)
Inductive Response (State : Type) : Type :=
| ApiRaises
| ApiNone
| ApiStates (states : list State).

Arguments ApiRaises {State}.
Arguments ApiNone {State}.
Arguments ApiStates {State} states.

Section Scrapper.

(** A state vector of the API.  A row of [aircraft_data] is the dict of
    the poll's timestamp and the fourteen fields copied from a state. *)
Variable State : Type.

Definition Observation : Type := string * State.

(** The line [csv.DictWriter] writes for a row, and the header line it
    writes for the keys of a row (the keys are the same for every row). *)
Variable writerow : Observation -> string.
Variable header : string.

(** [get_aircraft_data]; [now] is [datetime.now().isoformat()]. *)
Definition get_aircraft_data (response : Response State) (now : string)
    : list Observation :=
  match response with
  | ApiStates (s :: rest) => map (fun state => (now, state)) (s :: rest)
  | ApiStates [] => []
  | ApiNone => []
  | ApiRaises => []
  end.

(** [save_to_csv]: the file is absent or holds lines.  Nothing is written
    for an empty batch; a file with a line is appended to; otherwise the
    file is written anew, header first. *)
Definition save_to_csv (aircraft_data : list Observation) (file : option (list string))
    : option (list string) :=
  match aircraft_data with
  | [] => file
  | _ :: _ =>
      let file_exists :=
        match file with
        | Some (_ :: _) => true
        | Some [] => false
        | None => false
        end in
      if file_exists
      then
        match file with
        | Some lines => Some (lines ++ map writerow aircraft_data)
        | None => Some (map writerow aircraft_data)
        end
      else Some (header :: map writerow aircraft_data)
  end.

(** One turn of the main loop, and the loop over a series of polls. *)
Definition poll (file : option (list string)) (p : Response State * string)
    : option (list string) :=
  save_to_csv (get_aircraft_data (fst p) (snd p)) file.

Definition polls (file : option (list string)) (ps : list (Response State * string))
    : option (list string) :=
  fold_left poll ps file.

(** The lines a series of polls hands to the writer, batch after batch. *)
Definition written (ps : list (Response State * string)) : list string :=
  flat_map (fun p => map writerow (get_aircraft_data (fst p) (snd p))) ps.

End Scrapper.

End Scrapper.

(* ================================================================== *)
(** * Facts about the pandas operations *)
(* ================================================================== *)

Module PandasFacts.

Import Py Pandas.

(** ** Frames *)

Lemma empty_frame (rows : list Row) : rows <> [] -> empty (Frame rows) = false.
Proof. destruct rows; [congruence | reflexivity]. Qed.

(** ** [take] *)

Lemma take_app (A : Type) (l : list A) (i1 i2 : list nat) :
  take l (i1 ++ i2) = take l i1 ++ take l i2.
Proof. unfold take. apply flat_map_app. Qed.

Lemma take_seq_from (A : Type) (l pre : list A) :
  take (pre ++ l) (seq (List.length pre) (List.length l)) = l.
Proof.
  revert pre. induction l as [|x l IH]; intros pre; simpl; [reflexivity|].
  rewrite nth_error_app2, Nat.sub_diag by lia. simpl. f_equal.
  specialize (IH (pre ++ [x])).
  rewrite <- app_assoc, length_app in IH. simpl in IH.
  rewrite Nat.add_1_r in IH. exact IH.
Qed.

Lemma take_all (A : Type) (l : list A) :
  take l (seq 0 (List.length l)) = l.
Proof. exact (take_seq_from l []). Qed.

Lemma take_perm (A : Type) (l : list A) (i1 i2 : list nat) :
  Permutation i1 i2 -> Permutation (take l i1) (take l i2).
Proof. intros H. unfold take. apply Permutation_flat_map, H. Qed.

Lemma take_map (A B : Type) (f : A -> B) (l : list A) (idx : list nat) :
  map f (take l idx) = take (map f l) idx.
Proof.
  induction idx as [|i idx IH]; simpl; [reflexivity|].
  rewrite map_app, IH, nth_error_map.
  destruct (nth_error l i); reflexivity.
Qed.

Lemma take_In (A : Type) (l : list A) (idx : list nat) (x : A) :
  In x (take l idx) -> In x l.
Proof.
  unfold take. rewrite in_flat_map. intros (i & _ & Hx).
  destruct (nth_error l i) eqn:E; simpl in Hx; [|contradiction].
  destruct Hx as [<-|[]]. eapply nth_error_In, E.
Qed.

Lemma take_length_le (A : Type) (l : list A) (idx : list nat) :
  (List.length (take l idx) <= List.length idx)%nat.
Proof.
  induction idx as [|i idx IH]; simpl; [lia|].
  rewrite length_app. destruct (nth_error l i); simpl; lia.
Qed.

(** Reading the keys through an indexer that stays inside them. *)
Lemma take_nth (keys : list Z) (idx : list nat) :
  Forall (fun i => (i < List.length keys)%nat) idx ->
  take keys idx = map (fun i => nth i keys 0%Z) idx.
Proof.
  induction 1 as [|i idx Hi _ IH]; simpl; [reflexivity|].
  rewrite IH. destruct (nth_error keys i) eqn:E.
  - simpl. f_equal. symmetry. apply nth_error_nth, E.
  - apply nth_error_None in E. lia.
Qed.

Lemma perm_seq_bound (idx : list nat) (n : nat) :
  Permutation idx (seq 0 n) -> Forall (fun i => (i < n)%nat) idx.
Proof.
  intros H. apply Forall_forall. intros i Hi.
  apply (Permutation_in _ H), in_seq in Hi. lia.
Qed.

(** ** The two insertion sorts meet the contract of [argsort] *)

Lemma insert_position_perm (b : bool) (keys : list Z) (i : nat) (l : list nat) :
  Permutation (insert_position b keys i l) (i :: l).
Proof.
  induction l as [|j l IH]; simpl; [apply Permutation_refl|].
  destruct (if b then _ else _); [apply Permutation_refl|].
  rewrite IH. apply perm_swap.
Qed.

Lemma insert_position_sorted (b : bool) (keys : list Z) (i : nat) (l : list nat) :
  Sorted Z.le (map (fun i => nth i keys 0%Z) l) ->
  Sorted Z.le (map (fun i => nth i keys 0%Z) (insert_position b keys i l)).
Proof.
  induction l as [|j l IH]; simpl; intros H.
  - repeat constructor.
  - inversion H as [|? ? Hs Hh]; subst.
    destruct (if b then (_ <=? _)%Z else (_ <? _)%Z) eqn:E; simpl.
    + constructor; [exact H|]. constructor. destruct b; lia.
    + constructor; [apply IH, Hs|].
      assert (Hji : (nth j keys 0 <= nth i keys 0)%Z) by (destruct b; lia).
      clear E IH H Hs.
      destruct l as [|k l]; simpl; [constructor; exact Hji|].
      destruct (if b then (_ <=? _)%Z else (_ <? _)%Z); simpl; constructor;
        [exact Hji|]. inversion Hh; subst. assumption.
Qed.

Lemma insertion_argsort_spec (b : bool) : argsort_spec (insertion_argsort b).
Proof.
  intros keys. unfold insertion_argsort.
  generalize (seq 0 (List.length keys)) as l. intros l. split.
  - induction l as [|i l IH]; simpl; [constructor|].
    rewrite insert_position_perm. constructor. exact IH.
  - apply Sorted_StronglySorted; [exact Z.le_trans|].
    induction l as [|i l IH]; simpl; [constructor|].
    apply insert_position_sorted, IH.
Qed.

(** ** [nargsort] and [sort_values] under the contract *)

Lemma positions_split (items : list datetime64) (i : nat) :
  Permutation (map fst (notna_items i items) ++ nan_idx i items)
              (seq i (List.length items)).
Proof.
  revert i. induction items as [|[t|] items IH]; intros i; simpl.
  - constructor.
  - constructor. apply IH.
  - rewrite <- Permutation_middle. constructor. apply IH.
Qed.

Lemma notna_items_lookup (items pre : list datetime64) :
  Forall (fun it => nth_error (pre ++ items) (fst it) = Some (Some (snd it)))
         (notna_items (List.length pre) items).
Proof.
  revert pre. induction items as [|[t|] items IH]; intros pre; simpl.
  - constructor.
  - constructor.
    + simpl. rewrite nth_error_app2, Nat.sub_diag by lia. reflexivity.
    + specialize (IH (pre ++ [Some t])).
      rewrite <- app_assoc, length_app, Nat.add_1_r in IH. exact IH.
  - specialize (IH (pre ++ [None])).
    rewrite <- app_assoc, length_app, Nat.add_1_r in IH. exact IH.
Qed.

Lemma nan_idx_lookup (items pre : list datetime64) :
  Forall (fun i => nth_error (pre ++ items) i = Some None)
         (nan_idx (List.length pre) items).
Proof.
  revert pre. induction items as [|[t|] items IH]; intros pre; simpl.
  - constructor.
  - specialize (IH (pre ++ [Some t])).
    rewrite <- app_assoc, length_app, Nat.add_1_r in IH. exact IH.
  - constructor.
    + rewrite nth_error_app2, Nat.sub_diag by lia. reflexivity.
    + specialize (IH (pre ++ [None])).
      rewrite <- app_assoc, length_app, Nat.add_1_r in IH. exact IH.
Qed.

Lemma take_lookup (A B : Type) (l : list A) (f : B -> nat) (g : B -> A) (q : list B) :
  Forall (fun it => nth_error l (f it) = Some (g it)) q ->
  take l (map f q) = map g q.
Proof.
  induction 1 as [|it q Hit _ IH]; simpl; [reflexivity|].
  rewrite Hit, IH. reflexivity.
Qed.

Lemma sorted_then_nat (l : list Z) (n : nat) :
  StronglySorted Z.le l ->
  StronglySorted time_le (map Some l ++ repeat None n).
Proof.
  induction 1 as [|x l Hs IH Hx]; simpl.
  - induction n as [|n IHn]; simpl; constructor; [exact IHn|].
    apply Forall_forall. intros y Hy. apply repeat_spec in Hy. subst. exact I.
  - constructor; [exact IH|].
    apply Forall_app. split.
    + apply Forall_map. revert Hx. apply Forall_impl. intros y Hy. exact Hy.
    + apply Forall_forall. intros y Hy. apply repeat_spec in Hy. subst. exact I.
Qed.

Section SortingFacts.

Variable argsort : list Z -> list nat.
Hypothesis argsort_ok : argsort_spec argsort.

Lemma argsort_take (A : Type) (l : list A) (keys : list Z) :
  List.length keys = List.length l ->
  Permutation (take l (argsort keys)) l.
Proof.
  intros Hlen. destruct (argsort_ok keys) as [Hp _].
  rewrite (take_perm l Hp), Hlen, take_all. apply Permutation_refl.
Qed.

Lemma nargsort_perm (items : list datetime64) :
  Permutation (nargsort argsort items) (seq 0 (List.length items)).
Proof.
  unfold nargsort. rewrite <- (positions_split items 0).
  apply Permutation_app_tail, argsort_take.
  now rewrite !length_map.
Qed.

Lemma sort_values_timestamp_perm (rows : list Row) :
  Permutation (sort_values_timestamp argsort rows) rows.
Proof.
  unfold sort_values_timestamp.
  rewrite (take_perm rows (nargsort_perm _)), length_map, take_all.
  apply Permutation_refl.
Qed.

Lemma sort_values_timestamp_length (rows : list Row) :
  List.length (sort_values_timestamp argsort rows) = List.length rows.
Proof. apply Permutation_length, sort_values_timestamp_perm. Qed.

(** The sorted column: the timestamps in non-decreasing order, then NaT. *)
Lemma sort_values_timestamp_column (rows : list Row) :
  exists (times : list Z) (n : nat),
    StronglySorted Z.le times /\
    map (@timestamp _) (sort_values_timestamp argsort rows)
    = map Some times ++ repeat None n.
Proof.
  unfold sort_values_timestamp. rewrite take_map.
  set (items := map (@timestamp _) rows).
  unfold nargsort. set (present := notna_items 0 items).
  set (idx := argsort (map snd present)).
  destruct (argsort_ok (map snd present)) as [Hp Hs]. fold idx in Hp, Hs.
  exists (map (fun i => nth i (map snd present) 0%Z) idx),
         (List.length (nan_idx 0 items)).
  split; [exact Hs|].
  rewrite take_app. f_equal.
  - rewrite <- (take_map fst present idx).
    rewrite (@take_lookup _ _ items fst (fun it => Some (snd it))).
    + rewrite <- (@take_nth (map snd present) idx (@perm_seq_bound _ _ Hp)).
      rewrite <- (take_map snd present idx), map_map. reflexivity.
    + apply Forall_forall. intros it Hit. apply take_In in Hit.
      pose proof (notna_items_lookup items []) as H. simpl in H.
      rewrite Forall_forall in H. apply H, Hit.
  - pose proof (nan_idx_lookup items []) as H. simpl in H.
    rewrite <- (map_id (nan_idx 0 items)) at 1.
    rewrite (@take_lookup _ _ items (fun i => i) (fun _ => None)) by exact H.
    generalize (nan_idx 0 items). intros l.
    induction l as [|a l IHl]; simpl; [reflexivity | now rewrite IHl].
Qed.

Lemma sort_values_timestamp_sorted (rows : list Row) :
  StronglySorted time_le (map (@timestamp _) (sort_values_timestamp argsort rows)).
Proof.
  destruct (sort_values_timestamp_column rows) as (times & n & Hs & ->).
  apply sorted_then_nat, Hs.
Qed.

End SortingFacts.

(** ** Equality of cells is equality of a key *)

Lemma SFeqb_self (a : spec_float) :
  SFeqb a a = match a with S754_nan => false | _ => true end.
Proof.
  unfold SFeqb. destruct a as [s|s| |s m e]; simpl; try reflexivity.
  - destruct s; reflexivity.
  - rewrite Z.compare_refl.
    change (PosDef.Pos.compare_cont Eq m m) with (Pos.compare m m).
    rewrite Pos.compare_refl. destruct s; reflexivity.
Qed.

Lemma SFeqb_finite (s1 s2 : bool) (m1 m2 : positive) (e1 e2 : Z) :
  SFeqb (S754_finite s1 m1 e1) (S754_finite s2 m2 e2) = true
  <-> s1 = s2 /\ m1 = m2 /\ e1 = e2.
Proof.
  unfold SFeqb. simpl.
  change (PosDef.Pos.compare_cont Eq m1 m2) with (Pos.compare m1 m2).
  destruct (Z.compare_spec e1 e2) as [He|He|He];
    destruct (Pos.compare_spec m1 m2) as [Hm|Hm|Hm];
    destruct s1, s2; simpl; split;
    try discriminate; try (intros _; subst; auto; fail);
    intros (Hs & H1 & H2); subst; try discriminate; lia.
Qed.

Lemma SFeqb_key (a b : spec_float) :
  (SFeqb a b || (negb (SFeqb a a) && negb (SFeqb b b))) = true
  <-> spec_key a = spec_key b.
Proof.
  rewrite (SFeqb_self a), (SFeqb_self b).
  destruct a as [sa|sa| |sa ma ea], b as [sb|sb| |sb mb eb];
    try (unfold SFeqb; simpl; try destruct sa; try destruct sb; simpl;
         split; (discriminate || reflexivity)).
  simpl negb. rewrite andb_false_r, orb_false_r, SFeqb_finite. simpl.
  split; [intros (-> & -> & ->); reflexivity | intros H; injection H; auto].
Qed.

Lemma same_value_key (x y : float) :
  same_value x y = true <-> float_key x = float_key y.
Proof.
  unfold same_value, isna, is_nan, float_key.
  rewrite !FloatAxioms.eqb_spec. apply SFeqb_key.
Qed.

Lemma same_position_key (r1 r2 : Row) :
  same_position r1 r2 = true <-> position_key r1 = position_key r2.
Proof.
  unfold same_position, position_key.
  rewrite andb_true_iff, !same_value_key.
  split; [intros [-> ->]; reflexivity | intros H; injection H; auto].
Qed.

Lemma seen_position (r : Row) (seen : list Row) :
  existsb (same_position r) seen = true
  <-> In (position_key r) (map position_key seen).
Proof.
  rewrite existsb_exists, in_map_iff. split.
  - intros (x & Hx & Hs). exists x. split; [|exact Hx].
    symmetry. apply same_position_key, Hs.
  - intros (x & Hk & Hx). exists x. split; [exact Hx|].
    apply same_position_key. symmetry. exact Hk.
Qed.

(** ** [drop_duplicates] *)

Lemma duplicated_after_length (seen rows : list Row) :
  List.length (duplicated_after seen rows) = List.length rows.
Proof.
  revert seen. induction rows as [|r rows IH]; intros seen; simpl;
    [reflexivity | now rewrite IH].
Qed.

Lemma duplicated_after_app (seen l1 l2 : list Row) :
  duplicated_after seen (l1 ++ l2)
  = duplicated_after seen l1 ++ duplicated_after (rev l1 ++ seen) l2.
Proof.
  revert seen. induction l1 as [|r l1 IH]; intros seen; simpl; [reflexivity|].
  rewrite IH, <- app_assoc. reflexivity.
Qed.

Lemma boolean_index_app (A : Type) (l1 l2 : list A) (m1 m2 : list bool) :
  List.length l1 = List.length m1 ->
  boolean_index (l1 ++ l2) (m1 ++ m2)
  = boolean_index l1 m1 ++ boolean_index l2 m2.
Proof.
  revert m1. induction l1 as [|x l1 IH]; intros [|b m1] Hlen;
    simpl in *; try discriminate; [reflexivity|].
  rewrite IH by lia. destruct b; reflexivity.
Qed.

Lemma boolean_index_In (A : Type) (l : list A) (m : list bool) (x : A) :
  In x (boolean_index l m) -> In x l.
Proof.
  revert m. induction l as [|y l IH]; intros [|b m]; simpl; try tauto.
  destruct b; simpl; intros H; [destruct H as [H|H]|]; eauto.
Qed.

Lemma existsb_rev (A : Type) (f : A -> bool) (l : list A) :
  existsb f (rev l) = existsb f l.
Proof.
  induction l as [|x l IH]; simpl; [reflexivity|].
  rewrite existsb_app, IH. simpl. rewrite orb_false_r. apply orb_comm.
Qed.

(** Scanning from the left: a row is kept exactly when no earlier row, kept
    or not, next to it or not, has its position. *)
Lemma drop_duplicates_snoc (rows : list Row) (r : Row) :
  drop_duplicates (rows ++ [r])
  = drop_duplicates rows
    ++ (if existsb (same_position r) rows then [] else [r]).
Proof.
  unfold drop_duplicates, duplicated.
  rewrite duplicated_after_app, map_app, boolean_index_app
    by (now rewrite length_map, duplicated_after_length).
  f_equal. simpl. rewrite app_nil_r, existsb_rev.
  destruct (existsb (same_position r) rows); reflexivity.
Qed.

Lemma drop_duplicates_cons (r : Row) (rows : list Row) :
  exists rest, drop_duplicates (r :: rows) = r :: rest.
Proof. unfold drop_duplicates, duplicated. simpl. eauto. Qed.

Lemma drop_duplicates_In (rows : list Row) (r : Row) :
  In r (drop_duplicates rows) -> In r rows.
Proof. apply boolean_index_In. Qed.

Lemma drop_duplicates_keys_In (rows : list Row) (k : value_key * value_key) :
  In k (map position_key (drop_duplicates rows))
  <-> In k (map position_key rows).
Proof.
  induction rows as [|r rows IH] using rev_ind; [reflexivity|].
  rewrite drop_duplicates_snoc, !map_app, !in_app_iff, IH.
  destruct (existsb (same_position r) rows) eqn:E; simpl; [|tauto].
  apply seen_position in E. split; [tauto|].
  intros [H|[<-|[]]]; auto.
Qed.

Lemma drop_duplicates_keys_NoDup (rows : list Row) :
  NoDup (map position_key (drop_duplicates rows)).
Proof.
  induction rows as [|r rows IH] using rev_ind; [constructor|].
  rewrite drop_duplicates_snoc, map_app.
  destruct (existsb (same_position r) rows) eqn:E; simpl.
  - rewrite app_nil_r. exact IH.
  - apply NoDup_app; [exact IH | repeat constructor; intros [] |].
    intros k Hk [<-|[]].
    apply (proj1 (drop_duplicates_keys_In rows _)) in Hk.
    apply (proj2 (seen_position r rows)) in Hk. congruence.
Qed.

(** The number of rows kept depends on the rows, not on their order. *)
Lemma drop_duplicates_length_perm (l1 l2 : list Row) :
  Permutation l1 l2 ->
  List.length (drop_duplicates l1) = List.length (drop_duplicates l2).
Proof.
  intros Hp.
  rewrite <- (length_map position_key (drop_duplicates l1)).
  rewrite <- (length_map position_key (drop_duplicates l2)).
  apply Permutation_length, NoDup_Permutation;
    try apply drop_duplicates_keys_NoDup.
  intros k. rewrite !drop_duplicates_keys_In.
  split; apply Permutation_in, Permutation_map;
    [exact Hp | apply Permutation_sym, Hp].
Qed.

(** ** [groupby]: ascending keys, no empty group *)

Lemma compare_as_OT (a b : string) :
  String.compare a b = String_as_OT.compare a b.
Proof.
  revert b. induction a as [|c a IH]; intros [|d b]; reflexivity.
Qed.

Lemma key_lt_trans (a b c : string) : key_lt a b -> key_lt b c -> key_lt a c.
Proof.
  unfold key_lt. rewrite !compare_as_OT.
  exact (@StrictOrder_Transitive _ _ String_as_OT.lt_strorder a b c).
Qed.

Lemma key_lt_irrefl (a : string) : ~ key_lt a a.
Proof.
  unfold key_lt. rewrite compare_as_OT.
  exact (@StrictOrder_Irreflexive _ _ String_as_OT.lt_strorder a).
Qed.

Lemma insert_key_In (k x : string) (keys : list string) :
  In x (insert_key k keys) <-> x = k \/ In x keys.
Proof.
  induction keys as [|h keys IH]; simpl; [intuition|].
  destruct (String.compare k h) eqn:E; simpl.
  - apply String.compare_eq_iff in E. subst. intuition.
  - intuition.
  - rewrite IH. intuition.
Qed.

Lemma insert_key_sorted (k : string) (keys : list string) :
  StronglySorted key_lt keys -> StronglySorted key_lt (insert_key k keys).
Proof.
  induction 1 as [|h keys Hs IH Hh]; simpl; [repeat constructor|].
  destruct (String.compare k h) eqn:E.
  - constructor; assumption.
  - constructor; [constructor; assumption|].
    constructor; [exact E|].
    revert Hh. apply Forall_impl. intros y. apply key_lt_trans, E.
  - constructor; [exact IH|].
    apply Forall_forall. intros y Hy. apply insert_key_In in Hy.
    destruct Hy as [->|Hy].
    + unfold key_lt. rewrite String.compare_antisym, E. reflexivity.
    + rewrite Forall_forall in Hh. apply Hh, Hy.
Qed.

Lemma sorted_unique_In (x : string) (l : list string) :
  In x (sorted_unique l) <-> In x l.
Proof.
  induction l as [|k l IH]; simpl; [reflexivity|].
  rewrite insert_key_In, IH. intuition.
Qed.

Lemma sorted_unique_sorted (l : list string) :
  StronglySorted key_lt (sorted_unique l).
Proof.
  induction l as [|k l IH]; simpl; [constructor|].
  apply insert_key_sorted, IH.
Qed.

Lemma dropna_obj_In (s : string) (l : list object) :
  In s (dropna_obj l) <-> In (OStr s) l.
Proof.
  induction l as [|[|t] l IH]; simpl; [reflexivity| |].
  - rewrite IH. split; [auto|intros [H|H]; [discriminate|auto]].
  - rewrite IH. split; intros [H|H]; auto; left; congruence.
Qed.

Lemma groupby_icao24_keys (rows : list Row) :
  StronglySorted key_lt (map fst (groupby_icao24 rows)).
Proof.
  unfold groupby_icao24. rewrite map_map. simpl. rewrite map_id.
  apply sorted_unique_sorted.
Qed.

Lemma groupby_icao24_groups (rows : list Row) :
  Forall (fun g => snd g = filter (has_icao24 (fst g)) rows /\ snd g <> [])
         (groupby_icao24 rows).
Proof.
  unfold groupby_icao24. apply Forall_map, Forall_forall.
  intros k Hk. simpl. split; [reflexivity|].
  apply sorted_unique_In, dropna_obj_In, in_map_iff in Hk.
  destruct Hk as (r & Hr & Hin).
  assert (In r (filter (has_icao24 k) rows)) as H.
  { apply filter_In. split; [exact Hin|].
    unfold has_icao24. rewrite Hr. apply String.eqb_refl. }
  intros E. rewrite E in H. exact H.
Qed.

End PandasFacts.

(* ================================================================== *)
(** * Properties of [AircraftMapAnalyzer] *)
(* ================================================================== *)

Module AnalyzerFacts.

Import Py Pandas PandasFacts AircraftMapAnalyzer.

Local Open Scope string_scope.

(** ** Altitude *)

(** What the [or] chain computes: the first of [baro_altitude],
    [geo_altitude] that is not zero, NaN included, else 0. *)
Lemma altitude_cases (row : Row) :
  altitude row =
    if truthy (baro_altitude row) then baro_altitude row
    else if truthy (geo_altitude row) then geo_altitude row
    else 0%float.
Proof.
  unfold altitude, or_.
  destruct (truthy (baro_altitude row)) eqn:Eb; [rewrite Eb|]; reflexivity.
Qed.

Lemma altitude_class_thresholds (row : Row) :
  altitude_class row =
    if gt (altitude row) 10000%float then High
    else if gt (altitude row) 5000%float then Medium
    else Low.
Proof.
  unfold altitude_class, altitude_color.
  destruct (gt (altitude row) 10000%float); [reflexivity|].
  destruct (gt (altitude row) 5000%float); reflexivity.
Qed.

(** C1 (the code departs from the specification).  A record whose baro_altitude is
    absent (NaN) and whose geo_altitude is 20000 ft should be classified
    with geo_altitude, hence High.  NaN is true for [or], so the chain
    stops at the missing baro_altitude: the altitude is NaN, both
    comparisons fail, and the record is drawn green, the Low class.  A
    baro_altitude of 0 with the same geo_altitude is drawn red, although
    baro_altitude is present. *)
Theorem altitude_class_missing_baro :
  let missing := parsed_row (Some 0%Z) "a0b1c2" "UAL12" 39.5 (-105) nan 20000 in
  let ground := parsed_row (Some 0%Z) "a0b1c2" "UAL12" 39.5 (-105) 0 20000 in
  isna (baro_altitude missing) = true /\
  gt (geo_altitude missing) 10000 = true /\
  isna (altitude missing) = true /\
  altitude_class missing = Low /\
  marker_color (static_marker missing) = "green" /\
  (exists feature : Feature,
     animation_feature missing = Ok feature /\
     feature_color feature = "green") /\
  altitude_class ground = High.
Proof.
  repeat split; try reflexivity.
  eexists. split; reflexivity.
Qed.

(** ** Loading *)

Lemma to_datetime_garbage (rows : list CsvRow) (r : CsvRow) (text : string) :
  In r rows -> timestamp r = TimeGarbage text ->
  to_datetime rows = Raise ValueError.
Proof.
  unfold to_datetime. intros Hin Hr.
  induction rows as [|x rows IH]; [contradiction|].
  simpl. destruct (timestamp x) eqn:Ex; simpl; try reflexivity.
  - destruct Hin as [->|Hin]; [congruence|]. rewrite (IH Hin). reflexivity.
  - destruct Hin as [->|Hin]; [congruence|]. rewrite (IH Hin). reflexivity.
Qed.

(** C2 (as amended).  One row whose timestamp cannot be parsed is not
    fatal, but it is not dropped alone either: [pd.to_datetime] raises for
    the whole column, [load_data] catches the exception and the store is
    the empty [pd.DataFrame()], whatever the other rows are. *)
Theorem load_data_unparsable_timestamp
    (argsort : list Z -> list nat) (rows : list CsvRow) (r : CsvRow) (text : string) :
  In r rows -> timestamp r = TimeGarbage text ->
  load_data argsort (Ok rows) = NoColumns /\
  empty (load_data argsort (Ok rows)) = true.
Proof.
  intros Hin Hr. unfold load_data. simpl.
  rewrite (to_datetime_garbage rows r Hin Hr). split; reflexivity.
Qed.

Lemma load_data_unparsable_timestamp_witness :
  let good := csv_row (TimeText 1000) "a0b1c2" "UAL12" 39.5 (-105) 9000 9100 in
  let bad := csv_row (TimeGarbage "yesterday") "c0ffee" "DAL7" 40 (-104) 3000 3100 in
  load_data stable_argsort (Ok [good; bad]) = NoColumns /\
  empty (load_data stable_argsort (Ok [good; bad])) = true.
Proof.
  intros good bad.
  apply (@load_data_unparsable_timestamp stable_argsort [good; bad] bad "yesterday").
  - simpl. auto.
  - reflexivity.
Defined.

(** C2 (counterexample).  The valid row is kept when it is loaded alone and
    lost when the unparsable row is loaded with it. *)
Lemma load_data_loses_valid_row :
  let good := csv_row (TimeText 1000) "a0b1c2" "UAL12" 39.5 (-105) 9000 9100 in
  let bad := csv_row (TimeGarbage "yesterday") "c0ffee" "DAL7" 40 (-104) 3000 3100 in
  load_data stable_argsort (Ok [good])
    = Frame [parsed_row (Some 1000%Z) "a0b1c2" "UAL12" 39.5 (-105) 9000 9100] /\
  rows_of (load_data stable_argsort (Ok [good; bad])) = [].
Proof. split; reflexivity. Qed.

Lemma load_data_ok (argsort : list Z -> list nat) (rows : list CsvRow) (parsed : list Row) :
  to_datetime rows = Ok parsed ->
  load_data argsort (Ok rows)
  = Frame (sort_values_timestamp argsort (dropna_coordinates parsed)).
Proof. intros H. unfold load_data. simpl. rewrite H. reflexivity. Qed.

(** C3 (as amended).  [load_data] drops a row exactly when its latitude or
    its longitude is missing (NaN).  When every timestamp parses, the store
    holds the rows whose two coordinates are present, each as often as the
    input has it; no test of range or finiteness is made. *)
Theorem load_data_drops_missing_coordinates
    (argsort : list Z -> list nat) (rows : list CsvRow) (parsed : list Row) :
  argsort_spec argsort ->
  to_datetime rows = Ok parsed ->
  Permutation (rows_of (load_data argsort (Ok rows)))
              (filter (@has_coordinates _) parsed) /\
  forall r : Row,
    In r (rows_of (load_data argsort (Ok rows)))
    <-> In r parsed /\ isna (latitude r) = false /\ isna (longitude r) = false.
Proof.
  intros Hok Hparsed. rewrite (load_data_ok argsort rows Hparsed). simpl.
  assert (Hp := sort_values_timestamp_perm Hok (dropna_coordinates parsed)).
  split; [exact Hp|].
  intros r. split.
  - intros H. apply (Permutation_in _ Hp), filter_In in H.
    destruct H as [Hin Hc]. unfold has_coordinates, notna in Hc.
    apply andb_true_iff in Hc. destruct Hc as [H1 H2].
    apply negb_true_iff in H1, H2. auto.
  - intros (Hin & H1 & H2).
    apply (Permutation_in _ (Permutation_sym Hp)), filter_In.
    split; [exact Hin|]. unfold has_coordinates, notna.
    rewrite H1, H2. reflexivity.
Qed.

Lemma load_data_drops_missing_coordinates_witness :
  let far := csv_row (TimeText 1000) "a0b1c2" "UAL12" 95 200 9000 9100 in
  let lost := csv_row (TimeText 2000) "c0ffee" "DAL7" nan (-104) 3000 3100 in
  let far' := parsed_row (Some 1000%Z) "a0b1c2" "UAL12" 95 200 9000 9100 in
  let lost' := parsed_row (Some 2000%Z) "c0ffee" "DAL7" nan (-104) 3000 3100 in
  Permutation (rows_of (load_data stable_argsort (Ok [far; lost])))
              (filter (@has_coordinates _) [far'; lost']) /\
  forall r : Row,
    In r (rows_of (load_data stable_argsort (Ok [far; lost])))
    <-> In r [far'; lost'] /\ isna (latitude r) = false /\ isna (longitude r) = false.
Proof.
  intros far lost far' lost'.
  apply (@load_data_drops_missing_coordinates stable_argsort [far; lost] [far'; lost']).
  - apply insertion_argsort_spec.
  - reflexivity.
Defined.

(** C3 (counterexample).  A latitude of 95 with a longitude of 200, and an
    infinite latitude, are outside the valid range or not finite; both rows
    are in the store. *)
Lemma load_data_keeps_out_of_range :
  let far := csv_row (TimeText 1000) "a0b1c2" "UAL12" 95 200 9000 9100 in
  let endless := csv_row (TimeText 2000) "c0ffee" "DAL7" infinity (-104) 3000 3100 in
  load_data stable_argsort (Ok [far; endless])
  = Frame [parsed_row (Some 1000%Z) "a0b1c2" "UAL12" 95 200 9000 9100;
           parsed_row (Some 2000%Z) "c0ffee" "DAL7" infinity (-104) 3000 3100].
Proof. reflexivity. Qed.

(** C6 (as amended).  Under any sort that meets the library's contract the
    loaded store is in non-decreasing order of timestamp, the rows without
    a timestamp last.  Nothing is promised of the order among rows with
    equal timestamps: the sort is the default one, which is not stable. *)
Theorem load_data_sorted
    (argsort : list Z -> list nat) (csv : result (list CsvRow)) :
  argsort_spec argsort ->
  StronglySorted time_le
    (map (@timestamp _) (rows_of (load_data argsort csv))).
Proof.
  intros Hok. unfold load_data.
  destruct csv as [rows|e]; simpl; [|constructor].
  destruct (to_datetime rows) as [parsed|e]; simpl; [|constructor].
  apply sort_values_timestamp_sorted, Hok.
Qed.

Lemma load_data_sorted_witness :
  let late := csv_row (TimeText 2000) "a0b1c2" "UAL12" 39.5 (-105) 9000 9100 in
  let early := csv_row (TimeText 1000) "c0ffee" "DAL7" 40 (-104) 3000 3100 in
  let undated := csv_row TimeEmpty "ab12cd" "SWA3" 40 (-104) 3000 3100 in
  StronglySorted time_le
    (map (@timestamp _)
       (rows_of (load_data reversing_argsort (Ok [undated; late; early])))).
Proof.
  intros late early undated.
  apply (@load_data_sorted reversing_argsort (Ok [undated; late; early])).
  apply insertion_argsort_spec.
Defined.

(** C6 (counterexample).  Eighteen rows of one poll of the scrapper, which
    all carry the timestamp of the poll, in the order of the CSV.  numpy's
    default sort partitions the eighteen positions once, which turns the
    second to the sixteenth of them around, and leaves the two parts to the
    insertion sort, which moves nothing among equal keys.  The store holds
    the rows in the order 1, 16, 15, ..., 3, 2, 17, 18 of the input: the
    second row of the CSV comes after fourteen rows that followed it. *)
Lemma load_data_reorders_ties :
  let poll :=
    map (fun id => csv_row (TimeText 1000) id "UAL12" 39.5 (-105) 9000 9100)
        ["a00001"; "a00002"; "a00003"; "a00004"; "a00005"; "a00006";
         "a00007"; "a00008"; "a00009"; "a00010"; "a00011"; "a00012";
         "a00013"; "a00014"; "a00015"; "a00016"; "a00017"; "a00018"] in
  load_data Numpy.quicksort (Ok poll)
  = Frame
      (map (fun id => parsed_row (Some 1000%Z) id "UAL12" 39.5 (-105) 9000 9100)
         ["a00001"; "a00016"; "a00015"; "a00014"; "a00013"; "a00012";
          "a00011"; "a00010"; "a00009"; "a00008"; "a00007"; "a00006";
          "a00005"; "a00004"; "a00003"; "a00002"; "a00017"; "a00018"]) /\
  ~ stable_indexer (repeat (Some 1000%Z) 18)
      (nargsort Numpy.quicksort (repeat (Some 1000%Z) 18)).
Proof.
  split; [vm_compute; reflexivity|].
  intros H. assert (Hlt : (15 < 14)%nat); [|lia].
  apply (H 1%nat 2%nat); [lia| | |]; vm_compute; reflexivity.
Qed.

(** ** The animation period *)

Lemma insert_sorted_length (x : Z) (l : list Z) :
  List.length (insert_sorted x l) = S (List.length l).
Proof.
  induction l as [|y l IH]; simpl; [reflexivity|].
  destruct (x <=? y)%Z; simpl; [reflexivity | now rewrite IH].
Qed.

Lemma sort_ints_length (l : list Z) :
  List.length (sort_ints l) = List.length l.
Proof.
  induction l as [|x l IH]; simpl; [reflexivity|].
  now rewrite insert_sorted_length, IH.
Qed.

(** [time_diff.empty] is [median = NaT]. *)
Lemma median_none (l : list Z) : median l = None <-> l = [].
Proof.
  unfold median. rewrite sort_ints_length.
  destruct l as [|x l]; simpl List.length; [tauto|].
  split; [|discriminate].
  destruct (Nat.even (S (List.length l))); discriminate.
Qed.

Lemma diff_after_present (prev : Z) (timestamps : list datetime64) :
  Forall (fun t => t <> None) timestamps ->
  List.length (dropna_time (diff_after (Some prev) timestamps))
  = List.length timestamps.
Proof.
  intros H. revert prev.
  induction H as [|[t|] timestamps Ht _ IH]; intros prev; simpl;
    [reflexivity | now rewrite IH | congruence].
Qed.

Lemma time_diff_length (timestamps : list datetime64) :
  Forall (fun t => t <> None) timestamps ->
  List.length (time_diff timestamps) = (List.length timestamps - 1)%nat.
Proof.
  intros H. unfold time_diff, diff.
  destruct H as [|[t|] timestamps Ht H]; simpl; [reflexivity| |congruence].
  rewrite (diff_after_present t H). lia.
Qed.

Lemma insert_row_In (r x : Row) (l : list Row) :
  In x (insert_row r l) <-> x = r \/ In x l.
Proof.
  induction l as [|h l IH]; simpl; [intuition|].
  destruct (row_leb r h); simpl; [intuition|].
  rewrite IH. intuition.
Qed.

Lemma sort_values_timestamp_icao24_In (x : Row) (rows : list Row) :
  In x (sort_values_timestamp_icao24 rows) <-> In x rows.
Proof.
  unfold sort_values_timestamp_icao24.
  induction rows as [|r rows IH]; simpl; [reflexivity|].
  rewrite insert_row_In, IH. intuition.
Qed.

Lemma mapM_ok (A B : Type) (f : A -> result B) (l : list A) :
  Forall (fun x => exists y, f x = Ok y) l -> exists ys, mapM f l = Ok ys.
Proof.
  induction 1 as [|x l [y Hy] _ [ys IH]]; simpl; [eauto|].
  rewrite Hy, IH. simpl. eauto.
Qed.

Lemma period_of_cases (avg : Z) :
  ((avg < seconds 30)%Z -> period_of avg = "PT10S") /\
  ((seconds 30 <= avg < seconds 120)%Z -> period_of avg = "PT30S") /\
  ((seconds 120 <= avg)%Z -> period_of avg = "PT1M").
Proof.
  unfold period_of.
  destruct (Z.ltb_spec avg (seconds 30)), (Z.ltb_spec avg (seconds 120));
    unfold seconds in *; repeat split; intros; (reflexivity || lia).
Qed.

(** C5 (as amended).  On a store of at least one record, all with a
    timestamp, [create_time_animation] returns an animation whose period is
    decided by the median of the consecutive timestamp deltas: below 30 s
    the period is 10 s, from 30 s and below 120 s it is 30 s, from 120 s on
    it is one minute, the two boundaries going to the higher bracket.  With
    fewer than 2 records there is no delta: the interval defaults to 60 s,
    which the same thresholds turn into the period of 30 s. *)
Theorem animation_period_thresholds (rows : list Row) :
  rows <> [] ->
  Forall (fun r => timestamp r <> None) rows ->
  let timestamps := map (@timestamp _) rows in
  let p := period_of (avg_interval timestamps) in
  (exists fs, create_time_animation (Frame rows) = Ok (Some (mkAnimation fs p))) /\
  (median (time_diff timestamps) = None <-> (List.length rows < 2)%nat) /\
  (median (time_diff timestamps) = None ->
     avg_interval timestamps = seconds 60 /\ p = "PT30S") /\
  (forall m : Z,
     median (time_diff timestamps) = Some m ->
     ((m < seconds 30)%Z -> p = "PT10S") /\
     ((seconds 30 <= m < seconds 120)%Z -> p = "PT30S") /\
     ((seconds 120 <= m)%Z -> p = "PT1M")).
Proof.
  intros Hne Hts timestamps p. repeat split.
  - unfold create_time_animation.
    destruct rows as [|r rows]; [congruence|]. simpl empty. cbv iota.
    simpl column. cbn [bind].
    destruct (@mapM_ok _ _ animation_feature
                (sort_values_timestamp_icao24 (rows_of (Frame (r :: rows)))))
      as [fs Hfs].
    + apply Forall_forall. intros x Hx.
      apply (proj1 (sort_values_timestamp_icao24_In x _)) in Hx.
      simpl rows_of in Hx. rewrite Forall_forall in Hts. specialize (Hts x Hx).
      unfold animation_feature.
      destruct (timestamp x) as [ns|] eqn:E; [|exfalso; apply Hts; exact E].
      simpl. eauto.
    + exists fs. rewrite Hfs. reflexivity.
  - intros H. apply median_none in H.
    apply (f_equal (@List.length Z)) in H.
    rewrite time_diff_length in H.
    + unfold timestamps in H. rewrite length_map in H. simpl in H.
      unfold Row, datetime64 in *. lia.
    + apply Forall_map. exact Hts.
  - intros H. apply median_none.
    assert (Hl : List.length (time_diff timestamps) = 0%nat).
    { rewrite time_diff_length by (apply Forall_map; exact Hts).
      unfold timestamps. rewrite length_map.
      unfold Row, datetime64 in *. lia. }
    destruct (time_diff timestamps); [reflexivity|discriminate].
  - unfold avg_interval. rewrite H. reflexivity.
  - unfold p, avg_interval. rewrite H. reflexivity.
  - unfold p, avg_interval. rewrite H. apply period_of_cases.
  - unfold p, avg_interval. rewrite H. apply period_of_cases.
  - unfold p, avg_interval. rewrite H. apply period_of_cases.
Qed.

Lemma animation_period_thresholds_witness :
  let rows := [parsed_row (Some (seconds 0)) "a0b1c2" "UAL12" 39.5 (-105) 9000 9100;
               parsed_row (Some (seconds 30)) "a0b1c2" "UAL12" 39.5 (-105) 9000 9100;
               parsed_row (Some (seconds 150)) "c0ffee" "DAL7" 40 (-104) 3000 3100] in
  let timestamps := map (@timestamp _) rows in
  let p := period_of (avg_interval timestamps) in
  (exists fs, create_time_animation (Frame rows) = Ok (Some (mkAnimation fs p))) /\
  (median (time_diff timestamps) = None <-> (List.length rows < 2)%nat) /\
  (median (time_diff timestamps) = None ->
     avg_interval timestamps = seconds 60 /\ p = "PT30S") /\
  (forall m : Z,
     median (time_diff timestamps) = Some m ->
     ((m < seconds 30)%Z -> p = "PT10S") /\
     ((seconds 30 <= m < seconds 120)%Z -> p = "PT30S") /\
     ((seconds 120 <= m)%Z -> p = "PT1M")).
Proof.
  intros rows.
  apply (@animation_period_thresholds rows).
  - discriminate.
  - repeat constructor; discriminate.
Defined.

(** C5 (counterexample).  A store of one record has fewer than 2 records;
    its animation gets the period of 30 seconds, not of 60. *)
Lemma single_record_period :
  let row := parsed_row (Some (seconds 0)) "a0b1c2" "UAL12" 39.5 (-105) 9000 9100 in
  exists fs,
    create_time_animation (Frame [row]) = Ok (Some (mkAnimation fs "PT30S")) /\
    period_seconds "PT30S" = 30%Z /\
    period_seconds "PT30S" <> 60%Z.
Proof. eexists. repeat split. discriminate. Qed.

(** The scenarios of the specification: the deltas 10 s, 10 s, 200 s, 10 s
    have the median 10 s and give the period of 10 s; a constant delta of
    exactly 30 s gives 30 s, of exactly 120 s one minute. *)
Example period_ignores_one_gap :
  let timestamps := map (fun s => Some (seconds s)) [0; 10; 20; 220; 230]%Z in
  median (time_diff timestamps) = Some (seconds 10) /\
  period_of (avg_interval timestamps) = "PT10S".
Proof. split; reflexivity. Qed.

Example period_at_boundaries :
  period_of (avg_interval (map (fun s => Some (seconds s)) [0; 30; 60]%Z)) = "PT30S" /\
  period_of (avg_interval (map (fun s => Some (seconds s)) [0; 120; 240]%Z)) = "PT1M".
Proof. split; reflexivity. Qed.

(** ** Statistics *)

Lemma ratio_ok (n d : nat) :
  d <> 0%nat ->
  ratio n d = Ok (mkRatio n d (Qmult (Qmake (Z.of_nat n) (Pos.of_nat d)) (100 # 1))).
Proof. destruct d; [congruence | reflexivity]. Qed.

(** On a store with rows [generate_statistics] returns a report; its
    callsign list and its missing-value counts read as follows. *)
Lemma generate_statistics_report (argsort : list Z -> list nat) (rows : list Row) :
  rows <> [] ->
  exists report : Report,
    generate_statistics argsort (Frame rows) = Ok (Some report) /\
    total_records report = List.length rows /\
    top_callsigns report
    = map (fun p => (strip (fst p), snd p))
        (firstn 10 (sort_counts_descending argsort
           (value_counts_unsorted (dropna_obj (map (@callsign _) rows))))) /\
    ratio_count (missing_altitude report)
    = (isna_sum (map (@baro_altitude _) rows)
       + isna_sum (map (@geo_altitude _) rows))%nat /\
    ratio_total (missing_altitude report) = List.length rows /\
    ratio_percent (missing_altitude report)
    = Qmult (Qmake (Z.of_nat (ratio_count (missing_altitude report)))
                   (Pos.of_nat (List.length rows))) (100 # 1).
Proof.
  intros Hne.
  assert (Hlen : List.length rows <> 0%nat) by (destruct rows; simpl; congruence).
  unfold generate_statistics.
  rewrite (empty_frame Hne).
  unfold column, len. cbn [bind rows_of].
  rewrite !(ratio_ok _ Hlen).
  unfold Row, datetime64 in *.
  destruct (dropna_float (fillna _ _)); destruct (dropna_float (map _ rows));
    cbn [bind]; rewrite ?(ratio_ok _ Hlen); cbn [bind];
    eexists; (split; [reflexivity|]); cbn; repeat split; reflexivity.
Qed.

(** The count printed as missing altitude: a record is counted once for
    each of its two altitude fields that is absent. *)
Lemma missing_altitude_counts_fields (rows : list Row) :
  (isna_sum (map (@baro_altitude _) rows) + isna_sum (map (@geo_altitude _) rows))%nat
  = (List.length (filter (fun r => isna (baro_altitude r) || isna (geo_altitude r)) rows)
     + List.length (filter (fun r => isna (baro_altitude r) && isna (geo_altitude r)) rows))%nat.
Proof.
  unfold isna_sum. induction rows as [|r rows IH]; simpl; [reflexivity|].
  destruct (isna (baro_altitude r)), (isna (geo_altitude r)); simpl; lia.
Qed.

(** C7 (the code departs from the specification).  On a store of one record with
    both altitude fields absent, one record of one has no altitude, 100%.
    The report prints the count 2 of 1 and 200%: the two absent fields are
    added up. *)
Theorem missing_altitude_double_count :
  let row := parsed_row (Some 0%Z) "a0b1c2" "UAL12" 39.5 (-105) nan nan in
  exists report : Report,
    generate_statistics stable_argsort (Frame [row]) = Ok (Some report) /\
    ratio_count (missing_altitude report) = 2%nat /\
    ratio_total (missing_altitude report) = 1%nat /\
    ratio_percent (missing_altitude report) = (200 # 1)%Q /\
    List.length (filter (fun r => isna (baro_altitude r) || isna (geo_altitude r))
                        [row]) = 1%nat.
Proof. eexists. repeat split. Qed.

(** ** The empty store *)

(** C9.  On an empty store, be it [pd.DataFrame()] after a failed load or a
    frame whose rows were all dropped, every map method and the statistics
    return without raising and give [None] after their "No data" message:
    no marker, feature, path or heat point is produced and no statistic is
    computed. *)
Theorem empty_store_no_data
    (argsort : list Z -> list nat) (data : DataFrame) (min_points : nat) :
  empty data = true ->
  create_static_map data = Ok None /\
  create_time_animation data = Ok None /\
  create_flight_paths argsort data min_points = Ok None /\
  create_heatmap data = Ok None /\
  generate_statistics argsort data = Ok None /\
  SimpleAircraftPlotter.create_map argsort data = Ok None.
Proof.
  intros H.
  unfold create_static_map, create_time_animation, create_flight_paths,
    create_heatmap, generate_statistics, SimpleAircraftPlotter.create_map.
  rewrite H. repeat split.
Qed.

Lemma empty_store_no_data_witness :
  let data := load_data stable_argsort (Raise OSError) in
  create_static_map data = Ok None /\
  create_time_animation data = Ok None /\
  create_flight_paths stable_argsort data 2 = Ok None /\
  create_heatmap data = Ok None /\
  generate_statistics stable_argsort data = Ok None /\
  SimpleAircraftPlotter.create_map stable_argsort data = Ok None.
Proof.
  intros data.
  apply (@empty_store_no_data stable_argsort data 2).
  reflexivity.
Defined.

(** The two empty stores [load_data] can leave. *)
Example load_data_empty_stores :
  load_data stable_argsort (Raise OSError) = NoColumns /\
  load_data stable_argsort (Ok []) = Frame [] /\
  load_data stable_argsort
    (Ok [csv_row (TimeText 1000) "a0b1c2" "UAL12" nan nan 9000 9100]) = Frame [] /\
  empty NoColumns = true /\ empty (Frame []) = true.
Proof. repeat split. Qed.

(** ** The most tracked callsigns *)

Lemma head_In (A : Type) (n : nat) (l : list A) (x : A) :
  In x (firstn n l) -> In x l.
Proof.
  intros H. rewrite <- (firstn_skipn n l). apply in_or_app. left. exact H.
Qed.

Lemma unique_In (s : string) (l : list string) :
  In s (unique l) <-> In s l.
Proof.
  induction l as [|x l IH]; simpl; [reflexivity|].
  rewrite filter_In, IH. split.
  - intros [H|[H _]]; auto.
  - intros [H|H]; [auto|].
    destruct (String.eqb x s) eqn:E.
    + apply String.eqb_eq in E. auto.
    + right. split; [exact H|]. reflexivity.
Qed.

Lemma count_positive (s : string) (l : list string) :
  In s l -> (1 <= count s l)%nat.
Proof.
  unfold count. induction l as [|x l IH]; simpl; [contradiction|].
  intros [->|H].
  - rewrite String.eqb_refl. simpl. lia.
  - destruct (String.eqb s x); simpl; [lia | apply IH, H].
Qed.

Lemma value_counts_unsorted_In (s : string) (n : nat) (l : list string) :
  In (s, n) (value_counts_unsorted l) -> In s l /\ n = count s l.
Proof.
  unfold value_counts_unsorted. rewrite in_map_iff.
  intros (x & Hx & Hin). injection Hx as <- <-.
  split; [apply unique_In, Hin | reflexivity].
Qed.

(** C8 (as amended).  The list of the ten most tracked callsigns holds at
    most ten entries, and each entry comes from a callsign that is present
    in some record, printed stripped, with the number of records that carry
    it: a record whose callsign is absent (NaN) contributes no entry.  A
    callsign that is present but blank is counted like any other. *)
Theorem top_callsigns_present (argsort : list Z -> list nat) (rows : list Row) :
  rows <> [] ->
  exists report : Report,
    generate_statistics argsort (Frame rows) = Ok (Some report) /\
    (List.length (top_callsigns report) <= 10)%nat /\
    forall (label : string) (n : nat),
      In (label, n) (top_callsigns report) ->
      exists c : string,
        label = strip c /\
        In (OStr c) (map (@callsign _) rows) /\
        n = count c (dropna_obj (map (@callsign _) rows)) /\
        (1 <= n)%nat.
Proof.
  intros Hne.
  destruct (generate_statistics_report argsort Hne)
    as (report & Hrep & _ & Htop & _).
  exists report. split; [exact Hrep|]. rewrite Htop. split.
  - rewrite length_map. apply firstn_le_length.
  - intros label n Hin. apply in_map_iff in Hin.
    destruct Hin as ([c k] & Heq & Hin). simpl in Heq. injection Heq as <- <-.
    apply head_In in Hin. unfold sort_counts_descending in Hin.
    apply take_In, value_counts_unsorted_In in Hin. destruct Hin as [Hc ->].
    exists c. split; [reflexivity|]. split; [apply dropna_obj_In, Hc|].
    split; [reflexivity | apply count_positive, Hc].
Qed.

Lemma top_callsigns_present_witness :
  let rows := [parsed_row (Some 0%Z) "a0b1c2" "UAL12   " 39.5 (-105) 9000 9100;
               mkRow (Some 1000%Z) (OStr "c0ffee") ONaN 40%float (-104)%float
                     3000%float 0%float 250%float 3100%float;
               parsed_row (Some 2000%Z) "a0b1c2" "UAL12   " 39.5 (-105) 9000 9100] in
  exists report : Report,
    generate_statistics stable_argsort (Frame rows) = Ok (Some report) /\
    (List.length (top_callsigns report) <= 10)%nat /\
    forall (label : string) (n : nat),
      In (label, n) (top_callsigns report) ->
      exists c : string,
        label = strip c /\
        In (OStr c) (map (@callsign _) rows) /\
        n = count c (dropna_obj (map (@callsign _) rows)) /\
        (1 <= n)%nat.
Proof.
  intros rows.
  apply (@top_callsigns_present stable_argsort rows).
  discriminate.
Defined.

(** C8 (counterexample).  A record whose callsign is eight spaces gives the
    list an entry, printed as the empty text. *)
Lemma blank_callsign_listed :
  let row := parsed_row (Some 0%Z) "a0b1c2" "        " 39.5 (-105) 9000 9100 in
  exists report : Report,
    generate_statistics stable_argsort (Frame [row]) = Ok (Some report) /\
    top_callsigns report = [("", 1%nat)].
Proof. eexists. split; reflexivity. Qed.

(** ** Flight paths *)

Lemma last_cons (A : Type) (x : A) (l : list A) :
  exists y, last (x :: l) = Ok y.
Proof.
  unfold last. destruct (rev (x :: l)) as [|y t] eqn:E; simpl; [|eauto].
  apply (f_equal (@List.length A)) in E. rewrite length_rev in E. discriminate.
Qed.

Lemma color_assignment_keys (palette : list string) (min_points : nat)
    (groups : list (string * list Row)) (color_idx : nat) (k : string) :
  In k (map fst (color_assignment palette min_points color_idx groups)) ->
  In k (map fst groups).
Proof.
  revert color_idx. induction groups as [|[id g] groups IH]; intros idx; simpl;
    [tauto|].
  destruct (drawn min_points g); simpl; intros H.
  - destruct H as [H|H]; [auto | right; eapply IH, H].
  - right. eapply IH, H.
Qed.

Lemma color_assignment_sorted (palette : list string) (min_points : nat)
    (groups : list (string * list Row)) (color_idx : nat) :
  StronglySorted key_lt (map fst groups) ->
  StronglySorted key_lt
    (map fst (color_assignment palette min_points color_idx groups)).
Proof.
  revert color_idx. induction groups as [|[id g] groups IH]; intros idx; simpl;
    intros H; [constructor|].
  inversion H as [|? ? Hs Hall]; subst.
  destruct (drawn min_points g); simpl; [|apply IH, Hs].
  constructor; [apply IH, Hs|].
  apply Forall_forall. intros k Hk. apply color_assignment_keys in Hk.
  rewrite Forall_forall in Hall. apply Hall, Hk.
Qed.

Lemma color_assignment_round_robin (palette : list string) (min_points : nat)
    (groups : list (string * list Row)) (color_idx i : nat) (k c : string) :
  nth_error (color_assignment palette min_points color_idx groups) i = Some (k, c) ->
  c = nth ((color_idx + i) mod List.length palette) palette "".
Proof.
  revert color_idx i. induction groups as [|[id g] groups IH]; intros idx i; simpl.
  - destruct i; discriminate.
  - destruct (drawn min_points g); [|apply IH].
    destruct i as [|i]; simpl.
    + intros H. injection H as <- <-. now rewrite Nat.add_0_r.
    + intros H. apply IH in H. now rewrite Nat.add_succ_r.
Qed.

Section FlightPaths.

Variable argsort : list Z -> list nat.
Hypothesis argsort_ok : argsort_spec argsort.
Variable min_points : nat.

(** The loop of [create_flight_paths] raises nothing, colours the drawn
    groups as [color_assignment] says, and draws each path over the track
    of its group. *)
Lemma flight_paths_loop_spec (groups : list (string * list Row)) :
  Forall (fun g => snd g <> []) groups ->
  forall color_idx : nat,
  exists paths : list FlightPath,
    flight_paths_loop argsort min_points color_idx groups = Ok paths /\
    map (fun p => (path_aircraft p, path_color p)) paths
    = color_assignment colors min_points color_idx groups /\
    Forall (fun p =>
              exists group,
                In (path_aircraft p, group) groups /\
                path_coordinates p
                = map (fun row => (latitude row, longitude row))
                      (track_of argsort group) /\
                path_times p = map (@timestamp _) (track_of argsort group) /\
                path_intermediate p = between (track_of argsort group) /\
                (min_points <= List.length (track_of argsort group))%nat)
           paths.
Proof.
  induction 1 as [|[id g] groups Hg _ IH]; intros idx.
  - exists []. repeat split; constructor.
  - simpl in Hg.
    assert (Hlen := sort_values_timestamp_length argsort_ok g).
    assert (Hdd := drop_duplicates_length_perm
                     (sort_values_timestamp_perm argsort_ok g)).
    assert (Hne : exists r rest,
               drop_duplicates (sort_values_timestamp argsort g) = r :: rest).
    { destruct (sort_values_timestamp argsort g) as [|r s] eqn:E.
      - destruct g; [congruence|discriminate].
      - destruct (drop_duplicates_cons r s) as [rest H]. eauto. }
    destruct Hne as (r & rest & Hr).
    assert (Hskip : forall paths,
      Forall (fun p => exists group, In (path_aircraft p, group) groups /\
                path_coordinates p
                = map (fun row => (latitude row, longitude row))
                      (track_of argsort group) /\
                path_times p = map (@timestamp _) (track_of argsort group) /\
                path_intermediate p = between (track_of argsort group) /\
                (min_points <= List.length (track_of argsort group))%nat) paths ->
      Forall (fun p => exists group, In (path_aircraft p, group) ((id, g) :: groups) /\
                path_coordinates p
                = map (fun row => (latitude row, longitude row))
                      (track_of argsort group) /\
                path_times p = map (@timestamp _) (track_of argsort group) /\
                path_intermediate p = between (track_of argsort group) /\
                (min_points <= List.length (track_of argsort group))%nat) paths).
    { apply Forall_impl. intros p (group & Hin & H). exists group.
      split; [right; exact Hin | exact H]. }
    cbn [flight_paths_loop color_assignment]. unfold drawn.
    rewrite length_map, Hlen, Hdd.
    destruct (min_points <=? List.length g)%nat eqn:E1; cbn [andb].
    + destruct (min_points <=? List.length (drop_duplicates g))%nat eqn:E2.
      * destruct (IH (S idx)) as (paths & H1 & H2 & H3).
        rewrite H1, Hr.
        destruct (last_cons r rest) as [e He].
        destruct (last_cons (timestamp r) (map (@timestamp _) rest)) as [t Ht].
        assert (E3 := E2). rewrite <- Hdd, Hr in E3.
        simpl map. unfold Row, datetime64 in *.
        rewrite ?length_map, ?E3, He, Ht. cbn [first bind].
        eexists. split; [reflexivity|]. split; [simpl; rewrite H2; reflexivity|].
        constructor; [|apply Hskip, H3].
        exists g. simpl. unfold track_of. rewrite Hr.
        repeat split; auto.
        apply Nat.leb_le in E3. exact E3.
      * destruct (IH idx) as (paths & H1 & H2 & H3). eauto.
    + destruct (IH idx) as (paths & H1 & H2 & H3). eauto.
Qed.

End FlightPaths.

Lemma create_flight_paths_spec
    (argsort : list Z -> list nat) (rows : list Row) (min_points : nat) :
  argsort_spec argsort ->
  rows <> [] ->
  exists paths : list FlightPath,
    create_flight_paths argsort (Frame rows) min_points = Ok (Some paths) /\
    map (fun p => (path_aircraft p, path_color p)) paths
    = color_assignment colors min_points 0 (groupby_icao24 rows) /\
    forall path : FlightPath,
      In path paths ->
      let track := track_of argsort (filter (has_icao24 (path_aircraft path)) rows) in
      path_coordinates path = map (fun row => (latitude row, longitude row)) track /\
      path_times path = map (@timestamp _) track /\
      path_intermediate path = between track /\
      (min_points <= List.length track)%nat.
Proof.
  intros Hok Hne.
  assert (Hgroups := groupby_icao24_groups rows).
  destruct (@flight_paths_loop_spec argsort Hok min_points (groupby_icao24 rows))
    with (color_idx := 0%nat) as (paths & Hloop & Hcolors & Hpaths).
  { revert Hgroups. apply Forall_impl. intros g [_ H]. exact H. }
  exists paths. split; [|split; [exact Hcolors|]].
  - unfold create_flight_paths.
    rewrite (empty_frame Hne).
    unfold column. cbn [bind rows_of]. rewrite Hloop. reflexivity.
  - intros path Hin. rewrite Forall_forall in Hpaths, Hgroups.
    destruct (Hpaths path Hin) as (group & Hg & H).
    destruct (Hgroups _ Hg) as [Heq _]. simpl in Heq. rewrite <- Heq. exact H.
Qed.

(** C4 (as amended).  Within each track deduplication drops every record
    whose (latitude, longitude) equals that of an earlier record of the
    track, whether the two are adjacent or not, and keeps the first record
    of each position: scanning the time-ordered group from the left, a
    record is kept exactly when no record before it has its position.  The
    polyline of each drawn path runs over the records so kept. *)
Theorem track_deduplication
    (argsort : list Z -> list nat) (rows : list Row) (min_points : nat) :
  argsort_spec argsort ->
  rows <> [] ->
  (forall (earlier : list Row) (r : Row),
     drop_duplicates (earlier ++ [r])%list
     = (drop_duplicates earlier
        ++ (if existsb (same_position r) earlier then [] else [r]))%list) /\
  exists paths : list FlightPath,
    create_flight_paths argsort (Frame rows) min_points = Ok (Some paths) /\
    forall path : FlightPath,
      In path paths ->
      let group :=
        sort_values_timestamp argsort
          (filter (has_icao24 (path_aircraft path)) rows) in
      path_coordinates path
      = map (fun row => (latitude row, longitude row)) (drop_duplicates group) /\
      path_times path = map (@timestamp _) (drop_duplicates group).
Proof.
  intros Hok Hne. split; [exact drop_duplicates_snoc|].
  destruct (create_flight_paths_spec min_points Hok Hne)
    as (paths & Hrun & _ & Hpaths).
  exists paths. split; [exact Hrun|].
  intros path Hin. destruct (Hpaths path Hin) as (H1 & H2 & _).
  split; assumption.
Qed.

Lemma track_deduplication_witness :
  let rows := [parsed_row (Some 0%Z) "a0b1c2" "UAL12" 39.5 (-105) 9000 9100;
               parsed_row (Some 1000%Z) "a0b1c2" "UAL12" 40 (-104) 9000 9100;
               parsed_row (Some 2000%Z) "a0b1c2" "UAL12" 39.5 (-105) 9000 9100] in
  (forall (earlier : list Row) (r : Row),
     drop_duplicates (earlier ++ [r])%list
     = (drop_duplicates earlier
        ++ (if existsb (same_position r) earlier then [] else [r]))%list) /\
  exists paths : list FlightPath,
    create_flight_paths stable_argsort (Frame rows) 2 = Ok (Some paths) /\
    forall path : FlightPath,
      In path paths ->
      let group :=
        sort_values_timestamp stable_argsort
          (filter (has_icao24 (path_aircraft path)) rows) in
      path_coordinates path
      = map (fun row => (latitude row, longitude row)) (drop_duplicates group) /\
      path_times path = map (@timestamp _) (drop_duplicates group).
Proof.
  intros rows.
  apply (@track_deduplication stable_argsort rows 2).
  - apply insertion_argsort_spec.
  - discriminate.
Defined.

(** C4 (counterexample).  One aircraft is seen at a position, then at
    another, then at the first again.  The third record repeats a position
    that is earlier but not adjacent; it is not in the track, whose
    polyline has the two points of the first two records. *)
Lemma revisited_position_dropped :
  let a := parsed_row (Some 0%Z) "a0b1c2" "UAL12" 39.5 (-105) 9000 9100 in
  let b := parsed_row (Some 1000%Z) "a0b1c2" "UAL12" 40 (-104) 9000 9100 in
  let a' := parsed_row (Some 2000%Z) "a0b1c2" "UAL12" 39.5 (-105) 9000 9100 in
  track_of stable_argsort [a; b; a'] = [a; b] /\
  exists path : FlightPath,
    create_flight_paths stable_argsort (Frame [a; b; a']) 2 = Ok (Some [path]) /\
    path_coordinates path = [(39.5, -105); (40, -104)]%float /\
    path_times path = [Some 0%Z; Some 1000%Z].
Proof. split; [reflexivity|]. eexists. repeat split. Qed.

(** ** Colours *)

Lemma tracks_loop_keys (argsort : list Z -> list nat)
    (groups : list (string * list Row)) (color_idx : nat) :
  map (@SimpleAircraftPlotter.track_aircraft)
      (SimpleAircraftPlotter.tracks_loop argsort color_idx groups)
  = map fst groups.
Proof.
  revert color_idx. induction groups as [|[id g] groups IH]; intros idx; simpl;
    [reflexivity | now rewrite IH].
Qed.

Lemma tracks_loop_round_robin (argsort : list Z -> list nat)
    (groups : list (string * list Row)) (color_idx i : nat)
    (t : SimpleAircraftPlotter.Track) :
  nth_error (SimpleAircraftPlotter.tracks_loop argsort color_idx groups) i = Some t ->
  SimpleAircraftPlotter.track_color t
  = nth ((color_idx + i) mod List.length SimpleAircraftPlotter.colors)
        SimpleAircraftPlotter.colors "".
Proof.
  revert color_idx i. induction groups as [|[id g] groups IH]; intros idx i.
  - destruct i; discriminate.
  - destruct i as [|i]; cbn [SimpleAircraftPlotter.tracks_loop nth_error].
    + intros H. injection H as <-. now rewrite Nat.add_0_r.
    + intros H. apply IH in H. now rewrite Nat.add_succ_r.
Qed.

Lemma tracks_loop_colors (argsort1 argsort2 : list Z -> list nat)
    (groups : list (string * list Row)) (color_idx : nat) :
  map (fun t => (SimpleAircraftPlotter.track_aircraft t,
                 SimpleAircraftPlotter.track_color t))
      (SimpleAircraftPlotter.tracks_loop argsort1 color_idx groups)
  = map (fun t => (SimpleAircraftPlotter.track_aircraft t,
                   SimpleAircraftPlotter.track_color t))
        (SimpleAircraftPlotter.tracks_loop argsort2 color_idx groups).
Proof.
  revert color_idx. induction groups as [|[id g] groups IH]; intros idx; simpl;
    [reflexivity | now rewrite IH].
Qed.

Lemma create_map_ok (argsort : list Z -> list nat) (rows : list Row) :
  rows <> [] ->
  SimpleAircraftPlotter.create_map argsort (Frame rows)
  = Ok (Some (SimpleAircraftPlotter.tracks_loop argsort 0 (groupby_icao24 rows))).
Proof.
  intros Hne. unfold SimpleAircraftPlotter.create_map.
  rewrite (empty_frame Hne).
  reflexivity.
Qed.

(** C10.  The groups of [groupby('icao24')] come in strictly ascending
    order of icao24, so the palette is handed out in that order.  In
    [create_flight_paths] the drawn paths are in ascending order of
    aircraft, the i-th of them has the i-th palette colour round-robin,
    and the colour of each aircraft is the same in any two runs over the
    same store, whatever order the library sort leaves among equal
    timestamps.  The same holds of the tracks of
    [SimpleAircraftPlotter.create_map]. *)
Theorem flight_path_colors_deterministic
    (argsort1 argsort2 : list Z -> list nat) (rows : list Row) (min_points : nat) :
  argsort_spec argsort1 ->
  argsort_spec argsort2 ->
  rows <> [] ->
  StronglySorted key_lt (map fst (groupby_icao24 rows)) /\
  (exists paths1 paths2 : list FlightPath,
     create_flight_paths argsort1 (Frame rows) min_points = Ok (Some paths1) /\
     create_flight_paths argsort2 (Frame rows) min_points = Ok (Some paths2) /\
     map (fun p => (path_aircraft p, path_color p)) paths1
     = map (fun p => (path_aircraft p, path_color p)) paths2 /\
     StronglySorted key_lt (map (@path_aircraft) paths1) /\
     forall (i : nat) (p : FlightPath),
       nth_error paths1 i = Some p ->
       path_color p = nth (i mod 18) colors "") /\
  (exists tracks1 tracks2 : list SimpleAircraftPlotter.Track,
     SimpleAircraftPlotter.create_map argsort1 (Frame rows) = Ok (Some tracks1) /\
     SimpleAircraftPlotter.create_map argsort2 (Frame rows) = Ok (Some tracks2) /\
     map (fun t => (SimpleAircraftPlotter.track_aircraft t,
                    SimpleAircraftPlotter.track_color t)) tracks1
     = map (fun t => (SimpleAircraftPlotter.track_aircraft t,
                      SimpleAircraftPlotter.track_color t)) tracks2 /\
     StronglySorted key_lt (map (@SimpleAircraftPlotter.track_aircraft) tracks1) /\
     forall (i : nat) (t : SimpleAircraftPlotter.Track),
       nth_error tracks1 i = Some t ->
       SimpleAircraftPlotter.track_color t
       = nth (i mod 17) SimpleAircraftPlotter.colors "").
Proof.
  intros Hok1 Hok2 Hne.
  assert (Hkeys := groupby_icao24_keys rows).
  split; [exact Hkeys|]. split.
  - destruct (create_flight_paths_spec min_points Hok1 Hne) as (paths1 & Hrun1 & Hc1 & _).
    destruct (create_flight_paths_spec min_points Hok2 Hne) as (paths2 & Hrun2 & Hc2 & _).
    exists paths1, paths2. repeat split; try assumption.
    + rewrite Hc1, Hc2. reflexivity.
    + rewrite <- (map_map (fun p => (path_aircraft p, path_color p)) fst), Hc1.
      apply color_assignment_sorted, Hkeys.
    + intros i p Hi.
      apply (map_nth_error (fun p => (path_aircraft p, path_color p))) in Hi.
      rewrite Hc1 in Hi. apply color_assignment_round_robin in Hi.
      exact Hi.
  - exists (SimpleAircraftPlotter.tracks_loop argsort1 0 (groupby_icao24 rows)),
           (SimpleAircraftPlotter.tracks_loop argsort2 0 (groupby_icao24 rows)).
    repeat split.
    + apply create_map_ok, Hne.
    + apply create_map_ok, Hne.
    + apply tracks_loop_colors.
    + rewrite tracks_loop_keys. exact Hkeys.
    + intros i t Hi. apply tracks_loop_round_robin in Hi. exact Hi.
Qed.

Lemma flight_path_colors_deterministic_witness :
  let rows := [parsed_row (Some 0%Z) "c0ffee" "DAL7" 39.5 (-105) 9000 9100;
               parsed_row (Some 0%Z) "a0b1c2" "UAL12" 40 (-104) 9000 9100;
               parsed_row (Some 1000%Z) "c0ffee" "DAL7" 39.75 (-105) 9000 9100;
               parsed_row (Some 1000%Z) "c0ffee" "DAL7" 39.5 (-105) 9000 9100;
               parsed_row (Some 1000%Z) "a0b1c2" "UAL12" 40.5 (-104) 9000 9100] in
  StronglySorted key_lt (map fst (groupby_icao24 rows)) /\
  (exists paths1 paths2 : list FlightPath,
     create_flight_paths stable_argsort (Frame rows) 2 = Ok (Some paths1) /\
     create_flight_paths reversing_argsort (Frame rows) 2 = Ok (Some paths2) /\
     map (fun p => (path_aircraft p, path_color p)) paths1
     = map (fun p => (path_aircraft p, path_color p)) paths2 /\
     StronglySorted key_lt (map (@path_aircraft) paths1) /\
     forall (i : nat) (p : FlightPath),
       nth_error paths1 i = Some p ->
       path_color p = nth (i mod 18) colors "") /\
  (exists tracks1 tracks2 : list SimpleAircraftPlotter.Track,
     SimpleAircraftPlotter.create_map stable_argsort (Frame rows) = Ok (Some tracks1) /\
     SimpleAircraftPlotter.create_map reversing_argsort (Frame rows) = Ok (Some tracks2) /\
     map (fun t => (SimpleAircraftPlotter.track_aircraft t,
                    SimpleAircraftPlotter.track_color t)) tracks1
     = map (fun t => (SimpleAircraftPlotter.track_aircraft t,
                      SimpleAircraftPlotter.track_color t)) tracks2 /\
     StronglySorted key_lt (map (@SimpleAircraftPlotter.track_aircraft) tracks1) /\
     forall (i : nat) (t : SimpleAircraftPlotter.Track),
       nth_error tracks1 i = Some t ->
       SimpleAircraftPlotter.track_color t
       = nth (i mod 17) SimpleAircraftPlotter.colors "").
Proof.
  intros rows.
  apply (@flight_path_colors_deterministic stable_argsort reversing_argsort rows 2).
  - apply insertion_argsort_spec.
  - apply insertion_argsort_spec.
  - discriminate.
Defined.

(** The store of the witness, run: the aircraft a0b1c2 is drawn first and
    red, c0ffee second and blue, under either sort. *)
Example flight_path_colors_run :
  let rows := [parsed_row (Some 0%Z) "c0ffee" "DAL7" 39.5 (-105) 9000 9100;
               parsed_row (Some 0%Z) "a0b1c2" "UAL12" 40 (-104) 9000 9100;
               parsed_row (Some 1000%Z) "c0ffee" "DAL7" 39.75 (-105) 9000 9100;
               parsed_row (Some 1000%Z) "c0ffee" "DAL7" 39.5 (-105) 9000 9100;
               parsed_row (Some 1000%Z) "a0b1c2" "UAL12" 40.5 (-104) 9000 9100] in
  color_assignment colors 2 0 (groupby_icao24 rows)
  = [("a0b1c2", "red"); ("c0ffee", "blue")] /\
  exists paths : list FlightPath,
    create_flight_paths reversing_argsort (Frame rows) 2 = Ok (Some paths) /\
    map (fun p => (path_aircraft p, path_color p)) paths
    = [("a0b1c2", "red"); ("c0ffee", "blue")].
Proof. split; [reflexivity|]. eexists. split; reflexivity. Qed.

End AnalyzerFacts.

(* ================================================================== *)
(** * Further properties of the analyzers and the scrapper *)
(* ================================================================== *)

Module SortFacts.

Import Py Pandas PandasFacts.

(** ** [lexsort] *)

Section Lexsort.

Variable A : Type.
Variable leb : A -> A -> bool.
Hypothesis leb_total : forall x y, leb x y = false -> leb y x = true.

Lemma insert_by_perm (x : A) (l : list A) :
  Permutation (insert_by leb x l) (x :: l).
Proof.
  induction l as [|h l IH]; simpl; [apply Permutation_refl|].
  destruct (leb x h); [apply Permutation_refl|].
  rewrite IH. apply perm_swap.
Qed.

Lemma lexsort_perm (l : list A) : Permutation (lexsort leb l) l.
Proof.
  unfold lexsort. induction l as [|x l IH]; simpl; [constructor|].
  rewrite insert_by_perm. constructor. exact IH.
Qed.

Lemma insert_by_sorted (x : A) (l : list A) :
  Sorted (fun a b => leb a b = true) l ->
  Sorted (fun a b => leb a b = true) (insert_by leb x l).
Proof.
  induction l as [|h l IH]; simpl; intros H; [repeat constructor|].
  inversion H as [|? ? Hs Hh]; subst.
  destruct (leb x h) eqn:E.
  - constructor; [exact H|]. constructor. exact E.
  - constructor; [apply IH, Hs|].
    apply leb_total in E. clear IH H Hs.
    destruct l as [|k l]; simpl; [constructor; exact E|].
    destruct (leb x k); constructor; [exact E|].
    inversion Hh; subst. assumption.
Qed.

Lemma lexsort_sorted (l : list A) :
  Sorted (fun a b => leb a b = true) (lexsort leb l).
Proof.
  unfold lexsort. induction l as [|x l IH]; simpl; [constructor|].
  apply insert_by_sorted, IH.
Qed.

End Lexsort.

(** ** The two orders are total *)

Lemma time_leb_total (a b : datetime64) :
  time_leb a b = false -> time_leb b a = true.
Proof.
  destruct a as [x|], b as [y|]; simpl; try congruence.
  intros H. apply Z.leb_le. apply Z.leb_gt in H. lia.
Qed.

Lemma time_leb_le (a b : datetime64) : time_leb a b = true -> time_le a b.
Proof.
  destruct a as [x|], b as [y|]; simpl; try congruence; try tauto.
  apply Z.leb_le.
Qed.

Lemma time_le_trans (a b c : datetime64) : time_le a b -> time_le b c -> time_le a c.
Proof.
  destruct a as [x|], b as [y|], c as [z|]; simpl; try tauto. lia.
Qed.

Lemma object_leb_total (a b : object) :
  AircraftMapAnalyzer.object_leb a b = false ->
  AircraftMapAnalyzer.object_leb b a = true.
Proof.
  destruct a as [|x], b as [|y]; simpl; try congruence.
  intros H. destruct (String.leb_total x y) as [H'|H']; congruence.
Qed.

Lemma row_leb_total (r1 r2 : Row) :
  AircraftMapAnalyzer.row_leb r1 r2 = false ->
  AircraftMapAnalyzer.row_leb r2 r1 = true.
Proof.
  unfold AircraftMapAnalyzer.row_leb.
  destruct (timestamp r1) as [x|], (timestamp r2) as [y|]; try congruence.
  - intros H. apply orb_false_iff in H. destruct H as [H1 H2].
    apply Z.ltb_ge in H1.
    destruct (Z.eqb_spec x y) as [->|Hne].
    + simpl in H2. rewrite Z.ltb_irrefl, Z.eqb_refl. simpl.
      apply object_leb_total, H2.
    + apply orb_true_iff. left. apply Z.ltb_lt. lia.
  - apply object_leb_total.
Qed.

Lemma row_leb_time (r1 r2 : Row) :
  AircraftMapAnalyzer.row_leb r1 r2 = true ->
  time_le (timestamp r1) (timestamp r2).
Proof.
  unfold AircraftMapAnalyzer.row_leb.
  destruct (timestamp r1) as [x|], (timestamp r2) as [y|]; simpl;
    try congruence; try tauto.
  intros H. apply orb_true_iff in H. destruct H as [H|H].
  - apply Z.ltb_lt in H. lia.
  - apply andb_true_iff in H. destruct H as [H _]. apply Z.eqb_eq in H. lia.
Qed.

Lemma icao24_timestamp_leb_total (r1 r2 : Row) :
  SimpleAircraftPlotter.icao24_timestamp_leb r1 r2 = false ->
  SimpleAircraftPlotter.icao24_timestamp_leb r2 r1 = true.
Proof.
  unfold SimpleAircraftPlotter.icao24_timestamp_leb.
  destruct (icao24 r1) as [|x], (icao24 r2) as [|y]; try congruence;
    try apply time_leb_total.
  rewrite (String.compare_antisym x y).
  destruct (String.compare y x); simpl; try congruence.
  apply time_leb_total.
Qed.

Lemma sort_values_timestamp_icao24_lexsort (rows : list Row) :
  AircraftMapAnalyzer.sort_values_timestamp_icao24 rows
  = lexsort AircraftMapAnalyzer.row_leb rows.
Proof.
  unfold AircraftMapAnalyzer.sort_values_timestamp_icao24, lexsort.
  induction rows as [|r rows IH]; simpl; [reflexivity|].
  rewrite IH. generalize (fold_right (insert_by AircraftMapAnalyzer.row_leb) [] rows).
  intros l. induction l as [|h l IHl]; simpl; [reflexivity|].
  now rewrite IHl.
Qed.

(** Adjacent order of the rows gives the order of their timestamps. *)
Lemma sorted_times (R : Row -> Row -> Prop) (rows : list Row) :
  (forall r1 r2, R r1 r2 -> time_le (timestamp r1) (timestamp r2)) ->
  Sorted R rows ->
  StronglySorted time_le (map (@timestamp _) rows).
Proof.
  intros HR Hs. apply Sorted_StronglySorted.
  - intros a b c. apply time_le_trans.
  - induction Hs as [|r rows Hs IH Hh]; simpl; constructor; [exact IH|].
    destruct Hh; simpl; constructor. apply HR. assumption.
Qed.

End SortFacts.

Module ViewFacts.

Import Py Pandas PandasFacts SortFacts AircraftMapAnalyzer.

Local Open Scope string_scope.

(** ** [mapM] *)

Lemma mapM_results (A B : Type) (f : A -> result B) (l : list A) (ys : list B) :
  mapM f l = Ok ys -> Forall2 (fun x y => f x = Ok y) l ys.
Proof.
  revert ys. induction l as [|x l IH]; simpl; intros ys H.
  - injection H as <-. constructor.
  - destruct (f x) as [y|e] eqn:Ex; simpl in H; [|discriminate].
    destruct (mapM f l) as [ys'|e]; simpl in H; [|discriminate].
    injection H as <-. constructor; [exact Ex | apply IH; reflexivity].
Qed.

Lemma mapM_all_ok (A B : Type) (f : A -> result B) (l : list A) :
  Forall (fun x => exists y, f x = Ok y) l -> exists ys, mapM f l = Ok ys.
Proof.
  induction 1 as [|x l [y Hy] _ [ys IH]]; simpl; [eauto|].
  rewrite Hy, IH. simpl. eauto.
Qed.

Lemma mapM_raises (A B : Type) (f : A -> result B) (l : list A) (e : exn) (x : A) :
  (forall a e', f a = Raise e' -> e' = e) ->
  In x l -> f x = Raise e ->
  mapM f l = Raise e.
Proof.
  intros Honly Hin Hx. induction l as [|a l IH]; [contradiction|]. simpl.
  destruct (f a) as [y|e'] eqn:Ea; simpl.
  - destruct Hin as [->|Hin]; [congruence|]. rewrite (IH Hin). reflexivity.
  - f_equal. eapply Honly, Ea.
Qed.

(** ** The animation *)

Lemma animation_feature_ok (row : Row) (ns : Z) :
  timestamp row = Some ns ->
  animation_feature row
  = Ok (mkFeature (longitude row, latitude row) (ns / 1000000000)
                  (altitude_color (altitude row)) (altitude row) row).
Proof. intros H. unfold animation_feature. rewrite H. reflexivity. Qed.

Lemma animation_feature_raises (row : Row) (e : exn) :
  animation_feature row = Raise e -> e = ValueError /\ timestamp row = None.
Proof.
  unfold animation_feature. destruct (timestamp row); simpl; [discriminate|].
  intros H. injection H as <-. auto.
Qed.

Lemma create_time_animation_run (rows : list Row) :
  rows <> [] ->
  create_time_animation (Frame rows)
  = (features <- mapM animation_feature (sort_values_timestamp_icao24 rows) ;;
     Ok (Some (mkAnimation features
                 (period_of (avg_interval (map (@timestamp _) rows)))))).
Proof.
  intros Hne. unfold create_time_animation. rewrite (empty_frame Hne).
  reflexivity.
Qed.

(** X1.  On a store with records, [create_time_animation] raises
    ValueError exactly when some record has no timestamp (NaT has no
    strftime); otherwise it returns an animation. *)
Theorem animation_raises_without_timestamp (rows : list Row) :
  rows <> [] ->
  (create_time_animation (Frame rows) = Raise ValueError
   <-> exists r, In r rows /\ timestamp r = None) /\
  ((forall r, In r rows -> timestamp r <> None)
   <-> exists animation, create_time_animation (Frame rows) = Ok (Some animation)).
Proof.
  intros Hne. rewrite (create_time_animation_run Hne).
  assert (Hin : forall r, In r (sort_values_timestamp_icao24 rows) <-> In r rows).
  { intros r. rewrite sort_values_timestamp_icao24_lexsort.
    split; apply Permutation_in;
      [|apply Permutation_sym]; apply lexsort_perm. }
  assert (Hraise : (exists r, In r rows /\ timestamp r = None) ->
                   mapM animation_feature (sort_values_timestamp_icao24 rows)
                   = Raise ValueError).
  { intros (r & Hr & Hnone).
    apply (@mapM_raises _ _ animation_feature _ ValueError r).
    - intros a e' H. apply animation_feature_raises in H. tauto.
    - apply Hin, Hr.
    - unfold animation_feature. rewrite Hnone. reflexivity. }
  assert (Hok : (forall r, In r rows -> timestamp r <> None) ->
                exists fs, mapM animation_feature (sort_values_timestamp_icao24 rows)
                           = Ok fs).
  { intros Hall. apply mapM_all_ok, Forall_forall. intros r Hr.
    apply Hin in Hr. specialize (Hall r Hr).
    destruct (timestamp r) as [ns|] eqn:E; [|exfalso; apply Hall; reflexivity].
    rewrite (animation_feature_ok r E). eauto. }
  assert (Hdec : (exists r, In r rows /\ timestamp r = None)
                 \/ (forall r, In r rows -> timestamp r <> None)).
  { clear. induction rows as [|r rows IH]; [right; intros r []|].
    destruct (timestamp r) as [ns|] eqn:E.
    - destruct IH as [(x & Hx & Hn)|IH]; [left; exists x; simpl; auto|].
      right. intros x [<-|Hx]; [unfold Row, datetime64 in *; congruence|auto].
    - left. exists r. simpl. auto. }
  split; split.
  - intros H. destruct Hdec as [Hd|Hd]; [exact Hd|].
    destruct (Hok Hd) as [fs Hfs]. rewrite Hfs in H. discriminate.
  - intros H. rewrite (Hraise H). reflexivity.
  - intros H. destruct (Hok H) as [fs Hfs]. rewrite Hfs. simpl. eauto.
  - intros [animation H] r Hr Hnone.
    rewrite Hraise in H by eauto. discriminate.
Qed.

Lemma animation_raises_without_timestamp_witness :
  let rows := [parsed_row (Some 1000%Z) "a0b1c2" "UAL12" 39.5 (-105) 9000 9100;
               parsed_row None "c0ffee" "DAL7" 40 (-104) 3000 3100] in
  (create_time_animation (Frame rows) = Raise ValueError
   <-> exists r, In r rows /\ timestamp r = None) /\
  ((forall r, In r rows -> timestamp r <> None)
   <-> exists animation, create_time_animation (Frame rows) = Ok (Some animation)).
Proof.
  intros rows. apply (@animation_raises_without_timestamp rows). discriminate.
Defined.

Lemma sorted_seconds (rows : list Row) :
  Forall (fun r => timestamp r <> None) rows ->
  StronglySorted time_le (map (@timestamp _) rows) ->
  StronglySorted Z.le
    (map (fun r => match timestamp r with
                   | Some ns => (ns / 1000000000)%Z
                   | None => 0%Z
                   end) rows).
Proof.
  induction 1 as [|r rows Hr Hall IH]; simpl; intros Hs; [constructor|].
  inversion Hs as [|? ? Hs' Hle]; subst. constructor; [apply IH, Hs'|].
  rewrite Forall_map in Hle. rewrite Forall_map.
  rewrite Forall_forall in Hle, Hall. apply Forall_forall. intros x Hx.
  specialize (Hle x Hx). specialize (Hall x Hx).
  unfold Row, datetime64 in *.
  destruct (timestamp r) as [a|]; [|exfalso; apply Hr; reflexivity].
  destruct (timestamp x) as [b|]; [|exfalso; apply Hall; reflexivity].
  simpl in Hle. apply Z.div_le_mono; lia.
Qed.

(** X2.  When every record has a timestamp the animation has one feature per
    record, placed at the record's (longitude, latitude) and coloured by
    its altitude; the features come in ascending order of timestamp, the
    records of one instant in ascending order of icao24, so the printed
    times never go back. *)
Theorem animation_features_in_time_order (rows : list Row) :
  rows <> [] ->
  Forall (fun r => timestamp r <> None) rows ->
  exists fs : list Feature,
    create_time_animation (Frame rows)
    = Ok (Some (mkAnimation fs (period_of (avg_interval (map (@timestamp _) rows))))) /\
    Permutation (map (@feature_row) fs) rows /\
    Sorted (fun a b => row_leb a b = true) (map (@feature_row) fs) /\
    StronglySorted Z.le (map (@feature_time) fs) /\
    Forall (fun f =>
              feature_coordinates f
              = (longitude (feature_row f), latitude (feature_row f)) /\
              feature_color f = altitude_color (altitude (feature_row f)))
           fs.
Proof.
  intros Hne Hall. rewrite (create_time_animation_run Hne).
  set (sorted := sort_values_timestamp_icao24 rows).
  assert (Hperm : Permutation sorted rows).
  { unfold sorted. rewrite sort_values_timestamp_icao24_lexsort.
    apply lexsort_perm. }
  assert (Hsorted : Sorted (fun a b => row_leb a b = true) sorted).
  { unfold sorted. rewrite sort_values_timestamp_icao24_lexsort.
    apply lexsort_sorted, row_leb_total. }
  assert (Hall' : Forall (fun r => timestamp r <> None) sorted).
  { apply Forall_forall. intros r Hr. rewrite Forall_forall in Hall.
    apply Hall. apply (Permutation_in _ Hperm), Hr. }
  destruct (@mapM_all_ok _ _ animation_feature sorted) as [fs Hfs].
  { revert Hall'. apply Forall_impl. intros r Hr.
    destruct (timestamp r) as [ns|] eqn:E; [|exfalso; apply Hr; exact E].
    rewrite (animation_feature_ok r E). eauto. }
  exists fs. rewrite Hfs. split; [reflexivity|].
  apply mapM_results in Hfs.
  assert (Hrows : map (@feature_row) fs = sorted).
  { clear - Hfs. induction Hfs as [|r f l fs Hf _ IH]; simpl; [reflexivity|].
    rewrite IH. f_equal. unfold animation_feature in Hf.
    unfold Row, datetime64 in *.
    destruct (timestamp r); simpl in Hf; [|discriminate].
    injection Hf as <-. reflexivity. }
  assert (Htimes : map (@feature_time) fs
                   = map (fun r => match timestamp r with
                                   | Some ns => (ns / 1000000000)%Z
                                   | None => 0%Z
                                   end) sorted).
  { clear - Hfs. induction Hfs as [|r f l fs Hf _ IH]; simpl; [reflexivity|].
    rewrite IH. f_equal. unfold animation_feature in Hf.
    unfold Row, datetime64 in *.
    destruct (timestamp r); simpl in Hf; [|discriminate].
    injection Hf as <-. reflexivity. }
  rewrite Hrows, Htimes. repeat split; try assumption.
  - apply sorted_seconds; [exact Hall'|].
    apply (sorted_times (R := fun a b => row_leb a b = true));
      [exact row_leb_time | exact Hsorted].
  - clear - Hfs. induction Hfs as [|r f l fs Hf _ IH]; constructor; [|exact IH].
    unfold animation_feature in Hf.
    destruct (timestamp r); simpl in Hf; [|discriminate].
    injection Hf as <-. simpl. auto.
Qed.

Lemma animation_features_in_time_order_witness :
  let rows := [parsed_row (Some 2500000000%Z) "c0ffee" "DAL7" 40 (-104) 3000 3100;
               parsed_row (Some 1000000000%Z) "c0ffee" "DAL7" 40 (-104) 3000 3100;
               parsed_row (Some 1000000000%Z) "a0b1c2" "UAL12" 39.5 (-105) 9000 9100] in
  exists fs : list Feature,
    create_time_animation (Frame rows)
    = Ok (Some (mkAnimation fs (period_of (avg_interval (map (@timestamp _) rows))))) /\
    Permutation (map (@feature_row) fs) rows /\
    Sorted (fun a b => row_leb a b = true) (map (@feature_row) fs) /\
    StronglySorted Z.le (map (@feature_time) fs) /\
    Forall (fun f =>
              feature_coordinates f
              = (longitude (feature_row f), latitude (feature_row f)) /\
              feature_color f = altitude_color (altitude (feature_row f)))
           fs.
Proof.
  intros rows. apply (@animation_features_in_time_order rows).
  - discriminate.
  - repeat constructor; discriminate.
Defined.

(** ** The views of a loaded store *)

(** X3.  The static map and the heat map of a loaded store have one marker and
    one heat point for each CSV row that has both coordinates, at the same
    places and in the same order, and no place holds a NaN. *)
Theorem views_cover_loaded_store
    (argsort : list Z -> list nat) (rows : list CsvRow) (parsed : list Row) :
  argsort_spec argsort ->
  to_datetime rows = Ok parsed ->
  filter (@has_coordinates _) parsed <> [] ->
  let data := load_data argsort (Ok rows) in
  exists (markers : list Marker) (points : list (float * float)),
    create_static_map data = Ok (Some markers) /\
    create_heatmap data = Ok (Some points) /\
    List.length markers = List.length (filter (@has_coordinates _) parsed) /\
    map (@marker_location) markers = points /\
    Forall (fun p => isna (fst p) = false /\ isna (snd p) = false) points.
Proof.
  intros Hok Hparsed Hne data. unfold data.
  unfold load_data. simpl. rewrite Hparsed. simpl.
  set (store := sort_values_timestamp argsort (dropna_coordinates parsed)).
  assert (Hperm : Permutation store (filter (@has_coordinates _) parsed))
    by apply (sort_values_timestamp_perm Hok).
  assert (Hstore : store <> []).
  { intros E. rewrite E in Hperm. apply Permutation_nil in Hperm. auto. }
  unfold create_static_map, create_heatmap. rewrite (empty_frame Hstore).
  simpl. do 2 eexists. split; [reflexivity|]. split; [reflexivity|].
  split; [|split].
  - rewrite length_map. apply Permutation_length, Hperm.
  - rewrite map_map. reflexivity.
  - apply Forall_map, Forall_forall. intros r Hr. simpl.
    apply (Permutation_in _ Hperm), filter_In in Hr. destruct Hr as [_ Hc].
    unfold has_coordinates, notna in Hc. apply andb_true_iff in Hc.
    destruct Hc as [H1 H2]. apply negb_true_iff in H1, H2. auto.
Qed.

Lemma views_cover_loaded_store_witness :
  let rows := [csv_row (TimeText 2000) "a0b1c2" "UAL12" 39.5 (-105) 9000 9100;
               csv_row (TimeText 1000) "c0ffee" "DAL7" nan (-104) 3000 3100;
               csv_row TimeEmpty "c0ffee" "DAL7" 40 (-104) 3000 3100] in
  let parsed := [parsed_row (Some 2000%Z) "a0b1c2" "UAL12" 39.5 (-105) 9000 9100;
                 parsed_row (Some 1000%Z) "c0ffee" "DAL7" nan (-104) 3000 3100;
                 parsed_row None "c0ffee" "DAL7" 40 (-104) 3000 3100] in
  let data := load_data stable_argsort (Ok rows) in
  exists (markers : list Marker) (points : list (float * float)),
    create_static_map data = Ok (Some markers) /\
    create_heatmap data = Ok (Some points) /\
    List.length markers = List.length (filter (@has_coordinates _) parsed) /\
    map (@marker_location) markers = points /\
    Forall (fun p => isna (fst p) = false /\ isna (snd p) = false) points.
Proof.
  intros rows parsed.
  apply (@views_cover_loaded_store stable_argsort rows parsed).
  - apply insertion_argsort_spec.
  - reflexivity.
  - discriminate.
Defined.

End ViewFacts.

Module FlightPathFacts.

Import Py Pandas PandasFacts SortFacts AircraftMapAnalyzer AnalyzerFacts.

Local Open Scope string_scope.

(** ** Lists *)

Lemma boolean_index_map (A B : Type) (f : A -> B) (l : list A) (m : list bool) :
  map f (boolean_index l m) = boolean_index (map f l) m.
Proof.
  revert m. induction l as [|x l IH]; intros [|b m]; simpl; try reflexivity.
  destruct b; simpl; now rewrite IH.
Qed.

Lemma boolean_index_sorted (A : Type) (R : A -> A -> Prop) (l : list A) (m : list bool) :
  StronglySorted R l -> StronglySorted R (boolean_index l m).
Proof.
  intros H. revert m. induction H as [|x l Hs IH Hx]; intros [|b m]; simpl;
    try constructor.
  destruct b; [|apply IH]. constructor; [apply IH|].
  apply Forall_forall. intros y Hy. apply boolean_index_In in Hy.
  rewrite Forall_forall in Hx. apply Hx, Hy.
Qed.

Lemma boolean_index_length (A : Type) (l : list A) (m : list bool) :
  (List.length (boolean_index l m) <= List.length l)%nat.
Proof.
  revert m. induction l as [|x l IH]; intros [|b m]; simpl; try lia.
  specialize (IH m). destruct b; simpl; lia.
Qed.

Lemma first_ok (A : Type) (l : list A) (x : A) :
  first l = Ok x <-> exists rest, l = x :: rest.
Proof.
  destruct l as [|y l]; simpl; split.
  - discriminate.
  - intros [rest H]. discriminate.
  - intros H. injection H as <-. eauto.
  - intros [rest H]. injection H as <- _. reflexivity.
Qed.

Lemma last_ok (A : Type) (l : list A) (y : A) :
  last l = Ok y <-> exists front, l = (front ++ [y])%list.
Proof.
  unfold last. rewrite first_ok. split.
  - intros [rest H]. exists (rev rest).
    rewrite <- (rev_involutive l), H. reflexivity.
  - intros [front ->]. exists (rev front). rewrite rev_app_distr. reflexivity.
Qed.

(** A list with a first and a last element is the one element, or the
    first, the elements between, and the last. *)
Lemma ends_split (A : Type) (l : list A) (x y : A) :
  first l = Ok x -> last l = Ok y ->
  (l = [x] /\ y = x /\ between l = []) \/
  (l = (x :: between l ++ [y])%list).
Proof.
  intros Hf Hl. apply first_ok in Hf. apply last_ok in Hl.
  destruct Hf as [rest ->]. destruct Hl as [front Hl].
  destruct front as [|z front]; simpl in Hl.
  - injection Hl as H1 H2. subst. left. repeat split.
  - injection Hl as H1 H2. subst. right. unfold between. simpl tl.
    rewrite removelast_last. reflexivity.
Qed.

(** ** Tracks *)

Section Tracks.

Variable argsort : list Z -> list nat.
Hypothesis argsort_ok : argsort_spec argsort.

Lemma track_of_In (group : list Row) (r : Row) :
  In r (track_of argsort group) -> In r group.
Proof.
  unfold track_of, sort_values_timestamp. intros H.
  apply drop_duplicates_In, take_In in H. exact H.
Qed.

Lemma track_of_length (group : list Row) :
  (List.length (track_of argsort group) <= List.length group)%nat.
Proof.
  unfold track_of, drop_duplicates.
  rewrite <- (sort_values_timestamp_length argsort_ok group).
  apply boolean_index_length.
Qed.

Lemma track_of_sorted (group : list Row) :
  StronglySorted time_le (map (@timestamp _) (track_of argsort group)).
Proof.
  unfold track_of, drop_duplicates. rewrite boolean_index_map.
  apply boolean_index_sorted, sort_values_timestamp_sorted, argsort_ok.
Qed.

Lemma track_of_distinct (group : list Row) (i j : nat) (a b : Row) :
  i <> j ->
  nth_error (track_of argsort group) i = Some a ->
  nth_error (track_of argsort group) j = Some b ->
  same_position a b = false.
Proof.
  intros Hij Ha Hb. unfold track_of in *.
  destruct (same_position a b) eqn:E; [|reflexivity].
  apply same_position_key in E.
  pose proof (drop_duplicates_keys_NoDup (sort_values_timestamp argsort group)) as Hnd.
  rewrite NoDup_nth_error in Hnd. exfalso. apply Hij, Hnd.
  - rewrite length_map. apply nth_error_Some. congruence.
  - rewrite !nth_error_map, Ha, Hb. simpl. congruence.
Qed.

End Tracks.

(** ** What the loop returns *)

Section Loop.

Variable argsort : list Z -> list nat.
Variable min_points : nat.

Lemma flight_paths_loop_paths (groups : list (string * list Row)) :
  forall (color_idx : nat) (paths : list FlightPath),
    flight_paths_loop argsort min_points color_idx groups = Ok paths ->
    Forall (fun p =>
              exists group,
                In (path_aircraft p, group) groups /\
                path_coordinates p
                = map (fun row => (latitude row, longitude row))
                      (track_of argsort group) /\
                path_times p = map (@timestamp _) (track_of argsort group) /\
                first (track_of argsort group) = Ok (path_start p) /\
                last (track_of argsort group) = Ok (path_end p) /\
                path_intermediate p = between (track_of argsort group) /\
                (min_points <= List.length (track_of argsort group))%nat)
           paths.
Proof.
  induction groups as [|[id g] groups IH]; intros idx paths H.
  - injection H as <-. constructor.
  - assert (Hskip : forall i, flight_paths_loop argsort min_points i groups = Ok paths ->
        Forall (fun p =>
              exists group,
                In (path_aircraft p, group) ((id, g) :: groups) /\
                path_coordinates p
                = map (fun row => (latitude row, longitude row))
                      (track_of argsort group) /\
                path_times p = map (@timestamp _) (track_of argsort group) /\
                first (track_of argsort group) = Ok (path_start p) /\
                last (track_of argsort group) = Ok (path_end p) /\
                path_intermediate p = between (track_of argsort group) /\
                (min_points <= List.length (track_of argsort group))%nat)
           paths).
    { intros i Hi. apply IH in Hi. revert Hi. apply Forall_impl.
      intros p (group & Hin & Hp). exists group. split; [right; exact Hin|exact Hp]. }
    cbn [flight_paths_loop] in H. fold (track_of argsort g) in H.
    destruct (min_points <=? List.length (sort_values_timestamp argsort g))%nat;
      [|eapply Hskip, H].
    destruct (min_points <=? List.length (track_of argsort g))%nat eqn:E2;
      [|eapply Hskip, H].
    match type of H with
    | (if ?c then _ else _) = _ => destruct c; [|eapply Hskip, H]
    end.
    destruct (first (map (@timestamp _) (track_of argsort g))); [|discriminate].
    destruct (last (map (@timestamp _) (track_of argsort g))); [|discriminate].
    destruct (first (track_of argsort g)) as [s|] eqn:Es; [|discriminate].
    destruct (last (track_of argsort g)) as [e|] eqn:Ee; [|discriminate].
    cbn [bind] in H.
    destruct (flight_paths_loop argsort min_points (S idx) groups) as [rest|] eqn:Er;
      [|discriminate].
    cbn [bind] in H. injection H as <-.
    constructor.
    + exists g. simpl. repeat split; auto. apply Nat.leb_le, E2.
    + apply IH in Er. revert Er. apply Forall_impl.
      intros p (group & Hin & Hp). exists group. split; [right; exact Hin|exact Hp].
Qed.

End Loop.

(** ** The paths of a store *)

Lemma has_icao24_eq (k : string) (r : Row) :
  has_icao24 k r = true <-> icao24 r = OStr k.
Proof.
  unfold has_icao24. destruct (icao24 r) as [|s]; split; try discriminate.
  - intros H. apply String.eqb_eq in H. congruence.
  - intros H. injection H as ->. apply String.eqb_refl.
Qed.

Section Paths.

Variable argsort : list Z -> list nat.
Hypothesis argsort_ok : argsort_spec argsort.
Variable rows : list Row.
Hypothesis rows_ok : rows <> [].
Variable min_points : nat.

(** The paths of a store with records: the loop returns, and each path is
    drawn over the track of the store's records of its aircraft. *)
Lemma create_flight_paths_paths :
  exists paths : list FlightPath,
    create_flight_paths argsort (Frame rows) min_points = Ok (Some paths) /\
    map (fun p => (path_aircraft p, path_color p)) paths
    = color_assignment colors min_points 0 (groupby_icao24 rows) /\
    forall path : FlightPath,
      In path paths ->
      let track := track_of argsort (filter (has_icao24 (path_aircraft path)) rows) in
      path_coordinates path = map (fun row => (latitude row, longitude row)) track /\
      path_times path = map (@timestamp _) track /\
      first track = Ok (path_start path) /\
      last track = Ok (path_end path) /\
      path_intermediate path = between track /\
      (min_points <= List.length track)%nat.
Proof.
  destruct (create_flight_paths_spec min_points argsort_ok rows_ok)
    as (paths & Hrun & Hcolors & _).
  exists paths. split; [exact Hrun|]. split; [exact Hcolors|].
  unfold create_flight_paths in Hrun. rewrite (empty_frame rows_ok) in Hrun.
  unfold column in Hrun. cbn [bind rows_of] in Hrun.
  destruct (flight_paths_loop argsort min_points 0 (groupby_icao24 rows))
    as [paths'|] eqn:Hloop; [|discriminate].
  cbn [bind] in Hrun. injection Hrun as ->.
  apply flight_paths_loop_paths in Hloop.
  intros path Hin. rewrite Forall_forall in Hloop.
  destruct (Hloop path Hin) as (group & Hg & H).
  pose proof (groupby_icao24_groups rows) as Hgroups.
  rewrite Forall_forall in Hgroups. destruct (Hgroups _ Hg) as [Heq _].
  simpl in Heq. rewrite <- Heq. exact H.
Qed.

End Paths.

(** X4.  No two points of a polyline are at the same place, and a polyline has
    at least [min_points] points, each with its time. *)
Theorem path_points_distinct
    (argsort : list Z -> list nat) (rows : list Row) (min_points : nat) :
  argsort_spec argsort ->
  rows <> [] ->
  exists paths : list FlightPath,
    create_flight_paths argsort (Frame rows) min_points = Ok (Some paths) /\
    forall path : FlightPath,
      In path paths ->
      (min_points <= List.length (path_coordinates path))%nat /\
      List.length (path_times path) = List.length (path_coordinates path) /\
      forall (i j : nat) (c1 c2 : float * float),
        i <> j ->
        nth_error (path_coordinates path) i = Some c1 ->
        nth_error (path_coordinates path) j = Some c2 ->
        same_value (fst c1) (fst c2) && same_value (snd c1) (snd c2) = false.
Proof.
  intros Hok Hne.
  destruct (create_flight_paths_paths Hok Hne min_points) as (paths & Hrun & _ & Hp).
  exists paths. split; [exact Hrun|]. intros path Hin.
  destruct (Hp path Hin) as (Hc & Ht & _ & _ & _ & Hmin).
  rewrite Hc, Ht, !length_map. repeat split; [exact Hmin|].
  intros i j c1 c2 Hij H1 H2. rewrite nth_error_map in H1, H2.
  destruct (nth_error _ i) as [a|] eqn:Ea; [|discriminate].
  destruct (nth_error _ j) as [b|] eqn:Eb; [|discriminate].
  simpl in H1, H2. injection H1 as <-. injection H2 as <-. simpl.
  eapply track_of_distinct; eassumption.
Qed.

Lemma path_points_distinct_witness :
  let rows := [parsed_row (Some 0%Z) "a0b1c2" "UAL12" 39.5 (-105) 9000 9100;
               parsed_row (Some 1000%Z) "a0b1c2" "UAL12" 40 (-104) 9000 9100;
               parsed_row (Some 2000%Z) "a0b1c2" "UAL12" 39.5 (-105) 9000 9100] in
  exists paths : list FlightPath,
    create_flight_paths stable_argsort (Frame rows) 2 = Ok (Some paths) /\
    forall path : FlightPath,
      In path paths ->
      (2 <= List.length (path_coordinates path))%nat /\
      List.length (path_times path) = List.length (path_coordinates path) /\
      forall (i j : nat) (c1 c2 : float * float),
        i <> j ->
        nth_error (path_coordinates path) i = Some c1 ->
        nth_error (path_coordinates path) j = Some c2 ->
        same_value (fst c1) (fst c2) && same_value (snd c1) (snd c2) = false.
Proof.
  intros rows. apply (@path_points_distinct stable_argsort rows 2).
  - apply insertion_argsort_spec.
  - discriminate.
Defined.

Lemma time_le_refl (a : datetime64) : time_le a a.
Proof. destruct a; simpl; [lia | exact I]. Qed.

(** X5.  The times along a polyline never go back (points without a time come
    last), and the end marker is not earlier than the start marker. *)
Theorem path_in_time_order
    (argsort : list Z -> list nat) (rows : list Row) (min_points : nat) :
  argsort_spec argsort ->
  rows <> [] ->
  exists paths : list FlightPath,
    create_flight_paths argsort (Frame rows) min_points = Ok (Some paths) /\
    forall path : FlightPath,
      In path paths ->
      StronglySorted time_le (path_times path) /\
      time_le (timestamp (path_start path)) (timestamp (path_end path)).
Proof.
  intros Hok Hne.
  destruct (create_flight_paths_paths Hok Hne min_points) as (paths & Hrun & _ & Hp).
  exists paths. split; [exact Hrun|]. intros path Hin.
  destruct (Hp path Hin) as (_ & Ht & Hs & He & _ & _).
  pose proof (track_of_sorted Hok
                (filter (has_icao24 (path_aircraft path)) rows)) as Hsorted.
  rewrite Ht. split; [exact Hsorted|].
  destruct (ends_split _ Hs He) as [(_ & -> & _)|Hsplit];
    [apply time_le_refl|].
  rewrite Hsplit in Hsorted. simpl in Hsorted.
  inversion Hsorted as [|? ? _ Hall]; subst.
  rewrite Forall_forall in Hall. apply Hall.
  rewrite map_app. apply in_or_app. right. simpl. auto.
Qed.

Lemma path_in_time_order_witness :
  let rows := [parsed_row (Some 2000%Z) "a0b1c2" "UAL12" 39.5 (-105) 9000 9100;
               parsed_row None "a0b1c2" "UAL12" 40 (-104) 9000 9100;
               parsed_row (Some 1000%Z) "a0b1c2" "UAL12" 39 (-105) 9000 9100] in
  exists paths : list FlightPath,
    create_flight_paths reversing_argsort (Frame rows) 2 = Ok (Some paths) /\
    forall path : FlightPath,
      In path paths ->
      StronglySorted time_le (path_times path) /\
      time_le (timestamp (path_start path)) (timestamp (path_end path)).
Proof.
  intros rows. apply (@path_in_time_order reversing_argsort rows 2).
  - apply insertion_argsort_spec.
  - discriminate.
Defined.

Lemma between_In (A : Type) (l : list A) (x : A) : In x (between l) -> In x l.
Proof.
  unfold between. destruct l as [|h t]; simpl; [tauto|].
  intros H. right. revert H. clear.
  induction t as [|a t IH]; simpl; [tauto|].
  destruct t as [|b t]; [simpl; tauto|].
  intros [H|H]; [auto | right; apply IH, H].
Qed.

(** X6.  A path starts at the first record of its track and ends at the last;
    the circle markers are the records strictly between, two fewer than
    the points of the polyline (a path of one point, which [min_points]
    below 2 allows, starts and ends at that point).  Every marker is a
    record of the store and of the path's aircraft, and the polyline has no
    more points than the aircraft has records. *)
Theorem path_markers
    (argsort : list Z -> list nat) (rows : list Row) (min_points : nat) :
  argsort_spec argsort ->
  rows <> [] ->
  exists paths : list FlightPath,
    create_flight_paths argsort (Frame rows) min_points = Ok (Some paths) /\
    forall path : FlightPath,
      In path paths ->
      let place := fun row : Row => (latitude row, longitude row) in
      ((path_coordinates path = [place (path_start path)] /\
        path_end path = path_start path /\
        path_intermediate path = [])
       \/
       (path_coordinates path
        = (place (path_start path)
           :: map place (path_intermediate path) ++ [place (path_end path)])%list /\
        List.length (path_intermediate path)
        = (List.length (path_coordinates path) - 2)%nat)) /\
      Forall (fun r => In r rows /\ icao24 r = OStr (path_aircraft path))
             (path_start path :: path_intermediate path ++ [path_end path])%list /\
      (List.length (path_coordinates path)
       <= List.length (filter (has_icao24 (path_aircraft path)) rows))%nat.
Proof.
  intros Hok Hne.
  destruct (create_flight_paths_paths Hok Hne min_points) as (paths & Hrun & _ & Hp).
  exists paths. split; [exact Hrun|]. intros path Hin place.
  destruct (Hp path Hin) as (Hc & _ & Hs & He & Hi & _).
  set (group := filter (has_icao24 (path_aircraft path)) rows) in *.
  set (track := track_of argsort group) in *.
  assert (Hmember : forall r, In r track ->
                      In r rows /\ icao24 r = OStr (path_aircraft path)).
  { intros r Hr. apply track_of_In, filter_In in Hr.
    destruct Hr as [Hr Hk]. split; [exact Hr | apply has_icao24_eq, Hk]. }
  split; [|split].
  - destruct (ends_split _ Hs He) as [(Hone & Hend & Hbetween)|Hsplit].
    + left. rewrite Hc, Hi, Hbetween, Hone. auto.
    + right. rewrite Hc, Hi. split.
      * rewrite Hsplit at 1. simpl. rewrite map_app. reflexivity.
      * rewrite length_map. rewrite Hsplit at 2. simpl.
        rewrite length_app. simpl. lia.
  - apply Forall_forall. intros r [<-|Hr].
    + apply Hmember. apply first_ok in Hs. destruct Hs as [rest ->]. left. reflexivity.
    + apply in_app_or in Hr. destruct Hr as [Hr|[<-|[]]].
      * apply Hmember. rewrite Hi in Hr. apply between_In, Hr.
      * apply Hmember. apply last_ok in He. destruct He as [front ->].
        apply in_or_app. right. left. reflexivity.
  - rewrite Hc, length_map. apply track_of_length, Hok.
Qed.

Lemma path_markers_witness :
  let rows := [parsed_row (Some 0%Z) "a0b1c2" "UAL12" 39.5 (-105) 9000 9100;
               parsed_row (Some 1000%Z) "a0b1c2" "UAL12" 40 (-104) 9000 9100;
               parsed_row (Some 2000%Z) "a0b1c2" "UAL12" 40.5 (-103) 9000 9100;
               parsed_row (Some 2000%Z) "c0ffee" "DAL7" 41 (-103) 9000 9100] in
  exists paths : list FlightPath,
    create_flight_paths stable_argsort (Frame rows) 1 = Ok (Some paths) /\
    forall path : FlightPath,
      In path paths ->
      let place := fun row : Row => (latitude row, longitude row) in
      ((path_coordinates path = [place (path_start path)] /\
        path_end path = path_start path /\
        path_intermediate path = [])
       \/
       (path_coordinates path
        = (place (path_start path)
           :: map place (path_intermediate path) ++ [place (path_end path)])%list /\
        List.length (path_intermediate path)
        = (List.length (path_coordinates path) - 2)%nat)) /\
      Forall (fun r => In r rows /\ icao24 r = OStr (path_aircraft path))
             (path_start path :: path_intermediate path ++ [path_end path])%list /\
      (List.length (path_coordinates path)
       <= List.length (filter (has_icao24 (path_aircraft path)) rows))%nat.
Proof.
  intros rows. apply (@path_markers stable_argsort rows 1).
  - apply insertion_argsort_spec.
  - discriminate.
Defined.

(** ** Which aircraft get a path *)

Lemma color_assignment_In (palette : list string) (min_points : nat)
    (groups : list (string * list Row)) (color_idx : nat) (k : string) :
  In k (map fst (color_assignment palette min_points color_idx groups))
  <-> exists g, In (k, g) groups /\ drawn min_points g = true.
Proof.
  revert color_idx. induction groups as [|[id g] groups IH]; intros idx; simpl.
  - split; [tauto | intros (g & [] & _)].
  - destruct (drawn min_points g) eqn:E; simpl; rewrite IH; split.
    + intros [<-|(g' & Hin & Hd)]; [exists g; auto | exists g'; auto].
    + intros (g' & [Heq|Hin] & Hd); [injection Heq as <- <-; auto | right; eauto].
    + intros (g' & Hin & Hd). exists g'. auto.
    + intros (g' & [Heq|Hin] & Hd); [injection Heq as <- <-; congruence | eauto].
Qed.

Lemma color_assignment_length (palette : list string) (min_points : nat)
    (groups : list (string * list Row)) (color_idx : nat) :
  (List.length (color_assignment palette min_points color_idx groups)
   <= List.length groups)%nat.
Proof.
  revert color_idx. induction groups as [|[id g] groups IH]; intros idx; simpl;
    [lia|].
  destruct (drawn min_points g); simpl.
  - specialize (IH (S idx)). lia.
  - specialize (IH idx). lia.
Qed.

Lemma groupby_icao24_In (rows : list Row) (k : string) (g : list Row) :
  In (k, g) (groupby_icao24 rows)
  <-> g = filter (has_icao24 k) rows /\ g <> [].
Proof.
  split.
  - intros H. pose proof (groupby_icao24_groups rows) as Hg.
    rewrite Forall_forall in Hg. apply (Hg _ H).
  - intros [-> Hne]. unfold groupby_icao24. apply in_map_iff.
    exists k. split; [reflexivity|].
    apply sorted_unique_In, dropna_obj_In, in_map_iff.
    destruct (filter (has_icao24 k) rows) as [|r t] eqn:E; [congruence|].
    assert (Hr : In r (filter (has_icao24 k) rows)) by (rewrite E; left; reflexivity).
    apply filter_In in Hr. destruct Hr as [Hr Hk].
    exists r. split; [apply has_icao24_eq, Hk | exact Hr].
Qed.

Lemma sorted_NoDup (l : list string) : StronglySorted key_lt l -> NoDup l.
Proof.
  induction 1 as [|x l Hs IH Hx]; constructor; [|exact IH].
  intros Hin. rewrite Forall_forall in Hx.
  apply (key_lt_irrefl (Hx x Hin)).
Qed.

Lemma unique_NoDup (l : list string) : NoDup (unique l).
Proof.
  induction l as [|x l IH]; simpl; constructor.
  - rewrite filter_In. intros [_ H]. rewrite String.eqb_refl in H. discriminate.
  - apply NoDup_filter, IH.
Qed.

Lemma sorted_unique_length (l : list string) :
  List.length (sorted_unique l) = List.length (unique l).
Proof.
  apply Permutation_length, NoDup_Permutation.
  - apply sorted_NoDup, sorted_unique_sorted.
  - apply unique_NoDup.
  - intros x. rewrite sorted_unique_In, unique_In. reflexivity.
Qed.

Lemma create_flight_paths_drawn
    (argsort : list Z -> list nat) (rows : list Row) (min_points : nat) :
  argsort_spec argsort ->
  rows <> [] ->
  exists paths : list FlightPath,
    create_flight_paths argsort (Frame rows) min_points = Ok (Some paths) /\
    NoDup (map (@path_aircraft) paths) /\
    (List.length paths <= nunique (map (@icao24 _) rows))%nat /\
    forall id : string,
      In id (map (@path_aircraft) paths)
      <-> filter (has_icao24 id) rows <> [] /\
          drawn min_points (filter (has_icao24 id) rows) = true.
Proof.
  intros Hok Hne.
  destruct (create_flight_paths_paths Hok Hne min_points) as (paths & Hrun & Hc & _).
  exists paths. split; [exact Hrun|].
  assert (Hids : map (@path_aircraft) paths
                 = map fst (color_assignment colors min_points 0 (groupby_icao24 rows))).
  { rewrite <- Hc, map_map. reflexivity. }
  split; [|split].
  - rewrite Hids. apply sorted_NoDup, color_assignment_sorted, groupby_icao24_keys.
  - rewrite <- (length_map (@path_aircraft) paths), Hids, length_map.
    etransitivity; [apply color_assignment_length|].
    unfold groupby_icao24, nunique. rewrite length_map, sorted_unique_length. lia.
  - intros id. rewrite Hids, color_assignment_In. split.
    + intros (g & Hg & Hd). apply groupby_icao24_In in Hg.
      destruct Hg as [-> Hg]. auto.
    + intros [Hg Hd]. exists (filter (has_icao24 id) rows).
      split; [apply groupby_icao24_In; auto | exact Hd].
Qed.

(** X7.  An aircraft gets a path exactly when the store has at least
    [min_points] records of it at [min_points] different places; no
    aircraft gets two paths, so there are at most as many paths as
    aircraft. *)
Theorem drawn_aircraft
    (argsort : list Z -> list nat) (rows : list Row) (min_points : nat) :
  argsort_spec argsort ->
  rows <> [] ->
  exists paths : list FlightPath,
    create_flight_paths argsort (Frame rows) min_points = Ok (Some paths) /\
    NoDup (map (@path_aircraft) paths) /\
    (List.length paths <= nunique (map (@icao24 _) rows))%nat /\
    forall id : string,
      In id (map (@path_aircraft) paths)
      <-> let group := filter (has_icao24 id) rows in
          group <> [] /\
          (min_points <= List.length group)%nat /\
          (min_points <= List.length (drop_duplicates group))%nat.
Proof.
  intros Hok Hne.
  destruct (create_flight_paths_drawn min_points Hok Hne)
    as (paths & Hrun & Hnd & Hlen & Hiff).
  exists paths. repeat split; try assumption.
  - apply Hiff in H. tauto.
  - apply Hiff in H. destruct H as [_ H]. unfold drawn in H.
    apply andb_true_iff in H. apply Nat.leb_le, H.
  - apply Hiff in H. destruct H as [_ H]. unfold drawn in H.
    apply andb_true_iff in H. apply Nat.leb_le, H.
  - intros (Hg & H1 & H2). apply Hiff. split; [exact Hg|].
    unfold drawn. apply andb_true_iff. split; apply Nat.leb_le; assumption.
Qed.

Lemma drawn_aircraft_witness :
  let rows := [parsed_row (Some 0%Z) "a0b1c2" "UAL12" 39.5 (-105) 9000 9100;
               parsed_row (Some 1000%Z) "a0b1c2" "UAL12" 39.5 (-105) 9000 9100;
               parsed_row (Some 0%Z) "c0ffee" "DAL7" 41 (-103) 9000 9100;
               parsed_row (Some 1000%Z) "c0ffee" "DAL7" 41.5 (-103) 9000 9100] in
  exists paths : list FlightPath,
    create_flight_paths stable_argsort (Frame rows) 2 = Ok (Some paths) /\
    NoDup (map (@path_aircraft) paths) /\
    (List.length paths <= nunique (map (@icao24 _) rows))%nat /\
    forall id : string,
      In id (map (@path_aircraft) paths)
      <-> let group := filter (has_icao24 id) rows in
          group <> [] /\
          (2 <= List.length group)%nat /\
          (2 <= List.length (drop_duplicates group))%nat.
Proof.
  intros rows. apply (@drawn_aircraft stable_argsort rows 2).
  - apply insertion_argsort_spec.
  - discriminate.
Defined.

(** X8.  Asking for more points per path never adds a path: the aircraft drawn
    with the larger [min_points] are among those drawn with the smaller. *)
Theorem fewer_paths_with_more_points
    (argsort : list Z -> list nat) (rows : list Row) (fewer more : nat) :
  argsort_spec argsort ->
  rows <> [] ->
  (fewer <= more)%nat ->
  exists paths paths' : list FlightPath,
    create_flight_paths argsort (Frame rows) fewer = Ok (Some paths) /\
    create_flight_paths argsort (Frame rows) more = Ok (Some paths') /\
    incl (map (@path_aircraft) paths') (map (@path_aircraft) paths) /\
    (List.length paths' <= List.length paths)%nat.
Proof.
  intros Hok Hne Hle.
  destruct (create_flight_paths_drawn fewer Hok Hne) as (paths & Hrun & Hnd & _ & Hiff).
  destruct (create_flight_paths_drawn more Hok Hne) as (paths' & Hrun' & Hnd' & _ & Hiff').
  exists paths, paths'. split; [exact Hrun|]. split; [exact Hrun'|].
  assert (Hincl : incl (map (@path_aircraft) paths') (map (@path_aircraft) paths)).
  { intros id Hid. apply Hiff' in Hid. destruct Hid as [Hg Hd]. apply Hiff.
    split; [exact Hg|]. unfold drawn in *. apply andb_true_iff in Hd.
    destruct Hd as [H1 H2]. apply Nat.leb_le in H1, H2.
    apply andb_true_iff. split; apply Nat.leb_le; lia. }
  split; [exact Hincl|].
  rewrite <- (length_map (@path_aircraft) paths'), <- (length_map (@path_aircraft) paths).
  apply NoDup_incl_length; assumption.
Qed.

Lemma fewer_paths_with_more_points_witness :
  let rows := [parsed_row (Some 0%Z) "a0b1c2" "UAL12" 39.5 (-105) 9000 9100;
               parsed_row (Some 1000%Z) "a0b1c2" "UAL12" 40 (-105) 9000 9100;
               parsed_row (Some 0%Z) "c0ffee" "DAL7" 41 (-103) 9000 9100] in
  exists paths paths' : list FlightPath,
    create_flight_paths stable_argsort (Frame rows) 1 = Ok (Some paths) /\
    create_flight_paths stable_argsort (Frame rows) 2 = Ok (Some paths') /\
    incl (map (@path_aircraft) paths') (map (@path_aircraft) paths) /\
    (List.length paths' <= List.length paths)%nat.
Proof.
  intros rows. apply (@fewer_paths_with_more_points stable_argsort rows 1 2).
  - apply insertion_argsort_spec.
  - discriminate.
  - lia.
Defined.

End FlightPathFacts.

Module StatisticsFacts.

Import Py Pandas PandasFacts SortFacts AircraftMapAnalyzer AnalyzerFacts.
Import FlightPathFacts.

Local Open Scope string_scope.

(** ** Counting *)

Lemma notna_isna_length (l : list float) :
  (List.length (dropna_float l) + isna_sum l)%nat = List.length l.
Proof.
  unfold dropna_float, isna_sum, notna.
  induction l as [|x l IH]; simpl; [reflexivity|].
  destruct (isna x); simpl; lia.
Qed.

Lemma dropna_obj_length (l : list object) :
  (List.length (dropna_obj l) + isna_sum_obj l)%nat = List.length l.
Proof.
  unfold isna_sum_obj. induction l as [|[|s] l IH]; simpl; lia.
Qed.

(** The records with an altitude after [fillna] are those that have one of
    the two fields. *)
Lemma fillna_altitudes (rows : list Row) :
  (List.length (dropna_float (fillna (map (@baro_altitude _) rows)
                                     (map (@geo_altitude _) rows)))
   + List.length (filter (fun r => isna (baro_altitude r) && isna (geo_altitude r)) rows))%nat
  = List.length rows.
Proof.
  unfold dropna_float, notna.
  induction rows as [|r rows IH]; simpl; [reflexivity|].
  destruct (isna (baro_altitude r)) eqn:Eb; simpl.
  - destruct (isna (geo_altitude r)); simpl; lia.
  - rewrite Eb. simpl. lia.
Qed.

Lemma list_sum_indicator (x : string) (u : list string) :
  NoDup u -> In x u ->
  list_sum (map (fun s => if String.eqb s x then 1 else 0)%nat u) = 1%nat.
Proof.
  induction 1 as [|y u Hy Hnd IH]; simpl; [contradiction|].
  intros [->|Hin].
  - rewrite String.eqb_refl. f_equal.
    clear IH Hnd. induction u as [|z u IHu]; simpl; [reflexivity|].
    destruct (String.eqb_spec z x) as [->|Hne].
    + exfalso. apply Hy. left. reflexivity.
    + apply IHu. intros H. apply Hy. right. exact H.
  - destruct (String.eqb_spec y x) as [->|Hne]; [contradiction|].
    simpl. apply IH, Hin.
Qed.

Lemma list_sum_counts (l u : list string) :
  NoDup u -> (forall x, In x l -> In x u) ->
  list_sum (map (fun s => count s l) u) = List.length l.
Proof.
  intros Hnd. induction l as [|x l IH]; intros Hin.
  - unfold count. simpl. clear. induction u; simpl; [reflexivity | exact IHu].
  - assert (Hsplit : list_sum (map (fun s => count s (x :: l)) u)
                     = (list_sum (map (fun s => if String.eqb s x then 1 else 0)%nat u)
                        + list_sum (map (fun s => count s l) u))%nat).
    { clear. induction u as [|s u IHu]; simpl; [reflexivity|].
      rewrite IHu. unfold count. simpl. destruct (String.eqb s x); simpl; lia. }
    rewrite Hsplit, IH by (intros y Hy; apply Hin; right; exact Hy).
    rewrite (@list_sum_indicator x u Hnd (Hin x (or_introl eq_refl))).
    reflexivity.
Qed.

(** Every record with a value is counted once. *)
Lemma value_counts_total (l : list string) :
  list_sum (map snd (value_counts_unsorted l)) = List.length l.
Proof.
  unfold value_counts_unsorted. rewrite map_map. simpl.
  apply list_sum_counts; [apply unique_NoDup|].
  intros x. apply unique_In.
Qed.

Lemma value_counts_bounds (l : list string) :
  Forall (fun p => (1 <= snd p <= List.length l)%nat) (value_counts_unsorted l).
Proof.
  apply Forall_forall. intros [s n] H. apply value_counts_unsorted_In in H.
  destruct H as [Hin ->]. simpl. split; [apply count_positive, Hin|].
  unfold count. apply filter_length_le.
Qed.

Lemma filter_nested (A : Type) (f g : A -> bool) (l : list A) :
  (forall x, f x = true -> g x = true) ->
  (List.length (filter f l) <= List.length (filter g l))%nat.
Proof.
  intros H. induction l as [|x l IH]; simpl; [lia|].
  destruct (f x) eqn:Ef.
  - rewrite (H x Ef). simpl. lia.
  - destruct (g x); simpl; lia.
Qed.

Lemma fold_max_bounds (l : list nat) (x bound : nat) :
  (x <= bound)%nat -> Forall (fun y => (y <= bound)%nat) l ->
  (x <= fold_left Nat.max l x <= bound)%nat.
Proof.
  revert x. induction l as [|y l IH]; intros x Hx Hl; simpl; [lia|].
  inversion Hl as [|? ? Hy Hl']; subst.
  assert (Hm : (Nat.max x y <= bound)%nat) by lia.
  specialize (IH (Nat.max x y) Hm Hl'). lia.
Qed.

(** ** The report *)

(** On a store with records [generate_statistics] raises nothing; the
    fields of its report. *)
Lemma generate_statistics_fields (argsort : list Z -> list nat) (rows : list Row) :
  rows <> [] ->
  let total := List.length rows in
  let icao := map (@icao24 _) rows in
  let timestamps := map (@timestamp _) rows in
  let counts := value_counts_unsorted (dropna_obj icao) in
  let altitudes :=
    dropna_float (fillna (map (@baro_altitude _) rows) (map (@geo_altitude _) rows)) in
  let speeds := dropna_float (map (@velocity _) rows) in
  let percentage := fun n : nat =>
    Qmult (Qmake (Z.of_nat n) (Pos.of_nat total)) (100 # 1) in
  exists report : Report,
    generate_statistics argsort (Frame rows) = Ok (Some report) /\
    total_records report = total /\
    unique_aircraft report = nunique icao /\
    time_span report
    = match time_max timestamps, time_min timestamps with
      | Some hi, Some lo => Some (hi - lo)%Z
      | _, _ => None
      end /\
    median_interval report = median (time_diff timestamps) /\
    aircraft_over_1 report = List.length (filter (fun p => (1 <? snd p)%nat) counts) /\
    aircraft_over_5 report = List.length (filter (fun p => (5 <? snd p)%nat) counts) /\
    aircraft_over_10 report = List.length (filter (fun p => (10 <? snd p)%nat) counts) /\
    max_points report
    = match counts with
      | [] => None
      | p :: t => Some (fold_left Nat.max (map snd t) (snd p))
      end /\
    records_with_altitude report
    = match altitudes with
      | [] => None
      | _ :: _ => Some (mkRatio (List.length altitudes) total
                                (percentage (List.length altitudes)))
      end /\
    records_with_speed report
    = match speeds with
      | [] => None
      | _ :: _ => Some (mkRatio (List.length speeds) total
                                (percentage (List.length speeds)))
      end /\
    missing_callsigns report
    = mkRatio (isna_sum_obj (map (@callsign _) rows)) total
              (percentage (isna_sum_obj (map (@callsign _) rows))) /\
    missing_speed report
    = mkRatio (isna_sum (map (@velocity _) rows)) total
              (percentage (isna_sum (map (@velocity _) rows))).
Proof.
  intros Hne. cbv zeta.
  assert (Hlen : List.length rows <> 0%nat) by (destruct rows; simpl; congruence).
  unfold generate_statistics. rewrite (empty_frame Hne).
  unfold column, len. cbn [bind rows_of].
  rewrite !(ratio_ok _ Hlen).
  unfold Row, datetime64 in *.
  destruct (dropna_float (fillna _ _)); destruct (dropna_float (map _ rows));
    cbn [bind]; rewrite ?(ratio_ok _ Hlen); cbn [bind];
    eexists; (split; [reflexivity|]); cbn; repeat split; reflexivity.
Qed.

(** ** Aircraft counts *)

Lemma fold_max_ge (l : list nat) (x : nat) :
  Forall (fun y => (y <= fold_left Nat.max l x)%nat) (x :: l).
Proof.
  revert x. induction l as [|y l IH]; intros x; simpl.
  - repeat constructor.
  - specialize (IH (Nat.max x y)). inversion IH as [|? ? Hm Hl]; subst.
    constructor; [lia|]. constructor; [lia | exact Hl].
Qed.

Lemma unique_length (l : list string) :
  (List.length (unique l) <= List.length l)%nat.
Proof.
  apply NoDup_incl_length; [apply unique_NoDup|].
  intros x. apply unique_In.
Qed.

(** X10.  The aircraft with more than 10 records are among those with more than
    5, these among those with more than 1, these among all aircraft, and
    there are no more aircraft than records.  The largest number of
    records of one aircraft is at least 1 and at most the number of
    records, and it exceeds 1 exactly when some aircraft has more than one
    record; it is missing only when no record names an aircraft. *)
Theorem aircraft_counts_nested (argsort : list Z -> list nat) (rows : list Row) :
  rows <> [] ->
  exists report : Report,
    generate_statistics argsort (Frame rows) = Ok (Some report) /\
    (aircraft_over_10 report <= aircraft_over_5 report)%nat /\
    (aircraft_over_5 report <= aircraft_over_1 report)%nat /\
    (aircraft_over_1 report <= unique_aircraft report)%nat /\
    (unique_aircraft report <= total_records report)%nat /\
    match max_points report with
    | Some m =>
        (1 <= m <= total_records report)%nat /\
        (aircraft_over_1 report = 0%nat <-> m = 1%nat)
    | None => unique_aircraft report = 0%nat
    end.
Proof.
  intros Hne.
  destruct (generate_statistics_fields argsort Hne)
    as (report & Hrun & Htotal & Hu & _ & _ & H1 & H5 & H10 & Hmax & _).
  exists report. split; [exact Hrun|].
  rewrite Htotal, Hu, H1, H5, H10, Hmax.
  set (values := dropna_obj (map (@icao24 _) rows)).
  assert (Hvalues : (List.length values <= List.length rows)%nat).
  { pose proof (dropna_obj_length (map (@icao24 _) rows)) as H.
    rewrite length_map in H. unfold values. unfold Row, datetime64 in *. lia. }
  pose proof (value_counts_bounds values) as Hb.
  repeat split.
  - apply filter_nested. intros p Hp. apply Nat.ltb_lt in Hp. apply Nat.ltb_lt. lia.
  - apply filter_nested. intros p Hp. apply Nat.ltb_lt in Hp. apply Nat.ltb_lt. lia.
  - unfold nunique. fold values.
    etransitivity; [apply filter_length_le|].
    unfold value_counts_unsorted. rewrite length_map. lia.
  - unfold nunique. fold values. pose proof (unique_length values). lia.
  - destruct (value_counts_unsorted values) as [|p t] eqn:E.
    + unfold nunique. fold values.
      unfold value_counts_unsorted in E. apply map_eq_nil in E. now rewrite E.
    + inversion Hb as [|? ? Hp Ht]; subst.
      assert (Hge := fold_max_ge (map snd t) (snd p)).
      assert (Hle : (snd p <= fold_left Nat.max (map snd t) (snd p)
                     <= List.length values)%nat).
      { apply fold_max_bounds; [lia|]. apply Forall_map.
        revert Ht. apply Forall_impl. intros q Hq. lia. }
      inversion Hge as [|? ? Hgp Hgt]; subst.
      split; [lia|]. split.
      * intros Hnone. apply length_zero_iff_nil in Hnone.
        assert (Hall : Forall (fun q => (snd q <= 1)%nat) (p :: t)).
        { apply Forall_forall. intros q Hq.
          destruct (1 <? snd q)%nat eqn:Eq; [|apply Nat.ltb_ge in Eq; lia].
          assert (Hin : In q (filter (fun p => (1 <? snd p)%nat) (p :: t)))
            by (apply filter_In; auto).
          rewrite Hnone in Hin. destruct Hin. }
        inversion Hall as [|? ? Hp1 Ht1]; subst.
        assert (Hm : (fold_left Nat.max (map snd t) (snd p) <= 1)%nat).
        { apply fold_max_bounds; [lia|]. apply Forall_map. exact Ht1. }
        lia.
      * intros Hm. apply length_zero_iff_nil.
        destruct (filter (fun p => (1 <? snd p)%nat) (p :: t)) as [|q l] eqn:Ef;
          [reflexivity|].
        assert (Hq : In q (filter (fun p => (1 <? snd p)%nat) (p :: t)))
          by (rewrite Ef; left; reflexivity).
        apply filter_In in Hq. destruct Hq as [Hq Hq1]. apply Nat.ltb_lt in Hq1.
        assert (Hqm : (snd q <= fold_left Nat.max (map snd t) (snd p))%nat).
        { destruct Hq as [<-|Hq]; [exact Hgp|].
          rewrite Forall_forall in Hgt. apply Hgt, in_map, Hq. }
        lia.
Qed.

Lemma aircraft_counts_nested_witness :
  let rows := [parsed_row (Some 0%Z) "a0b1c2" "UAL12" 39.5 (-105) 9000 9100;
               parsed_row (Some 1000%Z) "a0b1c2" "UAL12" 40 (-105) 9000 9100;
               parsed_row (Some 0%Z) "c0ffee" "DAL7" 41 (-103) 9000 9100] in
  exists report : Report,
    generate_statistics stable_argsort (Frame rows) = Ok (Some report) /\
    (aircraft_over_10 report <= aircraft_over_5 report)%nat /\
    (aircraft_over_5 report <= aircraft_over_1 report)%nat /\
    (aircraft_over_1 report <= unique_aircraft report)%nat /\
    (unique_aircraft report <= total_records report)%nat /\
    match max_points report with
    | Some m =>
        (1 <= m <= total_records report)%nat /\
        (aircraft_over_1 report = 0%nat <-> m = 1%nat)
    | None => unique_aircraft report = 0%nat
    end.
Proof.
  intros rows. apply (@aircraft_counts_nested stable_argsort rows). discriminate.
Defined.

(** ** The most tracked callsigns *)

Lemma take_rev (A : Type) (l : list A) (idx : list nat) :
  take l (rev idx) = rev (take l idx).
Proof.
  induction idx as [|i idx IH]; simpl; [reflexivity|].
  rewrite take_app, IH, rev_app_distr. simpl.
  destruct (nth_error l i); simpl; now rewrite ?app_nil_r.
Qed.

Lemma sorted_app (A : Type) (R : A -> A -> Prop) (l1 l2 : list A) :
  StronglySorted R l1 -> StronglySorted R l2 ->
  (forall a b, In a l1 -> In b l2 -> R a b) ->
  StronglySorted R (l1 ++ l2).
Proof.
  induction 1 as [|x l1 Hs IH Hx]; simpl; intros H2 Hab; [exact H2|].
  constructor.
  - apply IH; [exact H2|]. intros a b Ha Hb. apply Hab; [right; exact Ha | exact Hb].
  - apply Forall_app. split; [exact Hx|].
    apply Forall_forall. intros b Hb. apply Hab; [left; reflexivity | exact Hb].
Qed.

Lemma sorted_app_inv (A : Type) (R : A -> A -> Prop) (l1 l2 : list A) (a b : A) :
  StronglySorted R (l1 ++ l2) -> In a l1 -> In b l2 -> R a b.
Proof.
  induction l1 as [|x l1 IH]; simpl; intros Hs Ha Hb; [contradiction|].
  inversion Hs as [|? ? Hs' Hx]; subst. destruct Ha as [->|Ha].
  - rewrite Forall_forall in Hx. apply Hx, in_or_app. right. exact Hb.
  - apply IH; assumption.
Qed.

Lemma sorted_rev (A : Type) (R : A -> A -> Prop) (l : list A) :
  StronglySorted R l -> StronglySorted (fun a b => R b a) (rev l).
Proof.
  induction 1 as [|x l Hs IH Hx]; simpl; [constructor|].
  apply sorted_app; [exact IH | repeat constructor|].
  intros a b Ha [<-|[]]. apply in_rev in Ha.
  rewrite Forall_forall in Hx. apply Hx, Ha.
Qed.

Lemma sorted_firstn (A : Type) (R : A -> A -> Prop) (n : nat) (l : list A) :
  StronglySorted R l -> StronglySorted R (firstn n l).
Proof.
  intros H. rewrite <- (firstn_skipn n l) in H. revert H.
  generalize (firstn n l) (skipn n l). intros l1 l2.
  induction l1 as [|x l1 IH]; simpl; intros H; [constructor|].
  inversion H as [|? ? Hs Hx]; subst. constructor; [apply IH, Hs|].
  apply Forall_app in Hx. tauto.
Qed.

Lemma sorted_of_nat (l : list nat) :
  StronglySorted Z.le (map Z.of_nat l) -> StronglySorted le l.
Proof.
  induction l as [|x l IH]; simpl; intros H; [constructor|].
  inversion H as [|? ? Hs Hx]; subst. constructor; [apply IH, Hs|].
  rewrite Forall_map in Hx. revert Hx. apply Forall_impl. intros y Hy. lia.
Qed.

Section Descending.

Variable argsort : list Z -> list nat.
Hypothesis argsort_ok : argsort_spec argsort.
Variable A : Type.

Lemma sort_counts_descending_perm (l : list (A * nat)) :
  Permutation (sort_counts_descending argsort l) l.
Proof.
  unfold sort_counts_descending.
  rewrite (take_perm l (Permutation_sym (Permutation_rev _))).
  apply (argsort_take argsort_ok). now rewrite length_map.
Qed.

Lemma sort_counts_descending_sorted (l : list (A * nat)) :
  StronglySorted ge (map snd (sort_counts_descending argsort l)).
Proof.
  unfold sort_counts_descending. rewrite take_rev, map_rev.
  apply (sorted_rev (R := le)). rewrite take_map. apply sorted_of_nat.
  rewrite take_map, map_map.
  destruct (argsort_ok (map (fun p : A * nat => Z.of_nat (snd p)) l)) as [Hp Hs].
  rewrite (@take_nth _ _ (@perm_seq_bound _ _ Hp)). exact Hs.
Qed.

End Descending.

(** The loop over the top callsigns has a turn exactly when some record
    has a callsign. *)
Lemma top_callsigns_nil (argsort : list Z -> list nat) (values : list string) :
  argsort_spec argsort ->
  firstn 10 (sort_counts_descending argsort (value_counts_unsorted values)) = []
  <-> values = [].
Proof.
  intros Hok.
  pose proof (sort_counts_descending_perm Hok (value_counts_unsorted values)) as Hperm.
  split.
  - intros H.
    destruct (sort_counts_descending argsort (value_counts_unsorted values))
      as [|p t]; [|discriminate].
    apply Permutation_nil in Hperm. unfold value_counts_unsorted in Hperm.
    apply map_eq_nil in Hperm. destruct values; [reflexivity|discriminate].
  - intros ->. apply Permutation_sym, Permutation_nil in Hperm.
    now rewrite Hperm.
Qed.

Lemma generate_statistics_dtype_run
    (argsort : list Z -> list nat) (callsign_dtype : Dtype) (rows : list Row) :
  argsort_spec argsort ->
  rows <> [] ->
  generate_statistics_dtype argsort callsign_dtype (Frame rows)
  = match callsign_dtype, dropna_obj (map (@callsign _) rows) with
    | NumberDtype, _ :: _ => Raise AttributeError
    | _, _ => generate_statistics argsort (Frame rows)
    end.
Proof.
  intros Hok Hne. unfold generate_statistics_dtype.
  destruct callsign_dtype; [reflexivity|].
  rewrite (empty_frame Hne). simpl column. cbn [bind].
  pose proof (top_callsigns_nil (dropna_obj (map (@callsign _) rows)) Hok) as Hnil.
  unfold Row, datetime64 in *.
  destruct (dropna_obj (map (@callsign _) rows)) as [|c l].
  - rewrite (proj2 Hnil eq_refl). reflexivity.
  - destruct (firstn 10 _) as [|p t]; [|reflexivity].
    discriminate (proj1 Hnil eq_refl).
Qed.

(** X9.  Whether the statistics are printed to the end depends on the dtype
    of the callsign column.  On a store with records whose callsign column
    is a number column with a callsign, [generate_statistics] raises
    AttributeError (a number has no [strip]).  On every other store with
    records it returns, and the counts of the report add up: the records
    with a speed and those missing one make the total, the records with an
    altitude and those with both altitude fields absent make the total,
    and every ratio is taken over the number of records. *)
Theorem statistics_counts_add_up
    (argsort : list Z -> list nat) (callsign_dtype : Dtype) (rows : list Row) :
  argsort_spec argsort ->
  rows <> [] ->
  match callsign_dtype, dropna_obj (map (@callsign _) rows) with
  | NumberDtype, _ :: _ =>
      generate_statistics_dtype argsort callsign_dtype (Frame rows)
      = Raise AttributeError
  | _, _ =>
      exists report : Report,
        generate_statistics_dtype argsort callsign_dtype (Frame rows)
        = Ok (Some report) /\
        total_records report = List.length rows /\
        ratio_total (missing_callsigns report) = List.length rows /\
        ratio_total (missing_altitude report) = List.length rows /\
        ratio_total (missing_speed report) = List.length rows /\
        (ratio_count (missing_speed report)
         + match records_with_speed report with
           | Some r => ratio_count r
           | None => 0
           end)%nat = List.length rows /\
        (List.length (filter (fun r => isna (baro_altitude r) && isna (geo_altitude r)) rows)
         + match records_with_altitude report with
           | Some r => ratio_count r
           | None => 0
           end)%nat = List.length rows /\
        (ratio_count (missing_callsigns report) <= List.length rows)%nat /\
        (records_with_speed report = None
         <-> forall r, In r rows -> isna (velocity r) = true)
  end.
Proof.
  intros Hok Hne.
  assert (Hreport :
    exists report : Report,
      generate_statistics argsort (Frame rows) = Ok (Some report) /\
      total_records report = List.length rows /\
      ratio_total (missing_callsigns report) = List.length rows /\
      ratio_total (missing_altitude report) = List.length rows /\
      ratio_total (missing_speed report) = List.length rows /\
      (ratio_count (missing_speed report)
       + match records_with_speed report with
         | Some r => ratio_count r
         | None => 0
         end)%nat = List.length rows /\
      (List.length (filter (fun r => isna (baro_altitude r) && isna (geo_altitude r)) rows)
       + match records_with_altitude report with
         | Some r => ratio_count r
         | None => 0
         end)%nat = List.length rows /\
      (ratio_count (missing_callsigns report) <= List.length rows)%nat /\
      (records_with_speed report = None
       <-> forall r, In r rows -> isna (velocity r) = true)).
  {
    destruct (generate_statistics_fields argsort Hne)
      as (report & Hrun & Htotal & _ & _ & _ & _ & _ & _ & _ & Halt & Hspeed & Hcall & Hmiss).
    destruct (generate_statistics_report argsort Hne)
      as (report' & Hrun' & _ & _ & _ & Hmt & _).
    rewrite Hrun in Hrun'. injection Hrun' as <-.
    exists report. split; [exact Hrun|]. split; [exact Htotal|].
    rewrite Hcall, Hmiss, Hmt. cbn [ratio_total ratio_count].
    unfold Row, datetime64 in *.
    repeat split.
    - rewrite Hspeed.
      pose proof (notna_isna_length (map (@velocity _) rows)) as H.
      rewrite length_map in H. unfold Row, datetime64 in *.
      destruct (dropna_float (map (@velocity _) rows)); simpl in *; lia.
    - rewrite Halt. pose proof (fillna_altitudes rows) as H.
      unfold Row, datetime64 in *.
      destruct (dropna_float (fillna _ _)); simpl in *; lia.
    - pose proof (dropna_obj_length (map (@callsign _) rows)) as H.
      rewrite length_map in H. unfold Row, datetime64 in *. lia.
    - rewrite Hspeed. intros H r Hr.
      destruct (dropna_float (map (@velocity _) rows)) as [|x l] eqn:E; [|discriminate].
      destruct (isna (velocity r)) eqn:Er; [reflexivity|].
      assert (Hin : In (velocity r) (dropna_float (map (@velocity _) rows))).
      { apply filter_In. split; [apply in_map, Hr|]. unfold notna. now rewrite Er. }
      rewrite E in Hin. destruct Hin.
    - rewrite Hspeed. intros H.
      destruct (dropna_float (map (@velocity _) rows)) as [|x l] eqn:E; [reflexivity|].
      assert (Hin : In x (dropna_float (map (@velocity _) rows)))
        by (rewrite E; left; reflexivity).
      apply filter_In in Hin. destruct Hin as [Hin Hx].
      apply in_map_iff in Hin. destruct Hin as (r & <- & Hr).
      unfold notna in Hx. rewrite (H r Hr) in Hx. discriminate.
  }
  rewrite (generate_statistics_dtype_run callsign_dtype Hok Hne).
  destruct callsign_dtype; [exact Hreport|].
  unfold Row, datetime64 in *.
  destruct (dropna_obj (map (@callsign _) rows)); [exact Hreport|reflexivity].
Qed.

Lemma statistics_counts_add_up_witness :
  let rows := [parsed_row (Some 0%Z) "a0b1c2" "UAL12" 39.5 (-105) nan nan;
               mkRow (Some 1000%Z) (OStr "c0ffee") ONaN 40%float (-104)%float
                     3000%float 0%float nan nan] in
  match ObjectDtype, dropna_obj (map (@callsign _) rows) with
  | NumberDtype, _ :: _ =>
      generate_statistics_dtype stable_argsort ObjectDtype (Frame rows)
      = Raise AttributeError
  | _, _ =>
      exists report : Report,
        generate_statistics_dtype stable_argsort ObjectDtype (Frame rows)
        = Ok (Some report) /\
        total_records report = List.length rows /\
        ratio_total (missing_callsigns report) = List.length rows /\
        ratio_total (missing_altitude report) = List.length rows /\
        ratio_total (missing_speed report) = List.length rows /\
        (ratio_count (missing_speed report)
         + match records_with_speed report with
           | Some r => ratio_count r
           | None => 0
           end)%nat = List.length rows /\
        (List.length (filter (fun r => isna (baro_altitude r) && isna (geo_altitude r)) rows)
         + match records_with_altitude report with
           | Some r => ratio_count r
           | None => 0
           end)%nat = List.length rows /\
        (ratio_count (missing_callsigns report) <= List.length rows)%nat /\
        (records_with_speed report = None
         <-> forall r, In r rows -> isna (velocity r) = true)
  end.
Proof.
  intros rows.
  apply (@statistics_counts_add_up stable_argsort ObjectDtype rows).
  - apply insertion_argsort_spec.
  - discriminate.
Defined.


(** X11.  Under a sort that meets the library's contract the listed callsigns
    are the most tracked ones: their numbers of records never increase
    down the list, and every callsign of the store is listed or has no
    more records than each listed one.  The listed records and the records
    missing a callsign are within the total, and make the total when the
    store has at most ten different callsigns. *)
Theorem top_callsigns_most_tracked (argsort : list Z -> list nat) (rows : list Row) :
  argsort_spec argsort ->
  rows <> [] ->
  let values := dropna_obj (map (@callsign _) rows) in
  exists report : Report,
    generate_statistics argsort (Frame rows) = Ok (Some report) /\
    StronglySorted ge (map snd (top_callsigns report)) /\
    (forall c : string,
       In (OStr c) (map (@callsign _) rows) ->
       In (strip c, count c values) (top_callsigns report) \/
       Forall (fun p => (count c values <= snd p)%nat) (top_callsigns report)) /\
    (ratio_count (missing_callsigns report)
     + list_sum (map snd (top_callsigns report)) <= List.length rows)%nat /\
    ((nunique (map (@callsign _) rows) <= 10)%nat ->
     (ratio_count (missing_callsigns report)
      + list_sum (map snd (top_callsigns report)))%nat = List.length rows).
Proof.
  intros Hok Hne values.
  destruct (generate_statistics_report argsort Hne)
    as (report & Hrun & _ & Htop & _).
  destruct (generate_statistics_fields argsort Hne)
    as (report' & Hrun' & _ & _ & _ & _ & _ & _ & _ & _ & _ & _ & Hcall & _).
  rewrite Hrun in Hrun'. injection Hrun' as <-.
  exists report. split; [exact Hrun|].
  fold values in Htop.
  set (sorted := sort_counts_descending argsort (value_counts_unsorted values)) in *.
  assert (Hperm : Permutation sorted (value_counts_unsorted values))
    by apply (sort_counts_descending_perm Hok).
  assert (Hsorted : StronglySorted ge (map snd sorted))
    by apply (sort_counts_descending_sorted Hok).
  assert (Hsnd : map snd (top_callsigns report) = firstn 10 (map snd sorted)).
  { rewrite Htop, map_map, firstn_map. reflexivity. }
  assert (Hsum : list_sum (map snd sorted) = List.length values).
  { rewrite <- (value_counts_total values).
    apply Permutation_list_sum, Permutation_map, Hperm. }
  assert (Hmissing : (ratio_count (missing_callsigns report) + List.length values)%nat
                     = List.length rows).
  { rewrite Hcall. simpl.
    pose proof (dropna_obj_length (map (@callsign _) rows)) as H.
    rewrite length_map in H. unfold values. unfold Row, datetime64 in *. lia. }
  split; [|split; [|split]].
  - rewrite Hsnd. apply sorted_firstn, Hsorted.
  - intros c Hc. apply dropna_obj_In in Hc. fold values in Hc.
    assert (Hin : In (c, count c values) sorted).
    { apply (Permutation_in _ (Permutation_sym Hperm)).
      unfold value_counts_unsorted. apply in_map_iff. exists c.
      split; [reflexivity | apply unique_In, Hc]. }
    rewrite <- (firstn_skipn 10 sorted) in Hin. apply in_app_or in Hin.
    destruct Hin as [Hin|Hin].
    + left. rewrite Htop. apply in_map_iff. exists (c, count c values). auto.
    + right. rewrite Htop. apply Forall_map, Forall_forall. intros p Hp. simpl.
      rewrite <- (firstn_skipn 10 sorted), map_app in Hsorted.
      apply (@sorted_app_inv _ ge _ _ (snd p) (count c values) Hsorted).
      * apply in_map, Hp.
      * apply (in_map snd) in Hin. exact Hin.
  - rewrite Hsnd. rewrite <- Hmissing, <- Hsum.
    rewrite <- (firstn_skipn 10 (map snd sorted)) at 2.
    rewrite list_sum_app. lia.
  - intros Hten. rewrite Hsnd, firstn_all2; [lia|].
    rewrite length_map, (Permutation_length Hperm).
    unfold value_counts_unsorted. rewrite length_map. exact Hten.
Qed.

Lemma top_callsigns_most_tracked_witness :
  let rows := [parsed_row (Some 0%Z) "a0b1c2" "DAL7    " 39.5 (-105) 9000 9100;
               parsed_row (Some 1000%Z) "c0ffee" "UAL12   " 40 (-105) 9000 9100;
               mkRow (Some 1500%Z) (OStr "c0ffee") ONaN 40%float (-104)%float
                     3000%float 0%float 250%float 3100%float;
               parsed_row (Some 2000%Z) "c0ffee" "UAL12   " 41 (-103) 9000 9100] in
  let values := dropna_obj (map (@callsign _) rows) in
  exists report : Report,
    generate_statistics reversing_argsort (Frame rows) = Ok (Some report) /\
    StronglySorted ge (map snd (top_callsigns report)) /\
    (forall c : string,
       In (OStr c) (map (@callsign _) rows) ->
       In (strip c, count c values) (top_callsigns report) \/
       Forall (fun p => (count c values <= snd p)%nat) (top_callsigns report)) /\
    (ratio_count (missing_callsigns report)
     + list_sum (map snd (top_callsigns report)) <= List.length rows)%nat /\
    ((nunique (map (@callsign _) rows) <= 10)%nat ->
     (ratio_count (missing_callsigns report)
      + list_sum (map snd (top_callsigns report)))%nat = List.length rows).
Proof.
  intros rows.
  apply (@top_callsigns_most_tracked reversing_argsort rows).
  - apply insertion_argsort_spec.
  - discriminate.
Defined.

End StatisticsFacts.

Module IntervalFacts.

Import Py Pandas PandasFacts SortFacts AircraftMapAnalyzer AnalyzerFacts.
Import ViewFacts StatisticsFacts.

Local Open Scope string_scope.

(** ** The median *)

Lemma insert_sorted_perm (x : Z) (l : list Z) :
  Permutation (insert_sorted x l) (x :: l).
Proof.
  induction l as [|y l IH]; simpl; [apply Permutation_refl|].
  destruct (x <=? y)%Z; [apply Permutation_refl|].
  rewrite IH. apply perm_swap.
Qed.

Lemma sort_ints_perm (l : list Z) : Permutation (sort_ints l) l.
Proof.
  unfold sort_ints. induction l as [|x l IH]; simpl; [constructor|].
  rewrite insert_sorted_perm. constructor. exact IH.
Qed.

Lemma sort_ints_sorted (l : list Z) : StronglySorted Z.le (sort_ints l).
Proof.
  apply Sorted_StronglySorted; [exact Z.le_trans|].
  unfold sort_ints. induction l as [|x l IH]; simpl; [constructor|].
  revert IH. generalize (fold_right insert_sorted [] l). clear. intros s Hs.
  induction s as [|y s IHs]; simpl; [repeat constructor|].
  inversion Hs as [|? ? Hs' Hh]; subst.
  destruct (Z.leb_spec x y).
  - constructor; [exact Hs|]. constructor. assumption.
  - constructor; [apply IHs, Hs'|].
    destruct s as [|z s]; simpl; [constructor; lia|].
    destruct (x <=? z)%Z; constructor; [lia|]. inversion Hh; subst. assumption.
Qed.

Lemma sorted_nth (s : list Z) (i j : nat) :
  StronglySorted Z.le s ->
  (i <= j)%nat -> (j < List.length s)%nat ->
  (nth i s 0 <= nth j s 0)%Z.
Proof.
  intros Hs. revert i j. induction Hs as [|x s Hs IH Hx]; intros i j Hij Hj;
    simpl in Hj; [lia|].
  destruct i as [|i], j as [|j]; simpl; try lia.
  - rewrite Forall_forall in Hx. apply Hx, nth_In. lia.
  - apply IH; lia.
Qed.

(** The median is one of the values or lies between two of them. *)
Lemma median_bounds (l : list Z) (m : Z) :
  median l = Some m ->
  exists lo hi, In lo l /\ In hi l /\ (lo <= m <= hi)%Z.
Proof.
  unfold median. set (s := sort_ints l).
  assert (Hin : forall i, (i < List.length s)%nat -> In (nth i s 0%Z) l).
  { intros i Hi. apply (Permutation_in _ (sort_ints_perm l)), nth_In, Hi. }
  assert (Hs := sort_ints_sorted l). fold s in Hs.
  destruct (List.length s) as [|n] eqn:En; [discriminate|].
  assert (Hhalf : (S n / 2 < S n)%nat) by (apply Nat.div_lt; lia).
  destruct (Nat.even (S n)) eqn:Ee; intros H; injection H as <-.
  - exists (nth (S n / 2 - 1) s 0%Z), (nth (S n / 2) s 0%Z).
    split; [apply Hin; lia|]. split; [apply Hin; lia|].
    assert (Hle := @sorted_nth s (S n / 2 - 1) (S n / 2) Hs ltac:(lia) ltac:(lia)).
    set (a := nth (S n / 2 - 1) s 0%Z) in *. set (b := nth (S n / 2) s 0%Z) in *.
    pose proof (Z.quot_rem' (a + b) 2) as Hq.
    pose proof (Z.rem_bound_abs (a + b) 2 ltac:(lia)) as Hr.
    change (a <= (a + b) ÷ 2 <= b)%Z. clearbody a b. lia.
  - exists (nth (S n / 2) s 0%Z), (nth (S n / 2) s 0%Z).
    split; [apply Hin; lia|]. split; [apply Hin; lia|].
    split; apply Z.le_refl.
Qed.

Lemma sort_ints_repeat (d : Z) (n : nat) : sort_ints (repeat d n) = repeat d n.
Proof.
  unfold sort_ints. induction n as [|n IH]; simpl; [reflexivity|].
  rewrite IH. destruct n; simpl; [reflexivity|].
  now rewrite Z.leb_refl.
Qed.

Lemma median_repeat (d : Z) (n : nat) : median (repeat d (S n)) = Some d.
Proof.
  destruct (median (repeat d (S n))) as [m|] eqn:E.
  - destruct (median_bounds _ E) as (lo & hi & Hlo & Hhi & Hm).
    apply repeat_spec in Hlo, Hhi. subst. f_equal. lia.
  - apply median_none in E. discriminate.
Qed.

(** ** Time deltas *)

Lemma diff_after_nonneg (prev : datetime64) (l : list datetime64) :
  StronglySorted time_le (prev :: l) ->
  Forall (fun d => (0 <= d)%Z) (dropna_time (diff_after prev l)).
Proof.
  revert prev. induction l as [|t l IH]; intros prev Hs; simpl; [constructor|].
  inversion Hs as [|? ? Hs' Hp]; subst. inversion Hp as [|? ? Hpt _]; subst.
  specialize (IH t Hs').
  destruct prev as [a|], t as [b|]; simpl in *; try exact IH.
  constructor; [lia | exact IH].
Qed.

Lemma time_diff_nonneg (l : list datetime64) :
  StronglySorted time_le l -> Forall (fun d => (0 <= d)%Z) (time_diff l).
Proof.
  unfold time_diff, diff. destruct l as [|t l]; simpl; [constructor|].
  apply diff_after_nonneg.
Qed.

Lemma diff_after_values (prev : datetime64) (l : list datetime64) :
  Forall (fun d => exists a b, In a (dropna_time (prev :: l)) /\
                               In b (dropna_time (prev :: l)) /\ d = (b - a)%Z)
         (dropna_time (diff_after prev l)).
Proof.
  revert prev. induction l as [|t l IH]; intros prev; [constructor|].
  specialize (IH t).
  assert (Hweak : Forall (fun d => exists a b, In a (dropna_time (prev :: t :: l)) /\
                               In b (dropna_time (prev :: t :: l)) /\ d = (b - a)%Z)
                         (dropna_time (diff_after t l))).
  { revert IH. apply Forall_impl. intros d (a & b & Ha & Hb & Hd).
    exists a, b. destruct prev; simpl; auto. }
  simpl diff_after. destruct prev as [a|], t as [b|]; simpl; try exact Hweak.
  constructor; [|exact Hweak]. exists a, b. simpl. auto.
Qed.

Lemma fold_min_le (l : list Z) (x y : Z) :
  In y (x :: l) -> (fold_left Z.min l x <= y)%Z.
Proof.
  assert (H : forall l x, (fold_left Z.min l x <= x)%Z).
  { clear. induction l as [|z l IH]; intros x; simpl; [lia|].
    specialize (IH (Z.min x z)). lia. }
  revert x. induction l as [|z l IH]; intros x; simpl.
  - intros [<-|[]]. lia.
  - intros [<-|[<-|Hy]].
    + specialize (H l (Z.min x z)). lia.
    + specialize (H l (Z.min x z)). lia.
    + apply IH. right. exact Hy.
Qed.

Lemma fold_max_le (l : list Z) (x y : Z) :
  In y (x :: l) -> (y <= fold_left Z.max l x)%Z.
Proof.
  assert (H : forall l x, (x <= fold_left Z.max l x)%Z).
  { clear. induction l as [|z l IH]; intros x; simpl; [lia|].
    specialize (IH (Z.max x z)). lia. }
  revert x. induction l as [|z l IH]; intros x; simpl.
  - intros [<-|[]]. lia.
  - intros [<-|[<-|Hy]].
    + specialize (H l (Z.max x z)). lia.
    + specialize (H l (Z.max x z)). lia.
    + apply IH. right. exact Hy.
Qed.

(** Every delta is within the time span. *)
Lemma time_diff_span (l : list datetime64) (d : Z) :
  In d (time_diff l) ->
  exists lo hi, time_min l = Some lo /\ time_max l = Some hi /\ (d <= hi - lo)%Z.
Proof.
  unfold time_diff, diff, time_min, time_max. destruct l as [|t l]; [contradiction|].
  intros Hd. change (In d (dropna_time (diff_after t l))) in Hd.
  pose proof (diff_after_values t l) as Hv. rewrite Forall_forall in Hv.
  destruct (Hv d Hd) as (a & b & Ha & Hb & ->).
  destruct (dropna_time (t :: l)) as [|x s]; [contradiction|].
  do 2 eexists. split; [reflexivity|]. split; [reflexivity|].
  pose proof (@fold_min_le s x a Ha). pose proof (@fold_max_le s x b Hb). lia.
Qed.

(** ** Intervals of a loaded store *)

Lemma load_data_sorted_rows
    (argsort : list Z -> list nat) (csv : result (list CsvRow)) :
  argsort_spec argsort ->
  StronglySorted time_le
    (map (@timestamp _) (rows_of (AircraftMapAnalyzer.load_data argsort csv))).
Proof.
  intros Hok. unfold AircraftMapAnalyzer.load_data.
  destruct csv as [rows|e]; simpl; [|constructor].
  destruct (to_datetime rows) as [parsed|e]; simpl; [|constructor].
  apply sort_values_timestamp_sorted, Hok.
Qed.

(** X12.  On a loaded store with records no time delta is negative: the median
    interval of the statistics is at least 0 and at most the time span,
    the time span is at least 0, and the interval that decides the
    animation period is at least 0. *)
Theorem loaded_store_intervals
    (argsort : list Z -> list nat) (csv : result (list CsvRow)) :
  argsort_spec argsort ->
  let data := load_data argsort csv in
  rows_of data <> [] ->
  exists report : Report,
    generate_statistics argsort data = Ok (Some report) /\
    (forall s : Z, time_span report = Some s -> (0 <= s)%Z) /\
    (forall m : Z,
       median_interval report = Some m ->
       exists s : Z, time_span report = Some s /\ (0 <= m <= s)%Z) /\
    (0 <= avg_interval (map (@timestamp _) (rows_of data)))%Z.
Proof.
  intros Hok data Hne.
  assert (Hsorted : StronglySorted time_le (map (@timestamp _) (rows_of data)))
    by (apply load_data_sorted_rows, Hok).
  destruct data as [|rows] eqn:Edata; [contradiction Hne; reflexivity|].
  simpl rows_of in *.
  destruct (generate_statistics_fields argsort Hne)
    as (report & Hrun & _ & _ & Hspan & Hmedian & _).
  exists report. split; [exact Hrun|].
  set (timestamps := map (@timestamp _) rows) in *.
  pose proof (time_diff_nonneg Hsorted) as Hnonneg. rewrite Forall_forall in Hnonneg.
  assert (Hm : forall m, median (time_diff timestamps) = Some m ->
                 exists s, time_span report = Some s /\ (0 <= m <= s)%Z).
  { intros m Hm. destruct (median_bounds _ Hm) as (lo & hi & Hlo & Hhi & Hb).
    destruct (time_diff_span _ _ Hhi) as (a & b & Ha & Hb' & Hle).
    exists (b - a)%Z. rewrite Hspan, Ha, Hb'. split; [reflexivity|].
    specialize (Hnonneg lo Hlo). lia. }
  split; [|split].
  - intros s Hs. rewrite Hspan in Hs.
    unfold time_max, time_min in Hs.
    destruct (dropna_time timestamps) as [|x t]; [discriminate|].
    injection Hs as <-.
    pose proof (@fold_min_le t x x (or_introl eq_refl)).
    pose proof (@fold_max_le t x x (or_introl eq_refl)). lia.
  - rewrite Hmedian. exact Hm.
  - unfold avg_interval. destruct (median (time_diff timestamps)) as [m|] eqn:E.
    + destruct (Hm m eq_refl) as (s & _ & H). lia.
    + unfold seconds. lia.
Qed.

Lemma loaded_store_intervals_witness :
  let csv := Ok [csv_row (TimeText 5000) "a0b1c2" "UAL12" 39.5 (-105) 9000 9100;
                 csv_row (TimeText 1000) "c0ffee" "DAL7" 40 (-104) 3000 3100;
                 csv_row TimeEmpty "c0ffee" "DAL7" 40 (-104) 3000 3100;
                 csv_row (TimeText 2000) "c0ffee" "DAL7" 40 (-104) 3000 3100] in
  let data := load_data reversing_argsort csv in
  exists report : Report,
    generate_statistics reversing_argsort data = Ok (Some report) /\
    (forall s : Z, time_span report = Some s -> (0 <= s)%Z) /\
    (forall m : Z,
       median_interval report = Some m ->
       exists s : Z, time_span report = Some s /\ (0 <= m <= s)%Z) /\
    (0 <= avg_interval (map (@timestamp _) (rows_of data)))%Z.
Proof.
  intros csv.
  apply (@loaded_store_intervals reversing_argsort csv).
  - apply insertion_argsort_spec.
  - discriminate.
Defined.

(** ** A regular cadence *)

Lemma cadence_deltas (t0 d : Z) (n : nat) (start : nat) :
  dropna_time
    (diff_after (Some (t0 + Z.of_nat start * d)%Z)
       (map (fun i => Some (t0 + Z.of_nat i * d)%Z) (seq (S start) n)))
  = repeat d n.
Proof.
  revert start. induction n as [|n IH]; intros start; [reflexivity|].
  cbn [seq map diff_after dropna_time repeat].
  rewrite IH. f_equal. lia.
Qed.

(** X13.  A store sampled at a constant delta [d] (at least two records, every
    one with its timestamp) has the median delta [d], so its animation has
    the period of the bracket of [d], whatever the number of records. *)
Theorem constant_cadence_period (rows : list Row) (t0 d : Z) (n : nat) :
  map (@timestamp _) rows
  = map (fun i => Some (t0 + Z.of_nat i * d)%Z) (seq 0 (S (S n))) ->
  median (time_diff (map (@timestamp _) rows)) = Some d /\
  exists fs : list Feature,
    create_time_animation (Frame rows) = Ok (Some (mkAnimation fs (period_of d))).
Proof.
  intros Hts.
  assert (Hmedian : median (time_diff (map (@timestamp _) rows)) = Some d).
  { rewrite Hts. unfold time_diff, diff.
    change (seq 0 (S (S n))) with (0%nat :: seq 1 (S n)).
    cbn [map dropna_time].
    rewrite (cadence_deltas t0 d (S n) 0). apply median_repeat. }
  split; [exact Hmedian|].
  assert (Hne : rows <> []) by (intros ->; discriminate).
  assert (Hall : forall r, In r rows -> timestamp r <> None).
  { intros r Hr Hnone. apply (in_map (@timestamp _)) in Hr.
    unfold Row, datetime64 in *. rewrite Hts, Hnone in Hr.
    apply in_map_iff in Hr. destruct Hr as (i & Hi & _). discriminate. }
  rewrite (create_time_animation_run Hne).
  destruct (@mapM_all_ok _ _ animation_feature (sort_values_timestamp_icao24 rows))
    as [fs Hfs].
  { apply Forall_forall. intros r Hr.
    apply (proj1 (sort_values_timestamp_icao24_In r rows)) in Hr.
    specialize (Hall r Hr).
    destruct (timestamp r) as [ns|] eqn:E; [|exfalso; apply Hall; reflexivity].
    rewrite (animation_feature_ok r E). eauto. }
  exists fs. rewrite Hfs. unfold avg_interval. rewrite Hmedian. reflexivity.
Qed.

Lemma constant_cadence_period_witness :
  let rows := [parsed_row (Some 5%Z) "a0b1c2" "UAL12" 39.5 (-105) 9000 9100;
               parsed_row (Some 30000000005%Z) "c0ffee" "DAL7" 40 (-104) 3000 3100;
               parsed_row (Some 60000000005%Z) "a0b1c2" "UAL12" 40 (-104) 9000 9100] in
  median (time_diff (map (@timestamp _) rows)) = Some 30000000000%Z /\
  exists fs : list Feature,
    create_time_animation (Frame rows)
    = Ok (Some (mkAnimation fs (period_of 30000000000%Z))).
Proof.
  intros rows.
  apply (@constant_cadence_period rows 5 30000000000 1).
  reflexivity.
Defined.

End IntervalFacts.

Module LoadFacts.

Import Py Pandas PandasFacts SortFacts AircraftMapAnalyzer AnalyzerFacts.

Lemma take_nan_idx (rows pre : list Row) :
  take (pre ++ rows) (nan_idx (List.length pre) (map (@timestamp _) rows))
  = filter (fun r => negb (dated r)) rows.
Proof.
  revert pre. induction rows as [|r rows IH]; intros pre; simpl; [reflexivity|].
  specialize (IH (pre ++ [r])).
  rewrite <- app_assoc, length_app, Nat.add_1_r in IH. simpl in IH.
  unfold dated. destruct (timestamp r) as [t|]; simpl.
  - exact IH.
  - rewrite nth_error_app2, Nat.sub_diag by lia. simpl. f_equal. exact IH.
Qed.

Lemma take_notna_items (rows pre : list Row) :
  take (pre ++ rows)
       (map fst (notna_items (List.length pre) (map (@timestamp _) rows)))
  = filter dated rows.
Proof.
  revert pre. induction rows as [|r rows IH]; intros pre; simpl; [reflexivity|].
  specialize (IH (pre ++ [r])).
  rewrite <- app_assoc, length_app, Nat.add_1_r in IH. simpl in IH.
  unfold dated. destruct (timestamp r) as [t|]; simpl.
  - rewrite nth_error_app2, Nat.sub_diag by lia. simpl. f_equal. exact IH.
  - exact IH.
Qed.

Lemma some_none_split (xs : list datetime64) (times : list Z) (tail : list datetime64) (n : nat) :
  Forall (fun t => t <> None) xs ->
  Forall (fun t => t = None) tail ->
  xs ++ tail = map Some times ++ repeat None n ->
  xs = map Some times.
Proof.
  intros Hxs Htail. revert times.
  induction Hxs as [|x xs Hx _ IH]; intros times H.
  - destruct times as [|t times]; [reflexivity|].
    simpl in H. destruct Htail as [|y tail Hy _]; [discriminate|].
    simpl in H. congruence.
  - destruct times as [|t times]; simpl in H.
    + destruct n; simpl in H; [discriminate|]. congruence.
    + injection H as -> H. simpl. f_equal. apply IH, H.
Qed.

(** X14.  What [load_data] does with the rows that carry no timestamp: it keeps
    them.  When every timestamp field is a date or empty, the store is the
    dated rows in non-decreasing order of time, followed by the undated
    rows (those with both coordinates) in their input order. *)
Theorem load_data_undated_rows_last
    (argsort : list Z -> list nat) (rows : list CsvRow) (parsed : list Row) :
  argsort_spec argsort ->
  to_datetime rows = Ok parsed ->
  exists (first_rows : list Row) (times : list Z),
    rows_of (load_data argsort (Ok rows))
    = first_rows ++ filter (fun r => negb (dated r)) (dropna_coordinates parsed) /\
    Permutation first_rows (filter dated (dropna_coordinates parsed)) /\
    map (@timestamp _) first_rows = map Some times /\
    StronglySorted Z.le times.
Proof.
  intros Hok Hparsed. rewrite (load_data_ok argsort rows Hparsed).
  change (rows_of (Frame ?l)) with l.
  set (valid := dropna_coordinates parsed).
  destruct (sort_values_timestamp_column Hok valid) as (times & n & Hsorted & Hcol).
  assert (Hsplit : sort_values_timestamp argsort valid
                   = take valid (take (map fst (notna_items 0 (map (@timestamp _) valid)))
                                      (argsort (map snd (notna_items 0 (map (@timestamp _) valid)))))
                     ++ filter (fun r => negb (dated r)) valid).
  { unfold sort_values_timestamp, nargsort. rewrite take_app.
    f_equal. exact (take_nan_idx valid []). }
  rewrite Hsplit in Hcol |- *.
  set (present := notna_items 0 (map (@timestamp _) valid)) in *.
  exists (take valid (take (map fst present) (argsort (map snd present)))), times.
  split; [reflexivity|].
  assert (Hperm : Permutation
                    (take valid (take (map fst present) (argsort (map snd present))))
                    (filter dated valid)).
  { rewrite <- (take_notna_items valid []). simpl. fold present.
    apply take_perm, (argsort_take Hok). now rewrite !length_map. }
  split; [exact Hperm|]. split; [|exact Hsorted].
  rewrite map_app in Hcol.
  eapply some_none_split; [| |exact Hcol].
  - apply Forall_map, Forall_forall. intros r Hr.
    apply (Permutation_in _ Hperm), filter_In in Hr. destruct Hr as [_ Hr].
    unfold dated in Hr. destruct (timestamp r); [discriminate|discriminate].
  - apply Forall_map, Forall_forall. intros r Hr.
    apply filter_In in Hr. destruct Hr as [_ Hr].
    unfold dated in Hr. destruct (timestamp r); [discriminate|reflexivity].
Qed.

Lemma load_data_undated_rows_last_witness :
  let rows := [csv_row TimeEmpty "c0ffee" "DAL7" 40 (-104) 3000 3100;
               csv_row (TimeText 2000) "a0b1c2" "UAL12" 39.5 (-105) 9000 9100;
               csv_row TimeEmpty "a0b1c2" "UAL12" 41 (-104) 3000 3100;
               csv_row (TimeText 1000) "c0ffee" "DAL7" 40 (-104) 3000 3100] in
  let parsed := [parsed_row None "c0ffee" "DAL7" 40 (-104) 3000 3100;
                 parsed_row (Some 2000%Z) "a0b1c2" "UAL12" 39.5 (-105) 9000 9100;
                 parsed_row None "a0b1c2" "UAL12" 41 (-104) 3000 3100;
                 parsed_row (Some 1000%Z) "c0ffee" "DAL7" 40 (-104) 3000 3100] in
  exists (first_rows : list Row) (times : list Z),
    rows_of (load_data stable_argsort (Ok rows))
    = first_rows ++ filter (fun r => negb (dated r)) (dropna_coordinates parsed) /\
    Permutation first_rows (filter dated (dropna_coordinates parsed)) /\
    map (@timestamp _) first_rows = map Some times /\
    StronglySorted Z.le times.
Proof.
  intros rows parsed.
  apply (@load_data_undated_rows_last stable_argsort rows parsed).
  - apply insertion_argsort_spec.
  - reflexivity.
Defined.

(** X15.  The two loaders hold the same records.  On every outcome of reading
    the file, the analyzer's store and the simple plotter's store are both
    without columns or both frames, and each is a reordering of the other:
    the two differ in the order of the rows only. *)
Theorem loaders_hold_same_records
    (argsort : list Z -> list nat) (csv : result (list CsvRow)) :
  argsort_spec argsort ->
  let analyzer_store := AircraftMapAnalyzer.load_data argsort csv in
  let plotter_store := SimpleAircraftPlotter.load_data csv in
  (analyzer_store = NoColumns <-> plotter_store = NoColumns) /\
  Permutation (rows_of analyzer_store) (rows_of plotter_store).
Proof.
  intros Hok. unfold AircraftMapAnalyzer.load_data, SimpleAircraftPlotter.load_data.
  destruct csv as [rows|e]; cbn [bind]; [|split; [tauto|constructor]].
  destruct (to_datetime rows) as [parsed|e]; cbn [bind]; [|split; [tauto|constructor]].
  split; [split; discriminate|]. cbn [rows_of].
  rewrite (sort_values_timestamp_perm Hok), lexsort_perm. apply Permutation_refl.
Qed.

Lemma loaders_hold_same_records_witness :
  let csv := Ok [csv_row (TimeText 2000) "c0ffee" "DAL7" 40 (-104) 3000 3100;
                 csv_row (TimeText 1000) "c0ffee" "DAL7" 41 (-104) 3000 3100;
                 csv_row (TimeText 1500) "a0b1c2" "UAL12" 39.5 (-105) 9000 9100;
                 csv_row TimeEmpty "a0b1c2" "UAL12" nan (-105) 9000 9100] in
  let analyzer_store := AircraftMapAnalyzer.load_data stable_argsort csv in
  let plotter_store := SimpleAircraftPlotter.load_data csv in
  (analyzer_store = NoColumns <-> plotter_store = NoColumns) /\
  Permutation (rows_of analyzer_store) (rows_of plotter_store).
Proof.
  intros csv.
  apply (@loaders_hold_same_records stable_argsort csv).
  apply insertion_argsort_spec.
Defined.

End LoadFacts.


Module ScrapperFacts.

Import Scrapper.

Lemma save_to_csv_lines (State : Type) (writerow : Observation State -> string)
    (header : string) (batch : list (Observation State)) (file : option (list string)) :
  save_to_csv writerow header batch file
  = match map writerow batch with
    | [] => file
    | rows =>
        match file with
        | Some (l :: ls) => Some ((l :: ls) ++ rows)
        | _ => Some (header :: rows)
        end
    end.
Proof.
  destruct batch as [|o batch]; [reflexivity|].
  destruct file as [[|l ls]|]; reflexivity.
Qed.

(** X16.  The file after a series of polls of the main loop.  When no poll
    brought a state (the API raised, answered nothing, or answered no
    state) the file is as before, an absent file still absent.  Otherwise a
    file that had a line keeps its lines and gets the rows of all polls
    after them, in the order of the polls, with no header written; an
    absent or empty file becomes the header followed by those rows, so the
    header is written once. *)
Theorem polls_file (State : Type) (writerow : Observation State -> string)
    (header : string) (ps : list (Response State * string))
    (file : option (list string)) :
  polls writerow header file ps
  = match written writerow ps with
    | [] => file
    | rows =>
        match file with
        | Some (l :: ls) => Some ((l :: ls) ++ rows)
        | _ => Some (header :: rows)
        end
    end.
Proof.
  unfold polls. revert file.
  induction ps as [|p ps IH]; intros file; [reflexivity|].
  cbn [fold_left written flat_map]. fold (written writerow ps).
  rewrite IH. unfold poll. rewrite save_to_csv_lines.
  destruct (map writerow (get_aircraft_data (fst p) (snd p))) as [|r rows];
    [reflexivity|].
  destruct (written writerow ps) as [|w ws].
  - rewrite app_nil_r. reflexivity.
  - destruct file as [[|l ls]|]; cbn [app]; rewrite <- ?app_assoc; reflexivity.
Qed.

End ScrapperFacts.


Module PlotterFacts.

Import Py Pandas PandasFacts SortFacts AircraftMapAnalyzer SimpleAircraftPlotter.

(** ** A stable sort read group by group *)

Section FilterLexsort.

Variable A : Type.
Variables leb leb' : A -> A -> bool.
Variable p : A -> bool.
Hypothesis leb_total : forall x y, leb x y = false -> leb y x = true.
Hypothesis leb_trans : forall x y z, leb x y = true -> leb y z = true -> leb x z = true.
Hypothesis leb_agree : forall x y, p x = true -> p y = true -> leb x y = leb' x y.

Lemma lexsort_strongly_sorted (l : list A) :
  StronglySorted (fun a b => leb a b = true) (lexsort leb l).
Proof.
  apply Sorted_StronglySorted; [|apply lexsort_sorted, leb_total].
  intros x y z. apply leb_trans.
Qed.

Lemma insert_by_filter_out (x : A) (l : list A) :
  p x = false -> filter p (insert_by leb x l) = filter p l.
Proof.
  intros Hx. induction l as [|h l IH]; simpl; [now rewrite Hx|].
  destruct (leb x h); simpl; [now rewrite Hx|]. now rewrite IH.
Qed.

Lemma insert_by_front (x : A) (l : list A) :
  p x = true ->
  Forall (fun y => leb x y = true) l ->
  insert_by leb' x (filter p l) = x :: filter p l.
Proof.
  intros Hx Hl. induction Hl as [|h l Hh Hl IH]; simpl; [reflexivity|].
  destruct (p h) eqn:Eh; [|exact IH].
  simpl. now rewrite <- (leb_agree Hx Eh), Hh.
Qed.

Lemma insert_by_filter_in (x : A) (l : list A) :
  p x = true ->
  StronglySorted (fun a b => leb a b = true) l ->
  filter p (insert_by leb x l) = insert_by leb' x (filter p l).
Proof.
  intros Hx Hs. induction Hs as [|h l Hs IH Hh]; simpl; [now rewrite Hx|].
  destruct (leb x h) eqn:E.
  - change (filter p (x :: h :: l)) with (filter p ([x] ++ h :: l)).
    rewrite filter_app. simpl. rewrite Hx. simpl.
    symmetry. apply (@insert_by_front x (h :: l) Hx).
    constructor; [exact E|]. revert Hh. apply Forall_impl.
    intros y Hy. exact (leb_trans E Hy).
  - simpl. rewrite IH. destruct (p h) eqn:Eh; [|reflexivity].
    simpl. now rewrite <- (leb_agree Hx Eh), E.
Qed.

Lemma filter_lexsort (l : list A) :
  filter p (lexsort leb l) = lexsort leb' (filter p l).
Proof.
  induction l as [|x l IH]; [reflexivity|].
  change (lexsort leb (x :: l)) with (insert_by leb x (lexsort leb l)).
  simpl filter at 2. destruct (p x) eqn:Ex.
  - rewrite (@insert_by_filter_in x _ Ex (lexsort_strongly_sorted l)), IH. reflexivity.
  - rewrite (@insert_by_filter_out x _ Ex). exact IH.
Qed.

End FilterLexsort.

Lemma time_leb_trans (a b c : datetime64) :
  time_leb a b = true -> time_leb b c = true -> time_leb a c = true.
Proof.
  destruct a as [x|], b as [y|], c as [z|]; simpl; try congruence.
  rewrite !Z.leb_le. lia.
Qed.

Lemma compare_refl (x : string) : String.compare x x = Eq.
Proof.
  destruct (String.compare x x) eqn:E; [reflexivity| |].
  - destruct (key_lt_irrefl E).
  - pose proof (String.compare_antisym x x) as H. rewrite E in H. discriminate.
Qed.

Lemma icao24_timestamp_leb_trans (r1 r2 r3 : Row) :
  icao24_timestamp_leb r1 r2 = true ->
  icao24_timestamp_leb r2 r3 = true ->
  icao24_timestamp_leb r1 r3 = true.
Proof.
  unfold icao24_timestamp_leb.
  destruct (icao24 r1) as [|x], (icao24 r2) as [|y], (icao24 r3) as [|z];
    try congruence; try apply time_leb_trans.
  destruct (String.compare x y) eqn:Exy; try congruence;
    destruct (String.compare y z) eqn:Eyz; try congruence.
  - apply String.compare_eq_iff in Exy, Eyz. subst. rewrite compare_refl.
    apply time_leb_trans.
  - apply String.compare_eq_iff in Exy. subst. now rewrite Eyz.
  - apply String.compare_eq_iff in Eyz. subst. now rewrite Exy.
  - now rewrite (key_lt_trans Exy Eyz).
Qed.

Lemma plotter_load_data_ok (rows : list CsvRow) (parsed : list Row) :
  to_datetime rows = Ok parsed ->
  SimpleAircraftPlotter.load_data (Ok rows)
  = Frame (lexsort icao24_timestamp_leb (dropna_coordinates parsed)).
Proof. intros H. unfold SimpleAircraftPlotter.load_data. simpl. rewrite H. reflexivity. Qed.

(** X17.  The store of the simple plotter.  When every timestamp parses it holds
    the rows with both coordinates, ordered by aircraft and then by time
    (rows without a timestamp last within their aircraft), and what it
    holds of one aircraft is that aircraft's rows sorted by time with the
    input order kept among equal timestamps. *)
Theorem plotter_store_by_aircraft_then_time (rows : list CsvRow) (parsed : list Row) :
  to_datetime rows = Ok parsed ->
  let store := rows_of (SimpleAircraftPlotter.load_data (Ok rows)) in
  Permutation store (dropna_coordinates parsed) /\
  StronglySorted (fun a b => icao24_timestamp_leb a b = true) store /\
  forall id : string,
    filter (has_icao24 id) store
    = lexsort (fun a b => time_leb (timestamp a) (timestamp b))
              (filter (has_icao24 id) (dropna_coordinates parsed)) /\
    StronglySorted time_le (map (@timestamp _) (filter (has_icao24 id) store)).
Proof.
  intros Hparsed store. subst store. rewrite (plotter_load_data_ok rows Hparsed).
  change (rows_of (Frame ?l)) with l.
  split; [apply lexsort_perm|].
  split; [apply lexsort_strongly_sorted;
          [apply icao24_timestamp_leb_total | apply icao24_timestamp_leb_trans]|].
  intros id.
  assert (Heq : filter (has_icao24 id)
                       (lexsort icao24_timestamp_leb (dropna_coordinates parsed))
                = lexsort (fun a b => time_leb (timestamp a) (timestamp b))
                          (filter (has_icao24 id) (dropna_coordinates parsed))).
  { apply filter_lexsort.
    - apply icao24_timestamp_leb_total.
    - apply icao24_timestamp_leb_trans.
    - intros x y Hx Hy. unfold has_icao24 in Hx, Hy. unfold icao24_timestamp_leb.
      destruct (icao24 x) as [|kx]; [discriminate|].
      destruct (icao24 y) as [|ky]; [discriminate|].
      apply String.eqb_eq in Hx, Hy. subst. now rewrite compare_refl. }
  split; [exact Heq|]. rewrite Heq.
  apply (@sorted_times (fun a b => time_leb (timestamp a) (timestamp b) = true)).
  - intros r1 r2. apply time_leb_le.
  - apply lexsort_sorted. intros x y. apply time_leb_total.
Qed.

Lemma plotter_store_by_aircraft_then_time_witness :
  let rows := [csv_row (TimeText 2000) "c0ffee" "DAL7" 40 (-104) 3000 3100;
               csv_row (TimeText 3000) "a0b1c2" "UAL12" 39.5 (-105) 9000 9100;
               csv_row (TimeText 1000) "c0ffee" "DAL7" nan (-104) 3000 3100;
               csv_row TimeEmpty "a0b1c2" "UAL12" 39.25 (-105) 9000 9100;
               csv_row (TimeText 1000) "a0b1c2" "UAL12" 39.75 (-105) 9000 9100] in
  let parsed := [parsed_row (Some 2000%Z) "c0ffee" "DAL7" 40 (-104) 3000 3100;
                 parsed_row (Some 3000%Z) "a0b1c2" "UAL12" 39.5 (-105) 9000 9100;
                 parsed_row (Some 1000%Z) "c0ffee" "DAL7" nan (-104) 3000 3100;
                 parsed_row None "a0b1c2" "UAL12" 39.25 (-105) 9000 9100;
                 parsed_row (Some 1000%Z) "a0b1c2" "UAL12" 39.75 (-105) 9000 9100] in
  let store := rows_of (SimpleAircraftPlotter.load_data (Ok rows)) in
  Permutation store (dropna_coordinates parsed) /\
  StronglySorted (fun a b => icao24_timestamp_leb a b = true) store /\
  forall id : string,
    filter (has_icao24 id) store
    = lexsort (fun a b => time_leb (timestamp a) (timestamp b))
              (filter (has_icao24 id) (dropna_coordinates parsed)) /\
    StronglySorted time_le (map (@timestamp _) (filter (has_icao24 id) store)).
Proof.
  intros rows parsed.
  apply (@plotter_store_by_aircraft_then_time rows parsed).
  reflexivity.
Defined.

(** ** The tracks of [create_map] *)

Lemma combine_fst_snd (A B : Type) (l1 : list A) (l2 : list B) :
  List.length l1 = List.length l2 ->
  map fst (combine l1 l2) = l1 /\ map snd (combine l1 l2) = l2.
Proof.
  revert l2. induction l1 as [|a l1 IH]; intros [|b l2] H; simpl in *;
    try discriminate; [split; reflexivity|].
  injection H as H. destruct (IH l2 H) as [-> ->]. split; reflexivity.
Qed.

Lemma map_constant (A B : Type) (f : A -> B) (c : B) (l : list A) :
  Forall (fun x => f x = c) l -> map f l = repeat c (List.length l).
Proof.
  induction 1 as [|x l Hx _ IH]; simpl; [reflexivity|]. now rewrite Hx, IH.
Qed.

(** The markers of a track of [n] points: a start marker, circles, an end
    marker; a single point is a circle. *)
Lemma point_kinds (color : string) (n : nat) :
  map (point_kind color n) (seq 0 n)
  = match n with
    | O => []
    | S O => [CircleMarker color]
    | S (S k) => (StartMarker :: repeat (CircleMarker color) k ++ [EndMarker])%list
    end.
Proof.
  destruct n as [|[|k]]; try reflexivity.
  change (seq 0 (S (S k))) with (0%nat :: seq 1 (S k)).
  rewrite seq_S, map_cons, map_app. f_equal. f_equal.
  - rewrite (@map_constant _ _ (point_kind color (S (S k))) (CircleMarker color) (seq 1 k));
      [now rewrite length_seq|].
    apply Forall_forall. intros i Hi. apply in_seq in Hi. unfold point_kind.
    replace (i =? 0)%nat with false by (symmetry; apply Nat.eqb_neq; lia).
    replace (i =? S (S k) - 1)%nat with false by (symmetry; apply Nat.eqb_neq; lia).
    reflexivity.
  - simpl map. unfold point_kind.
    assert (E : (S k =? S (S k) - 1)%nat = true) by (apply Nat.eqb_eq; lia).
    rewrite E. reflexivity.
Qed.

Section Tracks.

Variable argsort : list Z -> list nat.
Hypothesis argsort_ok : argsort_spec argsort.

Lemma tracks_loop_tracks (groups : list (string * list Row)) :
  forall color_idx : nat,
    Forall (fun track =>
              exists group,
                In (track_aircraft track, group) groups /\
                map snd (track_points track) = sort_values_timestamp argsort group /\
                map fst (track_points track)
                = map (point_kind (track_color track) (List.length group))
                      (seq 0 (List.length group)) /\
                track_line track
                = if (1 <? List.length group)%nat
                  then Some (map (fun row => (latitude row, longitude row))
                                 (sort_values_timestamp argsort group))
                  else None)
           (tracks_loop argsort color_idx groups).
Proof.
  induction groups as [|[k g] groups IH]; intros color_idx; simpl; [constructor|].
  constructor.
  - exists g. cbn [track_aircraft track_points track_color track_line].
    rewrite (sort_values_timestamp_length argsort_ok g).
    split; [now left|].
    destruct (@combine_fst_snd _ _ (seq 0 (List.length g))
                               (sort_values_timestamp argsort g)) as [Hf Hs].
    { now rewrite length_seq, (sort_values_timestamp_length argsort_ok g). }
    set (c := combine (seq 0 (List.length g)) (sort_values_timestamp argsort g)) in *.
    split; [|split; [|reflexivity]].
    + rewrite map_map. simpl. exact Hs.
    + rewrite <- Hf, !map_map. reflexivity.
  - generalize (IH (S color_idx)). apply Forall_impl.
    intros track (group & Hin & H). exists group. split; [now right|exact H].
Qed.

End Tracks.

(** X18.  What [create_map] draws.  Every aircraft of the store gets a track,
    and a track holds all the rows of its aircraft in time order.  A track
    of two or more points has a line through all its points, a start
    marker on the first, an end marker on the last and circles between; a
    track of one point has no line and a single circle. *)
Theorem track_markers (argsort : list Z -> list nat) (rows : list Row) :
  argsort_spec argsort ->
  rows <> [] ->
  exists tracks : list Track,
    create_map argsort (Frame rows) = Ok (Some tracks) /\
    List.length tracks = nunique (map (@icao24 _) rows) /\
    forall track : Track,
      In track tracks ->
      let group := filter (has_icao24 (track_aircraft track)) rows in
      let points := map snd (track_points track) in
      group <> [] /\
      Permutation points group /\
      StronglySorted time_le (map (@timestamp _) points) /\
      track_line track
      = (if (1 <? List.length group)%nat
         then Some (map (fun row => (latitude row, longitude row)) points)
         else None) /\
      map fst (track_points track)
      = match List.length group with
        | O => []
        | S O => [CircleMarker (track_color track)]
        | S (S k) =>
            (StartMarker :: repeat (CircleMarker (track_color track)) k
               ++ [EndMarker])%list
        end.
Proof.
  intros Hok Hne.
  exists (tracks_loop argsort 0 (groupby_icao24 rows)).
  split; [apply AnalyzerFacts.create_map_ok, Hne|]. split.
  - rewrite <- (length_map (@track_aircraft)), AnalyzerFacts.tracks_loop_keys.
    unfold groupby_icao24, nunique. rewrite !length_map.
    apply FlightPathFacts.sorted_unique_length.
  - intros track Hin group points. subst group points.
    pose proof (tracks_loop_tracks Hok (groupby_icao24 rows) 0) as H.
    rewrite Forall_forall in H. destruct (H _ Hin) as (g & Hg & Hp & Hk & Hl).
    apply FlightPathFacts.groupby_icao24_In in Hg. destruct Hg as [Hg Hgne].
    rewrite <- Hg, Hp.
    split; [exact Hgne|].
    split; [apply (sort_values_timestamp_perm Hok)|].
    split; [apply (sort_values_timestamp_sorted Hok)|].
    split; [exact Hl|].
    rewrite Hk. apply point_kinds.
Qed.

Lemma track_markers_witness :
  let rows := [parsed_row (Some 2000%Z) "a0b1c2" "UAL12" 39.5 (-105) 9000 9100;
               parsed_row (Some 1000%Z) "c0ffee" "DAL7" 40 (-104) 3000 3100;
               parsed_row (Some 1000%Z) "a0b1c2" "UAL12" 39.25 (-105) 9000 9100;
               parsed_row (Some 3000%Z) "a0b1c2" "UAL12" 39.75 (-105) 9000 9100] in
  exists tracks : list Track,
    create_map stable_argsort (Frame rows) = Ok (Some tracks) /\
    List.length tracks = nunique (map (@icao24 _) rows) /\
    forall track : Track,
      In track tracks ->
      let group := filter (has_icao24 (track_aircraft track)) rows in
      let points := map snd (track_points track) in
      group <> [] /\
      Permutation points group /\
      StronglySorted time_le (map (@timestamp _) points) /\
      track_line track
      = (if (1 <? List.length group)%nat
         then Some (map (fun row => (latitude row, longitude row)) points)
         else None) /\
      map fst (track_points track)
      = match List.length group with
        | O => []
        | S O => [CircleMarker (track_color track)]
        | S (S k) =>
            (StartMarker :: repeat (CircleMarker (track_color track)) k
               ++ [EndMarker])%list
        end.
Proof.
  intros rows.
  apply (@track_markers stable_argsort rows).
  - apply insertion_argsort_spec.
  - discriminate.
Defined.

(** ** [print_summary] *)

Lemma idxmax_max (l : list (string * nat)) (p : string * nat) :
  idxmax l = Some p ->
  In p l /\ Forall (fun q => (snd q <= snd p)%nat) l.
Proof.
  revert p. induction l as [|h l IH]; simpl; intros p H; [discriminate|].
  destruct (idxmax l) as [q|] eqn:E.
  - destruct (IH q eq_refl) as [Hin Hall].
    destruct (snd h <? snd q)%nat eqn:C; injection H as <-.
    + apply Nat.ltb_lt in C. split; [now right|].
      constructor; [lia|exact Hall].
    + apply Nat.ltb_ge in C. split; [now left|].
      constructor; [lia|]. revert Hall. apply Forall_impl. intros r Hr. lia.
  - injection H as <-. destruct l as [|k l]; [|simpl in E; destruct (idxmax l);
      [destruct (snd k <? snd p)%nat|]; discriminate].
    split; [now left|]. constructor; [lia|constructor].
Qed.

Lemma idxmax_none (l : list (string * nat)) : idxmax l = None -> l = [].
Proof.
  destruct l as [|h l]; [reflexivity|]. simpl.
  destruct (idxmax l) as [q|]; [destruct (snd h <? snd q)%nat|]; discriminate.
Qed.

Lemma count_icao24 (id : string) (rows : list Row) :
  count id (dropna_obj (map (@icao24 _) rows))
  = List.length (filter (has_icao24 id) rows).
Proof.
  unfold count, has_icao24. induction rows as [|r rows IH]; simpl; [reflexivity|].
  destruct (icao24 r) as [|s]; simpl; [exact IH|].
  rewrite (String.eqb_sym s id). destruct (String.eqb id s); simpl; now rewrite IH.
Qed.

Lemma count_zero (s : string) (l : list string) :
  ~ In s l -> count s l = 0%nat.
Proof.
  unfold count. induction l as [|x l IH]; simpl; intros H; [reflexivity|].
  destruct (String.eqb s x) eqn:E.
  - apply String.eqb_eq in E. subst. exfalso. apply H. now left.
  - apply IH. intros Hin. apply H. now right.
Qed.

(** X19.  The figures of [print_summary].  Every aircraft of the store is
    counted once, as one with a track or as one with a single point.  The
    longest track is reported exactly when some aircraft has two records or
    more; it names an aircraft with its number of records, which is at
    least two and which no aircraft exceeds. *)
Theorem summary_figures (argsort : list Z -> list nat) (rows : list Row) :
  argsort_spec argsort ->
  rows <> [] ->
  exists s : Summary,
    print_summary argsort (Frame rows) = Ok (Some s) /\
    summary_records s = List.length rows /\
    summary_aircraft s = nunique (map (@icao24 _) rows) /\
    (with_tracks s + single_points s)%nat = summary_aircraft s /\
    (longest_track s = None <-> with_tracks s = 0%nat) /\
    forall (id : string) (n : nat),
      longest_track s = Some (id, n) ->
      (2 <= n)%nat /\
      n = List.length (filter (has_icao24 id) rows) /\
      forall id' : string,
        (List.length (filter (has_icao24 id') rows) <= n)%nat.
Proof.
  intros Hok Hne. unfold print_summary. rewrite (empty_frame Hne). simpl column.
  cbn [bind]. eexists. split; [reflexivity|].
  cbn [summary_records summary_aircraft with_tracks single_points longest_track].
  match goal with
  | |- context [dropna_obj ?column] => set (values := dropna_obj column)
  end.
  set (sorted := sort_counts_descending argsort (value_counts_unsorted values)).
  assert (Hperm : Permutation sorted (value_counts_unsorted values))
    by apply (StatisticsFacts.sort_counts_descending_perm Hok).
  set (multi := filter (fun p : string * nat => (1 <? snd p)%nat) sorted).
  assert (Hlen : List.length sorted = nunique (map (@icao24 _) rows)).
  { rewrite (Permutation_length Hperm). unfold value_counts_unsorted, nunique.
    now rewrite length_map. }
  assert (Hmulti : (List.length multi <= List.length sorted)%nat)
    by apply filter_length_le.
  split; [reflexivity|]. split; [reflexivity|].
  split; [unfold Row, datetime64 in *; lia|]. split.
  - destruct (List.length multi) as [|m] eqn:Em; simpl; [tauto|].
    split; [|discriminate]. intros H. apply idxmax_none in H.
    subst multi. rewrite H in Em. discriminate.
  - intros id n H.
    destruct (0 <? List.length multi)%nat eqn:Em; [|discriminate].
    apply Nat.ltb_lt in Em. apply idxmax_max in H. destruct H as [Hin Hall].
    simpl in Hall. rewrite Forall_forall in Hall.
    split; [|split].
    + destruct multi as [|p multi'] eqn:E; [simpl in Em; lia|].
      assert (Hp : In p (filter (fun p : string * nat => (1 <? snd p)%nat) sorted)).
      { fold multi. rewrite E. now left. }
      apply filter_In in Hp. destruct Hp as [Hp H1]. apply Nat.ltb_lt in H1.
      specialize (Hall p Hp). lia.
    + apply (Permutation_in _ Hperm), AnalyzerFacts.value_counts_unsorted_In in Hin.
      destruct Hin as [_ ->]. apply count_icao24.
    + intros id'. rewrite <- count_icao24.
      assert (Hc : (count id' values <= n)%nat); [|exact Hc].
      destruct (in_dec string_dec id' values) as [Hi|Hi].
      * assert (H' : In (id', count id' values) sorted).
        { apply (Permutation_in _ (Permutation_sym Hperm)).
          unfold value_counts_unsorted. apply in_map_iff. exists id'.
          split; [reflexivity|]. apply AnalyzerFacts.unique_In, Hi. }
        exact (Hall _ H').
      * rewrite (count_zero _ _ Hi). lia.
Qed.

Lemma summary_figures_witness :
  let rows := [parsed_row (Some 2000%Z) "a0b1c2" "UAL12" 39.5 (-105) 9000 9100;
               parsed_row (Some 1000%Z) "c0ffee" "DAL7" 40 (-104) 3000 3100;
               parsed_row (Some 1000%Z) "a0b1c2" "UAL12" 39.25 (-105) 9000 9100] in
  exists s : Summary,
    print_summary stable_argsort (Frame rows) = Ok (Some s) /\
    summary_records s = List.length rows /\
    summary_aircraft s = nunique (map (@icao24 _) rows) /\
    (with_tracks s + single_points s)%nat = summary_aircraft s /\
    (longest_track s = None <-> with_tracks s = 0%nat) /\
    forall (id : string) (n : nat),
      longest_track s = Some (id, n) ->
      (2 <= n)%nat /\
      n = List.length (filter (has_icao24 id) rows) /\
      forall id' : string,
        (List.length (filter (has_icao24 id') rows) <= n)%nat.
Proof.
  intros rows.
  apply (@summary_figures stable_argsort rows).
  - apply insertion_argsort_spec.
  - discriminate.
Defined.

End PlotterFacts.


Module DashboardFacts.

Import Py Pandas PandasFacts SortFacts AircraftMapAnalyzer AnalyzerFacts.
Import ViewFacts FlightPathFacts StatisticsFacts PlotterFacts.

Local Open Scope string_scope.

(** ** [debug_data] *)

Lemma firstn_In (A : Type) (n : nat) (l : list A) (x : A) :
  In x (firstn n l) -> In x l.
Proof.
  rewrite <- (firstn_skipn n l) at 2. intros H. apply in_or_app. now left.
Qed.

Lemma Forall2_In_r (A B : Type) (R : A -> B -> Prop) (l : list A) (ys : list B) (y : B) :
  Forall2 R l ys -> In y ys -> exists x, In x l /\ R x y.
Proof.
  induction 1 as [|x y' l ys Hxy _ IH]; simpl; [contradiction|].
  intros [->|Hin].
  - exists x. auto.
  - destruct (IH Hin) as (x' & Hx' & HR). exists x'. auto.
Qed.

(** In a list in time order the first row is not later than the last. *)
Lemma sorted_ends (l : list Row) (a b : Row) :
  StronglySorted time_le (map (@timestamp _) l) ->
  first l = Ok a -> last l = Ok b ->
  time_le (timestamp a) (timestamp b).
Proof.
  intros Hs Ha Hb. destruct (ends_split l Ha Hb) as [(_ & -> & _)|H].
  - apply time_le_refl.
  - remember (between l) as mid. clear Heqmid Ha Hb. subst l.
    simpl in Hs. inversion Hs as [|? ? _ Hall]; subst.
    rewrite Forall_forall in Hall. apply Hall, in_map, in_or_app.
    right. now left.
Qed.

Section Debug.

Variable argsort : list Z -> list nat.
Hypothesis argsort_ok : argsort_spec argsort.
Variable rows : list Row.

Lemma debug_sample_run (id : string) (n : nat) :
  filter (has_icao24 id) rows <> [] ->
  exists a b : Row,
    debug_sample argsort rows (id, n) = Ok (id, n, a, b) /\
    In a rows /\ In b rows /\
    icao24 a = OStr id /\ icao24 b = OStr id /\
    time_le (timestamp a) (timestamp b).
Proof.
  intros Hne. unfold debug_sample. cbn [fst snd].
  set (group := filter (has_icao24 id) rows) in *.
  pose proof (sort_values_timestamp_perm argsort_ok group) as Hperm.
  pose proof (sort_values_timestamp_sorted argsort_ok group) as Hsorted.
  set (sorted := sort_values_timestamp argsort group) in *.
  assert (Hsne : sorted <> []).
  { intros E. rewrite E in Hperm. apply Permutation_nil in Hperm. auto. }
  assert (Hfirst : exists a, first sorted = Ok a).
  { destruct sorted as [|a rest]; [congruence|]. exists a. reflexivity. }
  assert (Hlast : exists b, last sorted = Ok b).
  { destruct (exists_last Hsne) as (front & b & E). exists b.
    apply last_ok. exists front. exact E. }
  destruct Hfirst as [a Ha], Hlast as [b Hb]. exists a, b.
  rewrite Ha, Hb. cbn [bind].
  assert (Hin : forall r, In r sorted -> In r rows /\ icao24 r = OStr id).
  { intros r Hr. apply (Permutation_in _ Hperm), filter_In in Hr.
    destruct Hr as [Hr Hid]. apply has_icao24_eq in Hid. auto. }
  assert (Hina : In a sorted).
  { apply first_ok in Ha. destruct Ha as [rest ->]. now left. }
  assert (Hinb : In b sorted).
  { apply last_ok in Hb. destruct Hb as [front ->]. apply in_or_app. right. now left. }
  destruct (Hin a Hina) as [? ?], (Hin b Hinb) as [? ?].
  repeat split; try assumption.
  exact (sorted_ends sorted Hsorted Ha Hb).
Qed.

(** The aircraft [debug_data] samples: at most five, each with two records
    or more. *)
Lemma multi_point_entries (id : string) (n : nat) :
  let values := dropna_obj (map (@icao24 _) rows) in
  let counts := sort_counts_descending argsort (value_counts_unsorted values) in
  In (id, n) (firstn 5 (filter (fun p => (1 <? snd p)%nat) counts)) ->
  (2 <= n)%nat /\ n = List.length (filter (has_icao24 id) rows).
Proof.
  intros values counts H. apply firstn_In, filter_In in H.
  destruct H as [H Hn]. simpl in Hn. apply Nat.ltb_lt in Hn.
  apply (Permutation_in _ (sort_counts_descending_perm argsort_ok _)) in H.
  apply value_counts_unsorted_In in H. destruct H as [_ ->].
  split; [lia|]. apply count_icao24.
Qed.

Lemma no_multi_point_entries :
  let values := dropna_obj (map (@icao24 _) rows) in
  let counts := sort_counts_descending argsort (value_counts_unsorted values) in
  firstn 5 (filter (fun p => (1 <? snd p)%nat) counts) = []
  <-> forall id : string, (List.length (filter (has_icao24 id) rows) <= 1)%nat.
Proof.
  intros values counts.
  pose proof (sort_counts_descending_perm argsort_ok (value_counts_unsorted values))
    as Hperm. fold counts in Hperm.
  split.
  - intros H id. rewrite <- count_icao24. fold values.
    destruct (in_dec string_dec id values) as [Hi|Hi];
      [|rewrite (count_zero _ _ Hi); lia].
    destruct (1 <? count id values)%nat eqn:C; [|apply Nat.ltb_ge in C; lia].
    assert (Hin : In (id, count id values)
                     (filter (fun p : string * nat => (1 <? snd p)%nat) counts)).
    { apply filter_In. split; [|exact C].
      apply (Permutation_in _ (Permutation_sym Hperm)).
      unfold value_counts_unsorted. apply in_map_iff. exists id.
      split; [reflexivity|]. apply unique_In, Hi. }
    destruct (filter (fun p : string * nat => (1 <? snd p)%nat) counts);
      [contradiction|discriminate].
  - intros H.
    destruct (filter (fun p : string * nat => (1 <? snd p)%nat) counts)
      as [|[id n] t] eqn:E; [reflexivity|].
    assert (Hin : In (id, n) (filter (fun p : string * nat => (1 <? snd p)%nat) counts))
      by (rewrite E; now left).
    apply filter_In in Hin. destruct Hin as [Hin Hn]. simpl in Hn.
    apply Nat.ltb_lt in Hn.
    apply (Permutation_in _ Hperm), value_counts_unsorted_In in Hin.
    destruct Hin as [_ ->]. specialize (H id). rewrite <- count_icao24 in H.
    fold values in H. lia.
Qed.

Hypothesis rows_ok : rows <> [].

Lemma debug_data_run :
  let values := dropna_obj (map (@icao24 _) rows) in
  let counts := sort_counts_descending argsort (value_counts_unsorted values) in
  let multi := firstn 5 (filter (fun p => (1 <? snd p)%nat) counts) in
  exists samples,
    debug_data argsort (Frame rows) = Ok (Some (mkDebugInfo (firstn 3 rows) samples)) /\
    Forall2 (fun entry sample => debug_sample argsort rows entry = Ok sample)
            multi samples.
Proof.
  intros values counts multi.
  assert (Hall : Forall (fun entry => exists sample,
                           debug_sample argsort rows entry = Ok sample) multi).
  { apply Forall_forall. intros [id n] Hin.
    destruct (multi_point_entries id n Hin) as [Hn Hlen].
    destruct (@debug_sample_run id n) as (a & b & Hrun & _).
    - intros E. rewrite E in Hlen. simpl in Hlen. lia.
    - eauto. }
  destruct (@mapM_all_ok _ _ _ _ Hall) as [samples Hsamples].
  exists samples. split; [|apply mapM_results, Hsamples].
  unfold debug_data. rewrite (empty_frame rows_ok). simpl column. cbn [bind].
  change (bind (mapM (debug_sample argsort rows) multi)
               (fun found => Ok (Some (mkDebugInfo (firstn 3 rows) found)))
          = Ok (Some (mkDebugInfo (firstn 3 rows) samples))).
  rewrite Hsamples. reflexivity.
Qed.

End Debug.

(** X20.  What [debug_data] reports of a store with a record.  It samples at
    most five aircraft; each sampled aircraft has two records or more, the
    number shown is the number of its records, and the two records shown
    are records of that aircraft, the first not later than the last.  No
    aircraft is sampled exactly when no aircraft has two records, and then
    [create_flight_paths] with its default of two points draws no path. *)
Theorem debug_data_samples (argsort : list Z -> list nat) (rows : list Row) :
  argsort_spec argsort ->
  rows <> [] ->
  exists info : DebugInfo,
    debug_data argsort (Frame rows) = Ok (Some info) /\
    first_records info = firstn 3 rows /\
    (List.length (multi_point_aircraft info) <= 5)%nat /\
    (forall (id : string) (n : nat) (a b : Row),
       In (id, n, a, b) (multi_point_aircraft info) ->
       (2 <= n)%nat /\
       n = List.length (filter (has_icao24 id) rows) /\
       In a rows /\ In b rows /\
       icao24 a = OStr id /\ icao24 b = OStr id /\
       time_le (timestamp a) (timestamp b)) /\
    (multi_point_aircraft info = []
     <-> forall id : string, (List.length (filter (has_icao24 id) rows) <= 1)%nat) /\
    (multi_point_aircraft info = [] ->
     create_flight_paths argsort (Frame rows) 2 = Ok (Some [])).
Proof.
  intros Hok Hne.
  destruct (debug_data_run Hok Hne) as (samples & Hrun & Hsamples).
  exists (mkDebugInfo (firstn 3 rows) samples).
  cbn [first_records multi_point_aircraft].
  split; [exact Hrun|]. split; [reflexivity|].
  assert (Hempty : samples = []
                   <-> forall id : string,
                         (List.length (filter (has_icao24 id) rows) <= 1)%nat).
  { rewrite <- (no_multi_point_entries Hok rows). cbv zeta.
    apply Forall2_length in Hsamples. split; intros E.
    - rewrite E in Hsamples. now apply length_zero_iff_nil.
    - rewrite E in Hsamples. symmetry in Hsamples. now apply length_zero_iff_nil. }
  split; [|split; [|split; [exact Hempty|]]].
  - rewrite <- (Forall2_length Hsamples). apply firstn_le_length.
  - intros id n a b Hin.
    destruct (@Forall2_In_r _ _ _ _ _ _ Hsamples Hin) as ([id' n'] & Hentry & Hsample).
    destruct (multi_point_entries Hok rows id' n' Hentry) as [Hn Hlen].
    destruct (@debug_sample_run argsort Hok rows id' n') as (a' & b' & Hrun' & H).
    { intros E. rewrite E in Hlen. simpl in Hlen. lia. }
    rewrite Hrun' in Hsample. injection Hsample as <- <- <- <-.
    split; [exact Hn|]. split; [exact Hlen|]. exact H.
  - intros E. pose proof (proj1 Hempty E) as Hone. clear E.
    destruct (create_flight_paths_drawn 2 Hok Hne) as (paths & Hpaths & _ & _ & Hids).
    rewrite Hpaths. destruct paths as [|p paths]; [reflexivity|]. exfalso.
    destruct (proj1 (Hids (path_aircraft p))) as [_ Hd]; [now left|].
    unfold drawn in Hd. apply andb_true_iff in Hd. destruct Hd as [Hd _].
    apply Nat.leb_le in Hd. specialize (Hone (path_aircraft p)). lia.
Qed.

Lemma debug_data_samples_witness :
  let rows := [parsed_row (Some 2000%Z) "a0b1c2" "UAL12" 39.5 (-105) 9000 9100;
               parsed_row (Some 1000%Z) "c0ffee" "DAL7" 40 (-104) 3000 3100;
               parsed_row (Some 1000%Z) "a0b1c2" "UAL12" 39.25 (-105) 9000 9100] in
  exists info : DebugInfo,
    debug_data stable_argsort (Frame rows) = Ok (Some info) /\
    first_records info = firstn 3 rows /\
    (List.length (multi_point_aircraft info) <= 5)%nat /\
    (forall (id : string) (n : nat) (a b : Row),
       In (id, n, a, b) (multi_point_aircraft info) ->
       (2 <= n)%nat /\
       n = List.length (filter (has_icao24 id) rows) /\
       In a rows /\ In b rows /\
       icao24 a = OStr id /\ icao24 b = OStr id /\
       time_le (timestamp a) (timestamp b)) /\
    (multi_point_aircraft info = []
     <-> forall id : string, (List.length (filter (has_icao24 id) rows) <= 1)%nat) /\
    (multi_point_aircraft info = [] ->
     create_flight_paths stable_argsort (Frame rows) 2 = Ok (Some [])).
Proof.
  intros rows.
  apply (@debug_data_samples stable_argsort rows).
  - apply insertion_argsort_spec.
  - discriminate.
Defined.

(** ** [create_dashboard] *)

Lemma animation_of_dated (rows : list Row) :
  rows <> [] ->
  forallb dated rows = true ->
  exists animation, create_time_animation (Frame rows) = Ok (Some animation).
Proof.
  intros Hne Hall. rewrite (create_time_animation_run Hne).
  destruct (@mapM_all_ok _ _ animation_feature (sort_values_timestamp_icao24 rows))
    as [features ->].
  - apply Forall_forall. intros r Hr.
    apply (proj1 (sort_values_timestamp_icao24_In r rows)) in Hr.
    rewrite forallb_forall in Hall. specialize (Hall r Hr).
    unfold dated in Hall. destruct (timestamp r) as [ns|] eqn:E; [|discriminate].
    rewrite (animation_feature_ok r E). eauto.
  - eexists. reflexivity.
Qed.

Lemma animation_of_undated (rows : list Row) :
  rows <> [] ->
  forallb dated rows = false ->
  create_time_animation (Frame rows) = Raise ValueError.
Proof.
  intros Hne Hall. rewrite (create_time_animation_run Hne).
  assert (Hr : exists r, In r rows /\ timestamp r = None).
  { clear Hne. induction rows as [|r rows IH]; [discriminate|].
    simpl in Hall. apply andb_false_iff in Hall. destruct Hall as [H|H].
    - exists r. split; [now left|]. unfold dated in H.
      destruct (timestamp r); [discriminate|reflexivity].
    - destruct (IH H) as (r' & Hin & Hr'). exists r'. split; [now right|exact Hr']. }
  destruct Hr as (r & Hin & Hr).
  rewrite (@mapM_raises _ _ animation_feature (sort_values_timestamp_icao24 rows)
                        ValueError r).
  - reflexivity.
  - intros a e H. apply animation_feature_raises in H. tauto.
  - apply sort_values_timestamp_icao24_In, Hin.
  - unfold animation_feature. rewrite Hr. reflexivity.
Qed.

(** X21.  The files a run of [create_dashboard] writes.  On an empty store no
    map is written and the index page still is.  On a store with a record
    without a timestamp the run ends in the animation with a ValueError:
    the static map is the only file written, and no index page.  On a
    store whose records all have a timestamp the four maps are written, in
    their order; the statistics come next, so when the callsign column is
    a number column with a callsign the run ends there with an
    AttributeError and no index page, and otherwise the index page is
    written last. *)
Theorem dashboard_files
    (argsort : list Z -> list nat) (callsign_dtype : Dtype) (data : DataFrame) :
  argsort_spec argsort ->
  create_dashboard argsort callsign_dtype data
  = if empty data then mkDashboard ["index.html"] (Ok tt)
    else if forallb dated (rows_of data)
    then
      match callsign_dtype, dropna_obj (map (@callsign _) (rows_of data)) with
      | NumberDtype, _ :: _ =>
          mkDashboard ["aircraft_static_map.html"; "aircraft_animation.html";
                       "aircraft_flight_paths.html"; "aircraft_heatmap.html"]
                      (Raise AttributeError)
      | _, _ =>
          mkDashboard ["aircraft_static_map.html"; "aircraft_animation.html";
                       "aircraft_flight_paths.html"; "aircraft_heatmap.html";
                       "index.html"] (Ok tt)
      end
    else mkDashboard ["aircraft_static_map.html"] (Raise ValueError).
Proof.
  intros Hok. destruct data as [|rows]; [destruct callsign_dtype; reflexivity|].
  destruct rows as [|r0 rows0] eqn:Erows; [destruct callsign_dtype; reflexivity|].
  rewrite <- Erows.
  assert (Hne : rows <> []) by (rewrite Erows; discriminate).
  rewrite (empty_frame Hne). cbn [rows_of].
  unfold create_dashboard.
  destruct (debug_data_run Hok Hne) as (samples & -> & _).
  assert (Hstatic : create_static_map (Frame rows)
                    = Ok (Some (map static_marker rows))).
  { unfold create_static_map. rewrite (empty_frame Hne). reflexivity. }
  rewrite Hstatic. cbn [saved].
  destruct (forallb dated rows) eqn:Edated.
  - destruct (animation_of_dated Hne Edated) as [animation ->].
    destruct (create_flight_paths_drawn 2 Hok Hne) as (paths & -> & _).
    assert (Hheat : create_heatmap (Frame rows)
                    = Ok (Some (map (fun row => (latitude row, longitude row)) rows))).
    { unfold create_heatmap. rewrite (empty_frame Hne). reflexivity. }
    rewrite Hheat.
    rewrite (generate_statistics_dtype_run callsign_dtype Hok Hne).
    destruct (generate_statistics_fields argsort Hne) as (report & Hreport & _).
    unfold Row, datetime64 in *.
    destruct callsign_dtype; [now rewrite Hreport|].
    destruct (dropna_obj (map (@callsign _) rows)); [now rewrite Hreport|reflexivity].
  - rewrite (animation_of_undated Hne Edated). reflexivity.
Qed.

Lemma dashboard_files_witness :
  let data := Frame [parsed_row (Some 2000%Z) "a0b1c2" "1200" 39.5 (-105) 9000 9100;
                     parsed_row (Some 3000%Z) "c0ffee" "7700" 40 (-104) 3000 3100] in
  create_dashboard stable_argsort NumberDtype data
  = if empty data then mkDashboard ["index.html"] (Ok tt)
    else if forallb dated (rows_of data)
    then
      match NumberDtype, dropna_obj (map (@callsign _) (rows_of data)) with
      | NumberDtype, _ :: _ =>
          mkDashboard ["aircraft_static_map.html"; "aircraft_animation.html";
                       "aircraft_flight_paths.html"; "aircraft_heatmap.html"]
                      (Raise AttributeError)
      | _, _ =>
          mkDashboard ["aircraft_static_map.html"; "aircraft_animation.html";
                       "aircraft_flight_paths.html"; "aircraft_heatmap.html";
                       "index.html"] (Ok tt)
      end
    else mkDashboard ["aircraft_static_map.html"] (Raise ValueError).
Proof.
  intros data.
  apply (@dashboard_files stable_argsort NumberDtype data).
  apply insertion_argsort_spec.
Defined.

End DashboardFacts.
